(** * BattleBucks: purchase, fulfillment, equipment and profile activation

    A shallow embedding of the services of the BattleBucks back end
    ([purchase.service.ts] and the character profile service) over an
    explicit model of the Prisma tables they read and write.

    Conventions of the embedding:
    - a table is the list of its rows, in insertion order; [findFirst] and
      [findUnique] return the first matching row, [findMany] filters,
      [create] appends, [updateMany] maps and [deleteMany] filters out;
    - numbers ([price], [balance], [quantity], [amount], timestamps in
      milliseconds) are integers in [Z];
    - an optional or nullable string is an [option string], and the
      JavaScript truthiness tests of the source ([if (x)], [!x], [a || b])
      are written with [truthy];
    - an exception is a value of [Exception]: the Nest exception class and
      the message template it was built from;
    - a service method is a computation in the monad [M]: it takes the
      database and returns a result or an exception together with the
      database it leaves behind; [transaction] restores the initial database
      when its body throws, as [prisma.$transaction] does;
    - columns that are only displayed and never read by the modelled methods
      (descriptions, delivery data, image urls, rarity, audit timestamps
      other than the ones used) are left out of the rows;
    - the Prisma schema is not among the sources: the unique key
      (userId, itemId) of the inventory, the unique [userId] of a wallet, the
      foreign key from a profile to its game and the defaults of the columns
      that [create] does not set ([attempts] 0, [lastAttempt] null,
      [isConsumed] false) are the ones the code relies on
      ([findUnique({ userId_itemId })], [include: { game }], ...). *)

From Stdlib Require Import ZArith List String Bool Lia DecimalString.
Import ListNotations.

Local Open Scope string_scope.
Local Open Scope Z_scope.
Local Open Scope list_scope.

(** ** Enumerations (the [enum]s of the DTO files) *)

Inductive ItemCategory := SKIN | DIGITAL_REWARD | PHYSICAL_MERCH | UTILITY | CAT_CONSUMABLE.
Inductive ItemType := CONSUMABLE | NON_CONSUMABLE.
Inductive DeliveryType := IN_GAME | EMAIL | SHOPIFY | FUNCTIONAL.
Inductive PurchaseStatus := PS_PENDING | PS_COMPLETED | PS_FAILED | PS_REFUNDED.
Inductive FulfillmentStatus := FS_PENDING | FS_PROCESSING | FS_COMPLETED | FS_FAILED | FS_RETRY.
Inductive TransactionType := CREDIT | DEBIT.

Definition PurchaseStatus_eqb (a b : PurchaseStatus) : bool :=
  match a, b with
  | PS_PENDING, PS_PENDING | PS_COMPLETED, PS_COMPLETED
  | PS_FAILED, PS_FAILED | PS_REFUNDED, PS_REFUNDED => true
  | _, _ => false
  end.

Definition FulfillmentStatus_eqb (a b : FulfillmentStatus) : bool :=
  match a, b with
  | FS_PENDING, FS_PENDING | FS_PROCESSING, FS_PROCESSING
  | FS_COMPLETED, FS_COMPLETED | FS_FAILED, FS_FAILED | FS_RETRY, FS_RETRY => true
  | _, _ => false
  end.

(** ** JavaScript truthiness and strict equality on nullable strings *)

Definition truthy (o : option string) : bool :=
  match o with
  | Some s => negb (String.eqb s "")
  | None => false
  end.

Definition truthy_number (o : option Z) : bool :=
  match o with
  | Some z => negb (Z.eqb z 0)
  | None => false
  end.

Definition truthy_boolean (o : option bool) : bool :=
  match o with
  | Some b => b
  | None => false
  end.

(** [a || b] on strings: [a] when it is a non-empty string, else [b]. *)
Definition or_else (a : option string) (b : string) : string :=
  match a with
  | Some s => if String.eqb s "" then b else s
  | None => b
  end.

Definition nullable_eqb (a b : option string) : bool :=
  match a, b with
  | Some x, Some y => String.eqb x y
  | None, None => true
  | _, _ => false
  end.

(** ** Rows *)

(** [storeItem.metadata], a JSON object: the keys the services read. *)
Record Metadata := mkMetadata {
  gemAmount : option Z;
  instant : option bool;
  effect : option string }.

(** [storeItem.gameSpecificData], a JSON object: the keys the services read. *)
Record GameSpecificData := mkGameSpecificData {
  gsd_slot : option string;
  weaponClass : option string }.

Module Game.
Record t := mk { id : string; isActive : bool }.
End Game.

Module StoreItem.
Record t := mk {
    id : string;
    name : string;
    price : Z;
    category : ItemCategory;
    type : ItemType;
    deliveryType : DeliveryType;
    gameId : option string;
    isActive : bool;
    metadata : option Metadata;
    gameSpecificData : option GameSpecificData }.
End StoreItem.

Module UserWallet.
Record t := mk { id : string; userId : string; balance : Z }.
End UserWallet.

Module WalletTransaction.
Record t := mk {
    walletId : string;
    type : TransactionType;
    amount : Z;
    referenceId : string }.
End WalletTransaction.

Module Purchase.
Record t := mk {
    id : string;
    userId : string;
    totalAmount : Z;
    status : PurchaseStatus;
    paymentMethod : string;
    createdAt : Z }.
End Purchase.

Module PurchaseItem.
Record t := mk {
    purchaseId : string;
    itemId : string;
    quantity : Z;
    unitPrice : Z;
    totalPrice : Z }.
End PurchaseItem.

Module UserInventory.
Record t := mk {
    userId : string;
    itemId : string;
    quantity : Z;
    isConsumed : bool }.
End UserInventory.

Module ItemFulfillment.
Record t := mk {
    purchaseId : string;
    userId : string;
    itemId : string;
    status : FulfillmentStatus;
    deliveryType : DeliveryType;
    attempts : Z;
    lastAttempt : option Z;
    completedAt : option Z }.
End ItemFulfillment.

Module CharacterProfile.
Record t := mk {
    id : string;
    userId : string;
    gameId : option string;
    name : string;
    isActive : bool }.
End CharacterProfile.

Module CharacterEquippedItem.
Record t := mk {
    id : string;
    profileId : string;
    itemId : string;
    slot : string }.
End CharacterEquippedItem.

(** ** Request bodies *)

Module PurchaseItemDto.
Record t := mk { itemId : string; quantity : Z }.
End PurchaseItemDto.

Module CreatePurchaseDto.
Record t := mk { items : list PurchaseItemDto.t; idempotencyKey : option string }.
End CreatePurchaseDto.

Module CreateCharacterProfileDto.
Record t := mk { name : string; gameId : option string }.
End CreateCharacterProfileDto.

Module EquipItemDto.
Record t := mk { itemId : string; slot : option string }.
End EquipItemDto.

Module PurchaseResponseDto.
Record t := mk {
    id : string;
    userId : string;
    totalAmount : Z;
    status : PurchaseStatus;
    paymentMethod : string;
    items : list PurchaseItem.t }.
End PurchaseResponseDto.

(** ** The database *)

Record Db := mkDb {
  games : list Game.t;
  storeItems : list StoreItem.t;
  userWallets : list UserWallet.t;
  walletTransactions : list WalletTransaction.t;
  purchases : list Purchase.t;
  purchaseItems : list PurchaseItem.t;
  userInventories : list UserInventory.t;
  itemFulfillments : list ItemFulfillment.t;
  characterProfiles : list CharacterProfile.t;
  characterEquippedItems : list CharacterEquippedItem.t;
  nextId : nat;   (* how many identifiers the database has generated *)
  now : Z         (* the clock, [Date.now()], in milliseconds *) }.

Definition with_userWallets (l : list UserWallet.t) (db : Db) : Db :=
  mkDb (games db) (storeItems db) l (walletTransactions db) (purchases db)
       (purchaseItems db) (userInventories db) (itemFulfillments db)
       (characterProfiles db) (characterEquippedItems db) (nextId db) (now db).

Definition with_walletTransactions (l : list WalletTransaction.t) (db : Db) : Db :=
  mkDb (games db) (storeItems db) (userWallets db) l (purchases db)
       (purchaseItems db) (userInventories db) (itemFulfillments db)
       (characterProfiles db) (characterEquippedItems db) (nextId db) (now db).

Definition with_purchases (l : list Purchase.t) (db : Db) : Db :=
  mkDb (games db) (storeItems db) (userWallets db) (walletTransactions db) l
       (purchaseItems db) (userInventories db) (itemFulfillments db)
       (characterProfiles db) (characterEquippedItems db) (nextId db) (now db).

Definition with_purchaseItems (l : list PurchaseItem.t) (db : Db) : Db :=
  mkDb (games db) (storeItems db) (userWallets db) (walletTransactions db)
       (purchases db) l (userInventories db) (itemFulfillments db)
       (characterProfiles db) (characterEquippedItems db) (nextId db) (now db).

Definition with_userInventories (l : list UserInventory.t) (db : Db) : Db :=
  mkDb (games db) (storeItems db) (userWallets db) (walletTransactions db)
       (purchases db) (purchaseItems db) l (itemFulfillments db)
       (characterProfiles db) (characterEquippedItems db) (nextId db) (now db).

Definition with_itemFulfillments (l : list ItemFulfillment.t) (db : Db) : Db :=
  mkDb (games db) (storeItems db) (userWallets db) (walletTransactions db)
       (purchases db) (purchaseItems db) (userInventories db) l
       (characterProfiles db) (characterEquippedItems db) (nextId db) (now db).

Definition with_characterProfiles (l : list CharacterProfile.t) (db : Db) : Db :=
  mkDb (games db) (storeItems db) (userWallets db) (walletTransactions db)
       (purchases db) (purchaseItems db) (userInventories db) (itemFulfillments db)
       l (characterEquippedItems db) (nextId db) (now db).

Definition with_characterEquippedItems (l : list CharacterEquippedItem.t) (db : Db) : Db :=
  mkDb (games db) (storeItems db) (userWallets db) (walletTransactions db)
       (purchases db) (purchaseItems db) (userInventories db) (itemFulfillments db)
       (characterProfiles db) l (nextId db) (now db).

Definition with_nextId (n : nat) (db : Db) : Db :=
  mkDb (games db) (storeItems db) (userWallets db) (walletTransactions db)
       (purchases db) (purchaseItems db) (userInventories db) (itemFulfillments db)
       (characterProfiles db) (characterEquippedItems db) n (now db).

(** ** Exceptions *)

(** The message templates of the [throw] statements, with their arguments. *)
Inductive Message :=
| Duplicate_purchase_detected
| At_least_one_item_is_required_for_purchase
| One_or_more_items_not_found_or_inactive
| Item_not_found (itemId : string)
| Quantity_must_be_between_1_and_100
| Non_consumable_item_can_only_be_purchased_with_quantity_1 (name : string)
| Insufficient_gems_Required_Available (required available : Z)
| User_wallet_not_found
| Insufficient_gems_for_this_purchase
| You_already_own (name : string)
| Purchase_not_found
| Purchase_not_found_or_cannot_be_retried
| No_failed_fulfillments_to_retry
| Game_not_found_or_inactive
| Character_with_name_already_exists (name : string) (gameSpecific : bool)
| Character_profile_not_found
| Item_not_found_in_inventory_or_already_consumed
| Item_is_for_but_character_is_for (itemGame : string) (profileGame : string)
| Consumable_items_cannot_be_equipped.

Inductive Exception :=
| NotFoundException (m : Message)
| BadRequestException (m : Message)
| ConflictException (m : Message)
| TypeError                      (* a property read on [undefined] *)
| PrismaError (code : string).   (* P2002 unique constraint, P2003 foreign key, P2025 record not found *)

(** ** The monad of service methods *)

Definition M (A : Type) : Type := Db -> (Exception + A) * Db.

Definition ret {A} (a : A) : M A := fun db => (inr a, db).

Definition throw {A} (e : Exception) : M A := fun db => (inl e, db).

Definition bind {A B} (m : M A) (k : A -> M B) : M B :=
  fun db =>
    match m db with
    | (inl e, db') => (inl e, db')
    | (inr a, db') => k a db'
    end.

Notation "x <- m ;; k" := (bind m (fun x => k))
  (at level 61, m at next level, right associativity).
Notation "m ;;; k" := (bind m (fun _ => k))
  (at level 61, right associativity).

Definition gets {A} (f : Db -> A) : M A := fun db => (inr (f db), db).

Definition modify (f : Db -> Db) : M unit := fun db => (inr tt, f db).

(** [prisma.$transaction]: all or nothing. *)
Definition transaction {A} (body : M A) : M A :=
  fun db =>
    match body db with
    | (inl e, _) => (inl e, db)
    | (inr a, db') => (inr a, db')
    end.

(** Identifiers generated by the database ([cuid()]). *)
Definition cuid (n : nat) : string :=
  String.append "c" (NilEmpty.string_of_uint (Nat.to_uint n)).

Definition freshId : M string :=
  fun db => (inr (cuid (nextId db)), with_nextId (S (nextId db)) db).

(** ** Prisma primitives on a table *)

(** [update] on a unique key: the first matching row is replaced. *)
Fixpoint replace_first {A} (p : A -> bool) (f : A -> A) (l : list A) : list A :=
  match l with
  | [] => []
  | a :: l' => if p a then f a :: l' else a :: replace_first p f l'
  end.

Definition updateMany {A} (p : A -> bool) (f : A -> A) (l : list A) : list A :=
  map (fun a => if p a then f a else a) l.

Definition deleteMany {A} (p : A -> bool) (l : list A) : list A :=
  filter (fun a => negb (p a)) l.

Definition count {A} (p : A -> bool) (l : list A) : Z :=
  Z.of_nat (List.length (filter p l)).

(** ** purchase.service.ts *)

Module PurchasesService.

(** Lines 36-48: the first purchase of the user created in the last five
    minutes. The key is a parameter of the method and is not used. *)
Definition checkDuplicatePurchase (userId : string) (idempotencyKey : string)
  : M (option Purchase.t) :=
  gets (fun db =>
    find (fun p => String.eqb (Purchase.userId p) userId
                   && (now db - 5 * 60 * 1000 <=? Purchase.createdAt p))
         (purchases db)).

(** [new Map(storeItems.map(item => [item.id, item])).get(id)]: a later entry
    of the same key replaces an earlier one. *)
Definition itemsMap_get (storeItems : list StoreItem.t) (id : string) : option StoreItem.t :=
  find (fun si => String.eqb (StoreItem.id si) id) (rev storeItems).

(** [storeItems.find(si => si.id === id)]. *)
Definition storeItems_find (storeItems : list StoreItem.t) (id : string) : option StoreItem.t :=
  find (fun si => String.eqb (StoreItem.id si) id) storeItems.

Definition isNonConsumable (t : ItemType) : bool :=
  match t with NON_CONSUMABLE => true | CONSUMABLE => false end.

(** Lines 73-91: the loop that checks the quantities and adds up the cost. *)
Fixpoint sumPurchaseItems (storeItems : list StoreItem.t)
  (items : list PurchaseItemDto.t) (totalCost : Z) : Exception + Z :=
  match items with
  | [] => inr totalCost
  | purchaseItem :: rest =>
    match itemsMap_get storeItems (PurchaseItemDto.itemId purchaseItem) with
    | None => inl (NotFoundException (Item_not_found (PurchaseItemDto.itemId purchaseItem)))
    | Some storeItem =>
      if (PurchaseItemDto.quantity purchaseItem <=? 0)
         || (100 <? PurchaseItemDto.quantity purchaseItem)
      then inl (BadRequestException Quantity_must_be_between_1_and_100)
      else if isNonConsumable (StoreItem.type storeItem)
              && negb (PurchaseItemDto.quantity purchaseItem =? 1)
      then inl (BadRequestException
             (Non_consumable_item_can_only_be_purchased_with_quantity_1
                (StoreItem.name storeItem)))
      else sumPurchaseItems storeItems rest
             (totalCost + StoreItem.price storeItem * PurchaseItemDto.quantity purchaseItem)
    end
  end.

(** Lines 50-94. *)
Definition validatePurchaseItems (items : list PurchaseItemDto.t)
  : M (list StoreItem.t * Z) :=
  match items with
  | [] => throw (BadRequestException At_least_one_item_is_required_for_purchase)
  | _ =>
    let itemIds := map PurchaseItemDto.itemId items in
    storeItems <- gets (fun db =>
      filter (fun si => existsb (String.eqb (StoreItem.id si)) itemIds
                        && StoreItem.isActive si)
             (storeItems db)) ;;
    if negb (Nat.eqb (List.length storeItems) (List.length itemIds))
    then throw (NotFoundException One_or_more_items_not_found_or_inactive)
    else
      match sumPurchaseItems storeItems items 0 with
      | inl e => throw e
      | inr totalCost => ret (storeItems, totalCost)
      end
  end.

(** Lines 96-106. *)
Definition getUserWallet (userId : string) : M UserWallet.t :=
  wallet <- gets (fun db =>
    find (fun w => String.eqb (UserWallet.userId w) userId) (userWallets db)) ;;
  match wallet with
  | None => throw (NotFoundException User_wallet_not_found)
  | Some wallet => ret wallet
  end.

(** [tx.userWallet.update({ where: { userId }, data: { balance: ... } })]:
    returns the updated row. *)
Definition userWallet_update (userId : string) (f : Z -> Z) : M UserWallet.t :=
  fun db =>
    let p := fun w => String.eqb (UserWallet.userId w) userId in
    let upd := fun w =>
      UserWallet.mk (UserWallet.id w) (UserWallet.userId w) (f (UserWallet.balance w)) in
    match find p (userWallets db) with
    | None => (inl (PrismaError "P2025"), db)
    | Some w => (inr (upd w), with_userWallets (replace_first p upd (userWallets db)) db)
    end.

Definition walletTransaction_create (row : WalletTransaction.t) : M unit :=
  modify (fun db => with_walletTransactions (walletTransactions db ++ [row]) db).

Definition purchase_create (userId : string) (totalAmount : Z)
  (status : PurchaseStatus) (paymentMethod : string) : M Purchase.t :=
  id <- freshId ;;
  createdAt <- gets now ;;
  let row := Purchase.mk id userId totalAmount status paymentMethod createdAt in
  modify (fun db => with_purchases (purchases db ++ [row]) db) ;;;
  ret row.

Definition purchaseItem_create (row : PurchaseItem.t) : M PurchaseItem.t :=
  modify (fun db => with_purchaseItems (purchaseItems db ++ [row]) db) ;;;
  ret row.

(** [tx.userInventory.findUnique({ where: { userId_itemId } })]. *)
Definition userInventory_findUnique (userId itemId : string) : M (option UserInventory.t) :=
  gets (fun db =>
    find (fun r => String.eqb (UserInventory.userId r) userId
                   && String.eqb (UserInventory.itemId r) itemId)
         (userInventories db)).

(** [tx.userInventory.create]: the pair (userId, itemId) is a unique key. *)
Definition userInventory_create (userId itemId : string) (quantity : Z) : M unit :=
  existing <- userInventory_findUnique userId itemId ;;
  match existing with
  | Some _ => throw (PrismaError "P2002")
  | None =>
    modify (fun db =>
      with_userInventories
        (userInventories db ++ [UserInventory.mk userId itemId quantity false]) db)
  end.

(** [tx.userInventory.upsert]: increments the quantity of the existing row,
    or creates the row. *)
Definition userInventory_upsert (userId itemId : string) (quantity : Z) : M unit :=
  existing <- userInventory_findUnique userId itemId ;;
  match existing with
  | Some _ =>
    modify (fun db =>
      with_userInventories
        (replace_first
           (fun r => String.eqb (UserInventory.userId r) userId
                     && String.eqb (UserInventory.itemId r) itemId)
           (fun r => UserInventory.mk (UserInventory.userId r) (UserInventory.itemId r)
                       (UserInventory.quantity r + quantity) (UserInventory.isConsumed r))
           (userInventories db)) db)
  | None =>
    modify (fun db =>
      with_userInventories
        (userInventories db ++ [UserInventory.mk userId itemId quantity false]) db)
  end.

(** Lines 196-215. *)
Fixpoint validateNonConsumableOwnership (userId : string)
  (items : list PurchaseItemDto.t) (storeItems : list StoreItem.t) : M unit :=
  match items with
  | [] => ret tt
  | purchaseItem :: rest =>
    match storeItems_find storeItems (PurchaseItemDto.itemId purchaseItem) with
    | None => throw TypeError
    | Some storeItem =>
      match StoreItem.type storeItem with
      | NON_CONSUMABLE =>
        existingInventory <-
          userInventory_findUnique userId (PurchaseItemDto.itemId purchaseItem) ;;
        match existingInventory with
        | Some _ => throw (BadRequestException (You_already_own (StoreItem.name storeItem)))
        | None => validateNonConsumableOwnership userId rest storeItems
        end
      | CONSUMABLE => validateNonConsumableOwnership userId rest storeItems
      end
    end
  end.

(** [storeItem.metadata?.instant], as a truth value. *)
Definition metadata_instant (storeItem : StoreItem.t) : bool :=
  match StoreItem.metadata storeItem with
  | Some m => truthy_boolean (instant m)
  | None => false
  end.

(** [metadata?.gemAmount], as a truth value. *)
Definition metadata_gemAmount_truthy (storeItem : StoreItem.t) : bool :=
  match StoreItem.metadata storeItem with
  | Some m => truthy_number (gemAmount m)
  | None => false
  end.

Definition metadata_gemAmount (storeItem : StoreItem.t) : Z :=
  match StoreItem.metadata storeItem with
  | Some (mkMetadata (Some g) _ _) => g
  | _ => 0
  end.

Definition isFunctional (d : DeliveryType) : bool :=
  match d with FUNCTIONAL => true | _ => false end.

(** Lines 217-255. *)
Fixpoint addItemsToInventory (userId : string)
  (items : list PurchaseItemDto.t) (storeItems : list StoreItem.t) : M unit :=
  match items with
  | [] => ret tt
  | item :: rest =>
    match storeItems_find storeItems (PurchaseItemDto.itemId item) with
    | None => throw TypeError
    | Some storeItem =>
      if isFunctional (StoreItem.deliveryType storeItem) && metadata_instant storeItem
      then addItemsToInventory userId rest storeItems
      else
        match StoreItem.type storeItem with
        | CONSUMABLE =>
          userInventory_upsert userId (PurchaseItemDto.itemId item)
            (PurchaseItemDto.quantity item) ;;;
          addItemsToInventory userId rest storeItems
        | NON_CONSUMABLE =>
          userInventory_create userId (PurchaseItemDto.itemId item) 1 ;;;
          addItemsToInventory userId rest storeItems
        end
    end
  end.

(** Lines 257-301. The branches that only write to the log (the DOUBLE_XP
    effect, the membership) leave no trace in the database. *)
Fixpoint processFunctionalItems (userId : string)
  (items : list PurchaseItemDto.t) (storeItems : list StoreItem.t)
  (walletId : string) : M unit :=
  match items with
  | [] => ret tt
  | item :: rest =>
    match storeItems_find storeItems (PurchaseItemDto.itemId item) with
    | None => throw TypeError
    | Some storeItem =>
      if isFunctional (StoreItem.deliveryType storeItem)
         && (metadata_gemAmount_truthy storeItem && metadata_instant storeItem)
      then
        let gemAmount := metadata_gemAmount storeItem * PurchaseItemDto.quantity item in
        userWallet_update userId (fun b => b + gemAmount) ;;;
        walletTransaction_create
          (WalletTransaction.mk walletId CREDIT gemAmount
             (String.append "gem-pack-" (StoreItem.id storeItem))) ;;;
        processFunctionalItems userId rest storeItems walletId
      else processFunctionalItems userId rest storeItems walletId
    end
  end.

(** Lines 324-335. The [default] arm of the source is not reachable from a
    value of the enumeration. *)
Definition getFulfillmentStatus (deliveryType : DeliveryType) : FulfillmentStatus :=
  match deliveryType with
  | IN_GAME | FUNCTIONAL => FS_COMPLETED
  | EMAIL | SHOPIFY => FS_PENDING
  end.

(** Lines 303-322. [attempts] and [lastAttempt] take the defaults of the
    table. *)
Fixpoint createFulfillmentRecords (purchaseId userId : string)
  (items : list PurchaseItemDto.t) (storeItems : list StoreItem.t) : M unit :=
  match items with
  | [] => ret tt
  | item :: rest =>
    match storeItems_find storeItems (PurchaseItemDto.itemId item) with
    | None => throw TypeError
    | Some storeItem =>
      let fulfillmentStatus := getFulfillmentStatus (StoreItem.deliveryType storeItem) in
      date <- gets now ;;
      modify (fun db =>
        with_itemFulfillments
          (itemFulfillments db ++
             [ItemFulfillment.mk purchaseId userId (PurchaseItemDto.itemId item)
                fulfillmentStatus (StoreItem.deliveryType storeItem) 0 None
                (if FulfillmentStatus_eqb fulfillmentStatus FS_COMPLETED
                 then Some date else None)]) db) ;;;
      createFulfillmentRecords purchaseId userId rest storeItems
    end
  end.

(** Lines 153-167: the loop that creates the purchase items. *)
Fixpoint createPurchaseItems (purchaseId : string)
  (items : list PurchaseItemDto.t) (storeItems : list StoreItem.t)
  : M (list PurchaseItem.t) :=
  match items with
  | [] => ret []
  | item :: rest =>
    match storeItems_find storeItems (PurchaseItemDto.itemId item) with
    | None => throw TypeError
    | Some storeItem =>
      purchaseItem <- purchaseItem_create
        (PurchaseItem.mk purchaseId (PurchaseItemDto.itemId item)
           (PurchaseItemDto.quantity item) (StoreItem.price storeItem)
           (StoreItem.price storeItem * PurchaseItemDto.quantity item)) ;;
      purchaseItems <- createPurchaseItems purchaseId rest storeItems ;;
      ret (purchaseItem :: purchaseItems)
    end
  end.

(** Lines 367-408 and 608-626. *)
Definition getPurchaseWithDetails (purchaseId : string) : M PurchaseResponseDto.t :=
  purchase <- gets (fun db =>
    find (fun p => String.eqb (Purchase.id p) purchaseId) (purchases db)) ;;
  match purchase with
  | None => throw (NotFoundException Purchase_not_found)
  | Some purchase =>
    items <- gets (fun db =>
      filter (fun i => String.eqb (PurchaseItem.purchaseId i) purchaseId)
             (purchaseItems db)) ;;
    ret (PurchaseResponseDto.mk (Purchase.id purchase) (Purchase.userId purchase)
           (Purchase.totalAmount purchase) (Purchase.status purchase)
           (Purchase.paymentMethod purchase) items)
  end.

(** Lines 178-187: the reference of the pending wallet transactions becomes
    the purchase id. *)
Definition backfillReference (walletId purchaseId : string)
  (l : list WalletTransaction.t) : list WalletTransaction.t :=
  updateMany
    (fun t => String.eqb (WalletTransaction.walletId t) walletId
              && String.eqb (WalletTransaction.referenceId t) "purchase-pending")
    (fun t => WalletTransaction.mk (WalletTransaction.walletId t)
                (WalletTransaction.type t) (WalletTransaction.amount t) purchaseId)
    l.

(** Lines 115-193: the body of the transaction. *)
Definition purchaseTransactionBody (userId : string)
  (items : list PurchaseItemDto.t) (storeItems : list StoreItem.t)
  (totalCost : Z) : M PurchaseResponseDto.t :=
  validateNonConsumableOwnership userId items storeItems ;;;
  updatedWallet <- userWallet_update userId (fun b => b - totalCost) ;;
  (if UserWallet.balance updatedWallet <? 0
   then throw (BadRequestException Insufficient_gems_for_this_purchase)
   else ret tt) ;;;
  walletTransaction_create
    (WalletTransaction.mk (UserWallet.id updatedWallet) DEBIT totalCost
       "purchase-pending") ;;;
  purchase <- purchase_create userId totalCost PS_COMPLETED "GEMS" ;;
  purchaseItems <- createPurchaseItems (Purchase.id purchase) items storeItems ;;
  addItemsToInventory userId items storeItems ;;;
  processFunctionalItems userId items storeItems (UserWallet.id updatedWallet) ;;;
  createFulfillmentRecords (Purchase.id purchase) userId items storeItems ;;;
  modify (fun db =>
    with_walletTransactions
      (backfillReference (UserWallet.id updatedWallet) (Purchase.id purchase)
         (walletTransactions db)) db) ;;;
  getPurchaseWithDetails (Purchase.id purchase).

(** Lines 108-194. *)
Definition executePurchaseTransaction (userId : string)
  (items : list PurchaseItemDto.t) (storeItems : list StoreItem.t)
  (totalCost : Z) (idempotencyKey : option string) : M PurchaseResponseDto.t :=
  transaction (purchaseTransactionBody userId items storeItems totalCost).

(** Lines 11-34. *)
Definition createPurchase (userId : string) (createPurchaseDto : CreatePurchaseDto.t)
  : M PurchaseResponseDto.t :=
  let items := CreatePurchaseDto.items createPurchaseDto in
  let idempotencyKey := CreatePurchaseDto.idempotencyKey createPurchaseDto in
  (match idempotencyKey with
   | Some key =>
     if truthy idempotencyKey then
       existingPurchase <- checkDuplicatePurchase userId key ;;
       match existingPurchase with
       | Some _ => throw (ConflictException Duplicate_purchase_detected)
       | None => ret tt
       end
     else ret tt
   | None => ret tt
   end) ;;;
  validated <- validatePurchaseItems items ;;
  let (storeItems, totalCost) := validated : list StoreItem.t * Z in
  userWallet <- getUserWallet userId ;;
  if UserWallet.balance userWallet <? totalCost
  then throw (BadRequestException
         (Insufficient_gems_Required_Available totalCost (UserWallet.balance userWallet)))
  else executePurchaseTransaction userId items storeItems totalCost idempotencyKey.

(** Lines 563-606. *)
Definition retryPurchase (userId purchaseId : string) : M Z :=
  purchase <- gets (fun db =>
    find (fun p => String.eqb (Purchase.id p) purchaseId
                   && String.eqb (Purchase.userId p) userId
                   && PurchaseStatus_eqb (Purchase.status p) PS_COMPLETED)
         (purchases db)) ;;
  match purchase with
  | None => throw (NotFoundException Purchase_not_found_or_cannot_be_retried)
  | Some purchase =>
    fulfillments <- gets (fun db =>
      filter (fun f => String.eqb (ItemFulfillment.purchaseId f) (Purchase.id purchase)
                       && FulfillmentStatus_eqb (ItemFulfillment.status f) FS_FAILED)
             (itemFulfillments db)) ;;
    match fulfillments with
    | [] => throw (BadRequestException No_failed_fulfillments_to_retry)
    | _ =>
      let failed := fun f =>
        String.eqb (ItemFulfillment.purchaseId f) purchaseId
        && FulfillmentStatus_eqb (ItemFulfillment.status f) FS_FAILED in
      updatedCount <- gets (fun db => count failed (itemFulfillments db)) ;;
      date <- gets now ;;
      modify (fun db =>
        with_itemFulfillments
          (updateMany failed
             (fun f => ItemFulfillment.mk (ItemFulfillment.purchaseId f)
                         (ItemFulfillment.userId f) (ItemFulfillment.itemId f)
                         FS_RETRY (ItemFulfillment.deliveryType f)
                         (ItemFulfillment.attempts f + 1) (Some date)
                         (ItemFulfillment.completedAt f))
             (itemFulfillments db)) db) ;;;
      ret updatedCount
    end
  end.

End PurchasesService.

(** ** The character profile service ([CharacterProfilesService]) *)

Module CharacterProfilesService.

(** Lines 71-137. The row is created with the [gameId] of the request as it
    is; a [gameId] that names no game violates the foreign key. *)
Definition createCharacterProfile (userId : string)
  (createCharacterProfileDto : CreateCharacterProfileDto.t) : M CharacterProfile.t :=
  let name := CreateCharacterProfileDto.name createCharacterProfileDto in
  let gameId := CreateCharacterProfileDto.gameId createCharacterProfileDto in
  (if truthy gameId then
     game <- gets (fun db =>
       find (fun g => nullable_eqb (Some (Game.id g)) gameId && Game.isActive g)
            (games db)) ;;
     match game with
     | None => throw (BadRequestException Game_not_found_or_inactive)
     | Some _ => ret tt
     end
   else ret tt) ;;;
  existingProfile <- gets (fun db =>
    find (fun p => String.eqb (CharacterProfile.userId p) userId
                   && String.eqb (CharacterProfile.name p) name
                   && nullable_eqb (CharacterProfile.gameId p)
                        (if truthy gameId then gameId else None))
         (characterProfiles db)) ;;
  match existingProfile with
  | Some _ =>
    throw (ConflictException (Character_with_name_already_exists name (truthy gameId)))
  | None =>
    referenced <- gets (fun db =>
      match gameId with
      | None => true
      | Some g => existsb (fun x => String.eqb (Game.id x) g) (games db)
      end) ;;
    if negb referenced then throw (PrismaError "P2003")
    else
      id <- freshId ;;
      let profile := CharacterProfile.mk id userId gameId name true in
      modify (fun db => with_characterProfiles (characterProfiles db ++ [profile]) db) ;;;
      ret profile
  end.

Definition set_isActive (b : bool) (p : CharacterProfile.t) : CharacterProfile.t :=
  CharacterProfile.mk (CharacterProfile.id p) (CharacterProfile.userId p)
    (CharacterProfile.gameId p) (CharacterProfile.name p) b.

(** Lines 274-306. *)
Definition activateCharacterProfile (userId profileId : string) : M unit :=
  profile <- gets (fun db =>
    find (fun p => String.eqb (CharacterProfile.id p) profileId
                   && String.eqb (CharacterProfile.userId p) userId)
         (characterProfiles db)) ;;
  match profile with
  | None => throw (NotFoundException Character_profile_not_found)
  | Some profile =>
    transaction (
      modify (fun db =>
        with_characterProfiles
          (updateMany
             (fun p => String.eqb (CharacterProfile.userId p) userId
                       && nullable_eqb (CharacterProfile.gameId p)
                            (CharacterProfile.gameId profile)
                       && negb (String.eqb (CharacterProfile.id p) profileId))
             (set_isActive false) (characterProfiles db)) db) ;;;
      target <- gets (fun db =>
        find (fun p => String.eqb (CharacterProfile.id p) profileId)
             (characterProfiles db)) ;;
      match target with
      | None => throw (PrismaError "P2025")
      | Some _ =>
        modify (fun db =>
          with_characterProfiles
            (replace_first (fun p => String.eqb (CharacterProfile.id p) profileId)
               (set_isActive true) (characterProfiles db)) db)
      end)
  end.

(** Lines 496-510. *)
Definition validateItemCompatibility (storeItem : StoreItem.t)
  (profile : CharacterProfile.t) : M unit :=
  if negb (truthy (StoreItem.gameId storeItem)) then ret tt
  else if negb (nullable_eqb (StoreItem.gameId storeItem) (CharacterProfile.gameId profile))
  then
    let itemGame := or_else (StoreItem.gameId storeItem) "" in
    let profileGame := or_else (CharacterProfile.gameId profile) "platform-wide" in
    throw (BadRequestException (Item_is_for_but_character_is_for itemGame profileGame))
  else ret tt.

(** Lines 512-531. *)
Definition determineSlotFromItem (storeItem : StoreItem.t) : string :=
  let metadata :=
    match StoreItem.gameSpecificData storeItem with
    | Some m => m
    | None => mkGameSpecificData None None
    end in
  if truthy (gsd_slot metadata) then or_else (gsd_slot metadata) ""
  else
    let slotMapping :=
      match StoreItem.category storeItem with
      | SKIN =>
        if truthy (weaponClass metadata)
        then String.append (or_else (weaponClass metadata) "") "_skin"
        else "primary_skin"
      | UTILITY => "utility"
      | CAT_CONSUMABLE => "consumable"
      | DIGITAL_REWARD => "reward"
      | PHYSICAL_MERCH => "merchandise"
      end in
    or_else (Some slotMapping) "misc".

(** [slot || this.determineSlotFromItem(storeItem)]. *)
Definition equipmentSlot (slot : option string) (storeItem : StoreItem.t) : string :=
  or_else slot (determineSlotFromItem storeItem).

(** Lines 308-412. The inventory row is read together with its store item
    ([include: { storeItem: true }]). *)
Definition equipItem (userId profileId : string) (equipItemDto : EquipItemDto.t)
  : M CharacterEquippedItem.t :=
  let itemId := EquipItemDto.itemId equipItemDto in
  let slot := EquipItemDto.slot equipItemDto in
  transaction (
    profile <- gets (fun db =>
      find (fun p => String.eqb (CharacterProfile.id p) profileId
                     && String.eqb (CharacterProfile.userId p) userId)
           (characterProfiles db)) ;;
    match profile with
    | None => throw (NotFoundException Character_profile_not_found)
    | Some profile =>
      inventoryItem <- gets (fun db =>
        find (fun r => String.eqb (UserInventory.userId r) userId
                       && String.eqb (UserInventory.itemId r) itemId
                       && negb (UserInventory.isConsumed r))
             (userInventories db)) ;;
      match inventoryItem with
      | None => throw (NotFoundException Item_not_found_in_inventory_or_already_consumed)
      | Some inventoryItem =>
        included <- gets (fun db =>
          find (fun si => String.eqb (StoreItem.id si) (UserInventory.itemId inventoryItem))
               (storeItems db)) ;;
        match included with
        | None => throw TypeError
        | Some storeItem =>
          validateItemCompatibility storeItem profile ;;;
          match StoreItem.type storeItem with
          | CONSUMABLE => throw (BadRequestException Consumable_items_cannot_be_equipped)
          | NON_CONSUMABLE =>
            let equipmentSlot := equipmentSlot slot storeItem in
            modify (fun db =>
              with_characterEquippedItems
                (deleteMany
                   (fun e => String.eqb (CharacterEquippedItem.profileId e) profileId
                             && String.eqb (CharacterEquippedItem.slot e) equipmentSlot)
                   (characterEquippedItems db)) db) ;;;
            modify (fun db =>
              with_characterEquippedItems
                (deleteMany
                   (fun e => String.eqb (CharacterEquippedItem.profileId e) profileId
                             && String.eqb (CharacterEquippedItem.itemId e) itemId)
                   (characterEquippedItems db)) db) ;;;
            id <- freshId ;;
            let equippedItem := CharacterEquippedItem.mk id profileId itemId equipmentSlot in
            modify (fun db =>
              with_characterEquippedItems (characterEquippedItems db ++ [equippedItem]) db) ;;;
            ret equippedItem
          end
        end
      end
    end).

End CharacterProfilesService.

(** * Vocabulary of the properties *)

Module Vocabulary.
Import PurchasesService.

(** Every line names an item of the list [storeItems]. *)
Definition all_found (storeItems : list StoreItem.t) (items : list PurchaseItemDto.t) : Prop :=
  Forall (fun item => storeItems_find storeItems (PurchaseItemDto.itemId item) <> None) items.

(** The lines, each with the store item the loops of the transaction find
    for it. *)
Definition resolveItems (storeItems : list StoreItem.t) (items : list PurchaseItemDto.t)
  : list (PurchaseItemDto.t * StoreItem.t) :=
  flat_map
    (fun item =>
       match storeItems_find storeItems (PurchaseItemDto.itemId item) with
       | Some storeItem => [(item, storeItem)]
       | None => []
       end)
    items.

(** The purchase item written for a line. *)
Definition purchaseItemRow (purchaseId : string) (l : PurchaseItemDto.t * StoreItem.t)
  : PurchaseItem.t :=
  PurchaseItem.mk purchaseId (PurchaseItemDto.itemId (fst l))
    (PurchaseItemDto.quantity (fst l)) (StoreItem.price (snd l))
    (StoreItem.price (snd l) * PurchaseItemDto.quantity (fst l)).

(** The fulfillment written for a line. *)
Definition fulfillmentRow (purchaseId userId : string) (date : Z)
  (l : PurchaseItemDto.t * StoreItem.t) : ItemFulfillment.t :=
  ItemFulfillment.mk purchaseId userId (PurchaseItemDto.itemId (fst l))
    (getFulfillmentStatus (StoreItem.deliveryType (snd l)))
    (StoreItem.deliveryType (snd l)) 0 None
    (if FulfillmentStatus_eqb (getFulfillmentStatus (StoreItem.deliveryType (snd l)))
          FS_COMPLETED
     then Some date else None).

(** A gem pack: a FUNCTIONAL item whose metadata has a non-zero [gemAmount]
    and a true [instant]. *)
Definition isGemPack (storeItem : StoreItem.t) : bool :=
  isFunctional (StoreItem.deliveryType storeItem)
  && (metadata_gemAmount_truthy storeItem && metadata_instant storeItem).

Definition gemCredit (l : PurchaseItemDto.t * StoreItem.t) : Z :=
  metadata_gemAmount (snd l) * PurchaseItemDto.quantity (fst l).

Definition gemPacks (storeItems : list StoreItem.t) (items : list PurchaseItemDto.t)
  : list (PurchaseItemDto.t * StoreItem.t) :=
  filter (fun l => isGemPack (snd l)) (resolveItems storeItems items).

(** The credit written for a gem pack line. *)
Definition creditRow (walletId : string) (l : PurchaseItemDto.t * StoreItem.t)
  : WalletTransaction.t :=
  WalletTransaction.mk walletId CREDIT (gemCredit l)
    (String.append "gem-pack-" (StoreItem.id (snd l))).

Definition sumZ (l : list Z) : Z := fold_right Z.add 0 l.

(** The gems credited by the gem packs of a purchase. *)
Definition totalCredit (storeItems : list StoreItem.t) (items : list PurchaseItemDto.t) : Z :=
  sumZ (map gemCredit (gemPacks storeItems items)).

Definition set_balance (b : Z) (w : UserWallet.t) : UserWallet.t :=
  UserWallet.mk (UserWallet.id w) (UserWallet.userId w) b.

Definition ownedBy (userId itemId : string) (r : UserInventory.t) : bool :=
  String.eqb (UserInventory.userId r) userId && String.eqb (UserInventory.itemId r) itemId.

(** The inventory table after [addItemsToInventory], as a function of the
    table before; [addItemsToInventory_run] proves that the loop of the
    source computes it. *)
Fixpoint grantItems (userId : string) (storeItems : list StoreItem.t)
  (items : list PurchaseItemDto.t) (inv : list UserInventory.t)
  : Exception + list UserInventory.t :=
  match items with
  | [] => inr inv
  | item :: rest =>
    match storeItems_find storeItems (PurchaseItemDto.itemId item) with
    | None => inl TypeError
    | Some storeItem =>
      if isFunctional (StoreItem.deliveryType storeItem) && metadata_instant storeItem
      then grantItems userId storeItems rest inv
      else
        match StoreItem.type storeItem, find (ownedBy userId (PurchaseItemDto.itemId item)) inv with
        | CONSUMABLE, Some _ =>
          grantItems userId storeItems rest
            (replace_first (ownedBy userId (PurchaseItemDto.itemId item))
               (fun r => UserInventory.mk (UserInventory.userId r) (UserInventory.itemId r)
                           (UserInventory.quantity r + PurchaseItemDto.quantity item)
                           (UserInventory.isConsumed r))
               inv)
        | CONSUMABLE, None =>
          grantItems userId storeItems rest
            (inv ++ [UserInventory.mk userId (PurchaseItemDto.itemId item)
                       (PurchaseItemDto.quantity item) false])
        | NON_CONSUMABLE, Some _ => inl (PrismaError "P2002")
        | NON_CONSUMABLE, None =>
          grantItems userId storeItems rest
            (inv ++ [UserInventory.mk userId (PurchaseItemDto.itemId item) 1 false])
        end
    end
  end.

(** The rows of the user for an item. *)
Definition inventoryOf (userId itemId : string) (db : Db) : list UserInventory.t :=
  filter (ownedBy userId itemId) (userInventories db).

(** The duplicate suppression of [createPurchase] fires: a key was given
    and the user has a purchase in the trailing window. *)
Definition recentPurchase (userId : string) (db : Db) : option Purchase.t :=
  find (fun p => String.eqb (Purchase.userId p) userId
                 && (now db - 5 * 60 * 1000 <=? Purchase.createdAt p))
       (purchases db).

Definition duplicateSuppressed (userId : string) (idempotencyKey : option string) (db : Db)
  : bool :=
  truthy idempotencyKey
  && match recentPurchase userId db with Some _ => true | None => false end.

(** The rows of the catalogue that [validatePurchaseItems] selects. *)
Definition selectedItems (items : list PurchaseItemDto.t) (db : Db) : list StoreItem.t :=
  filter (fun si => existsb (String.eqb (StoreItem.id si)) (map PurchaseItemDto.itemId items)
                    && StoreItem.isActive si)
         (storeItems db).

(** The cost of the lines at the prices of [storeItems]. *)
Definition linesCost (l : list (PurchaseItemDto.t * StoreItem.t)) : Z :=
  sumZ (map (fun l => StoreItem.price (snd l) * PurchaseItemDto.quantity (fst l)) l).

(** The balance of the wallet of a user. *)
Definition balanceOf (userId : string) (db : Db) : option Z :=
  option_map UserWallet.balance
    (find (fun w => String.eqb (UserWallet.userId w) userId) (userWallets db)).

Definition isConflict (e : Exception) : bool :=
  match e with ConflictException _ => true | _ => false end.

(** The database a purchase commits; [purchaseTransactionBody_run] proves
    that the body of the transaction ends in it. *)
Definition committed (userId : string) (items : list PurchaseItemDto.t)
  (selected : list StoreItem.t) (totalCost : Z) (wallet : UserWallet.t)
  (inv : list UserInventory.t) (db : Db) : Db :=
  let purchaseId := cuid (nextId db) in
  mkDb (games db) (storeItems db)
    (replace_first (fun w => String.eqb (UserWallet.userId w) userId)
       (fun w => set_balance
                   (UserWallet.balance w - totalCost + totalCredit selected items) w)
       (userWallets db))
    (backfillReference (UserWallet.id wallet) purchaseId
       (walletTransactions db
          ++ WalletTransaction.mk (UserWallet.id wallet) DEBIT totalCost "purchase-pending"
          :: map (creditRow (UserWallet.id wallet)) (gemPacks selected items)))
    (purchases db
       ++ [Purchase.mk purchaseId userId totalCost PS_COMPLETED "GEMS" (now db)])
    (purchaseItems db ++ map (purchaseItemRow purchaseId) (resolveItems selected items))
    inv
    (itemFulfillments db
       ++ map (fulfillmentRow purchaseId userId (now db)) (resolveItems selected items))
    (characterProfiles db) (characterEquippedItems db)
    (S (nextId db)) (now db).

(** *** Fulfillments *)

Definition failedOf (purchaseId : string) (f : ItemFulfillment.t) : bool :=
  String.eqb (ItemFulfillment.purchaseId f) purchaseId
  && FulfillmentStatus_eqb (ItemFulfillment.status f) FS_FAILED.

(** What [retryPurchase] writes on a failed fulfillment. *)
Definition retried (date : Z) (f : ItemFulfillment.t) : ItemFulfillment.t :=
  ItemFulfillment.mk (ItemFulfillment.purchaseId f) (ItemFulfillment.userId f)
    (ItemFulfillment.itemId f) FS_RETRY (ItemFulfillment.deliveryType f)
    (ItemFulfillment.attempts f + 1) (Some date) (ItemFulfillment.completedAt f).

Definition retryable (userId purchaseId : string) (p : Purchase.t) : bool :=
  String.eqb (Purchase.id p) purchaseId
  && String.eqb (Purchase.userId p) userId
  && PurchaseStatus_eqb (Purchase.status p) PS_COMPLETED.

(** *** Character profiles and equipment *)

(** The profiles of a user for a game ([None]: platform-wide). *)
Definition partitionOf (userId : string) (gameId : option string)
  (p : CharacterProfile.t) : bool :=
  String.eqb (CharacterProfile.userId p) userId
  && nullable_eqb (CharacterProfile.gameId p) gameId.

(** The active profiles of a user for a game ([None]: platform-wide). *)
Definition activeIn (userId : string) (gameId : option string) (db : Db)
  : list CharacterProfile.t :=
  filter (fun p => String.eqb (CharacterProfile.userId p) userId
                   && nullable_eqb (CharacterProfile.gameId p) gameId
                   && CharacterProfile.isActive p)
         (characterProfiles db).

Definition inSlot (profileId slot : string) (e : CharacterEquippedItem.t) : bool :=
  String.eqb (CharacterEquippedItem.profileId e) profileId
  && String.eqb (CharacterEquippedItem.slot e) slot.

Definition ofItem (profileId itemId : string) (e : CharacterEquippedItem.t) : bool :=
  String.eqb (CharacterEquippedItem.profileId e) profileId
  && String.eqb (CharacterEquippedItem.itemId e) itemId.

(** At most one equipped item per slot and per item of a profile. *)
Definition equipment_exclusive (db : Db) : Prop :=
  (forall profileId slot,
     (List.length (filter (inSlot profileId slot) (characterEquippedItems db)) <= 1)%nat) /\
  (forall profileId itemId,
     (List.length (filter (ofItem profileId itemId) (characterEquippedItems db)) <= 1)%nat).

End Vocabulary.

(** * A demonstration database

    The rows of the seed script that the examples use: four store items, the
    wallet and two character profiles of the demo user. *)

Module Demo.

Definition ak47 : StoreItem.t :=
  StoreItem.mk "ak47" "Dragon's Breath AK-47" 2500 SKIN NON_CONSUMABLE IN_GAME
    (Some "cod") true None None.

Definition xpToken : StoreItem.t :=
  StoreItem.mk "xp" "Double XP Token" 500 CAT_CONSUMABLE CONSUMABLE FUNCTIONAL
    (Some "cod") true (Some (mkMetadata None None (Some "DOUBLE_XP"))) None.

Definition tshirt : StoreItem.t :=
  StoreItem.mk "tshirt" "BattleBucks T-Shirt" 1500 PHYSICAL_MERCH NON_CONSUMABLE SHOPIFY
    None true None None.

Definition gemPack : StoreItem.t :=
  StoreItem.mk "gems" "1000 Gem Pack" 0 DIGITAL_REWARD CONSUMABLE FUNCTIONAL
    None true (Some (mkMetadata (Some 1000) (Some true) None)) None.

Definition vandal : StoreItem.t :=
  StoreItem.mk "vandal" "Prime Vandal" 3500 SKIN NON_CONSUMABLE IN_GAME
    (Some "val") true None None.

(** A purchase of the energy token and of the shirt. *)
Definition order : CreatePurchaseDto.t :=
  CreatePurchaseDto.mk [PurchaseItemDto.mk "xp" 2; PurchaseItemDto.mk "tshirt" 1]
    (Some "purchase_2024_demo_1").

(** A purchase of the free gem pack. *)
Definition gemOrder : CreatePurchaseDto.t :=
  CreatePurchaseDto.mk [PurchaseItemDto.mk "gems" 1] None.

Definition seed : Db :=
  mkDb [Game.mk "cod" true; Game.mk "val" true]
       [ak47; xpToken; tshirt; gemPack; vandal]
       [UserWallet.mk "w1" "demo" 4500]
       [] [] [] [] []
       [CharacterProfile.mk "p1" "demo" (Some "cod") "Ghost_Warrior" true;
        CharacterProfile.mk "p2" "demo" (Some "val") "RadiantSniper" false;
        CharacterProfile.mk "p3" "demo" None "BattleBucksChampion" true]
       [] 0 1000000.

Definition noResponse : PurchaseResponseDto.t :=
  PurchaseResponseDto.mk "" "" 0 PS_FAILED "" [].

(** What [order] and [gemOrder] answer and commit on the seed. *)
Definition orderResponse : PurchaseResponseDto.t :=
  Eval vm_compute in
    match fst (PurchasesService.createPurchase "demo" order seed) with
    | inr r => r
    | inl _ => noResponse
    end.

Definition afterOrder : Db :=
  Eval vm_compute in snd (PurchasesService.createPurchase "demo" order seed).

Definition gemResponse : PurchaseResponseDto.t :=
  Eval vm_compute in
    match fst (PurchasesService.createPurchase "demo" gemOrder seed) with
    | inr r => r
    | inl _ => noResponse
    end.

Definition afterGemOrder : Db :=
  Eval vm_compute in snd (PurchasesService.createPurchase "demo" gemOrder seed).

(** The seed once the demo user owns the rifle skin. *)
Definition withSkin : Db :=
  with_userInventories [UserInventory.mk "demo" "ak47" 1 false] seed.

(** A purchase of the rifle skin. *)
Definition skinOrder : CreatePurchaseDto.t :=
  CreatePurchaseDto.mk [PurchaseItemDto.mk "ak47" 1] None.

(** The seed one minute after the demo user bought something. *)
Definition afterPurchase : Db :=
  with_purchases [Purchase.mk "c0" "demo" 500 PS_COMPLETED "GEMS" 940000] seed.

(** Two skins that cost more than the balance of the demo user. *)
Definition bigOrder : CreatePurchaseDto.t :=
  CreatePurchaseDto.mk [PurchaseItemDto.mk "ak47" 1; PurchaseItemDto.mk "vandal" 1]
    (Some "purchase_2024_demo_2").

(** The seed once the demo user owns the two rifle skins and the shirt. *)
Definition armory : Db :=
  with_userInventories
    [UserInventory.mk "demo" "ak47" 1 false;
     UserInventory.mk "demo" "vandal" 1 false;
     UserInventory.mk "demo" "tshirt" 1 false]
    seed.

Definition equipSkin : EquipItemDto.t := EquipItemDto.mk "ak47" (Some "primary").
Definition equipShirt : EquipItemDto.t := EquipItemDto.mk "tshirt" (Some "primary").

Definition skinRow : CharacterEquippedItem.t :=
  CharacterEquippedItem.mk "c0" "p1" "ak47" "primary".
Definition shirtRow : CharacterEquippedItem.t :=
  CharacterEquippedItem.mk "c1" "p1" "tshirt" "primary".

(** The armory after the skin, and then the shirt, went into the slot
    [primary] of the profile [p1]. *)
Definition afterSkin : Db :=
  Eval vm_compute in
    snd (CharacterProfilesService.equipItem "demo" "p1" equipSkin armory).

Definition afterShirt : Db :=
  Eval vm_compute in
    snd (CharacterProfilesService.equipItem "demo" "p1" equipShirt afterSkin).

(** A purchase that failed as a whole, with its failed fulfillment, and a
    completed one with a failed and a pending fulfillment. *)
Definition withFailures : Db :=
  with_itemFulfillments
    [ItemFulfillment.mk "o1" "demo" "tshirt" FS_FAILED SHOPIFY 1 (Some 900000) None;
     ItemFulfillment.mk "o2" "demo" "tshirt" FS_FAILED SHOPIFY 1 (Some 900000) None;
     ItemFulfillment.mk "o2" "demo" "xp" FS_PENDING EMAIL 0 None None]
    (with_purchases
       [Purchase.mk "o1" "demo" 1500 PS_FAILED "GEMS" 100000;
        Purchase.mk "o2" "demo" 2000 PS_COMPLETED "GEMS" 200000]
       seed).

End Demo.

(** * The other methods of the services

    The methods of the purchase service and of the character profile
    service that the sections above leave out, and [useItem] of the
    inventory service, which consumes what a purchase grants.

    Their messages are not among the templates above. A method that throws
    one of them returns a [Failure]: an exception of the methods above, or a
    [NotFoundException] or [BadRequestException] with one of the messages of
    [Notice]. Such a method is written with the database passed explicitly.

    A row of the table of equipped items refers to its profile and to its
    store item; deleting a profile deletes its equipped items, as the
    comment of [deleteCharacterProfile] says ("cascading will remove
    equipped items"). The column [metadata] of a profile, which
    [updateCharacterProfile] can overwrite, and the column [usedAt] of an
    inventory row, which [useItem] stamps, are not among the columns of the
    rows. *)

Inductive Notice :=
| Purchase_not_found_or_not_owned_by_user
| Item_not_equipped_to_this_character
| No_item_equipped_in_this_slot
| Item_not_found_in_inventory
| Only_consumable_items_can_be_used
| No_usable_quantity_available.

Inductive Failure :=
| Raised (e : Exception)
| NotFound (m : Notice)       (* [NotFoundException] *)
| BadRequest (m : Notice).    (* [BadRequestException] *)

Definition Outcome (A : Type) : Type := (Failure + A) * Db.

(** [delete] on a unique key: the first matching row is removed. *)
Fixpoint remove_first {A} (p : A -> bool) (l : list A) : list A :=
  match l with
  | [] => []
  | a :: l' => if p a then l' else a :: remove_first p l'
  end.

Module UpdateCharacterProfileDto.
Record t := mk { name : option string }.
End UpdateCharacterProfileDto.

Module UseItemResponseDto.
Record t := mk { remainingQuantity : Z; isFullyConsumed : bool }.
End UseItemResponseDto.

(** ** purchase.service.ts, continued *)

Module PurchaseLookup.

(** Lines 518-561 and 608-626. *)
Definition getPurchaseById (userId purchaseId : string) (db : Db)
  : Outcome PurchaseResponseDto.t :=
  match find (fun p => String.eqb (Purchase.id p) purchaseId
                       && String.eqb (Purchase.userId p) userId)
             (purchases db) with
  | None => (inl (NotFound Purchase_not_found_or_not_owned_by_user), db)
  | Some purchase =>
    let items :=
      filter (fun i => String.eqb (PurchaseItem.purchaseId i) (Purchase.id purchase))
             (purchaseItems db) in
    (inr (PurchaseResponseDto.mk (Purchase.id purchase) (Purchase.userId purchase)
            (Purchase.totalAmount purchase) (Purchase.status purchase)
            (Purchase.paymentMethod purchase) items),
     db)
  end.

End PurchaseLookup.

(** ** The character profile service, continued *)

Module CharacterProfileUpkeep.

Definition set_name (name : string) (p : CharacterProfile.t) : CharacterProfile.t :=
  CharacterProfile.mk (CharacterProfile.id p) (CharacterProfile.userId p)
    (CharacterProfile.gameId p) name (CharacterProfile.isActive p).

(** The [data] of the update: [...(name && { name })]. *)
Definition renamed (name : option string) (p : CharacterProfile.t) : CharacterProfile.t :=
  if truthy name then set_name (or_else name "") p else p.

(** Lines 182-251. *)
Definition updateCharacterProfile (userId profileId : string)
  (updateCharacterProfileDto : UpdateCharacterProfileDto.t) : M CharacterProfile.t :=
  let name := UpdateCharacterProfileDto.name updateCharacterProfileDto in
  existingProfile <- gets (fun db =>
    find (fun p => String.eqb (CharacterProfile.id p) profileId
                   && String.eqb (CharacterProfile.userId p) userId)
         (characterProfiles db)) ;;
  match existingProfile with
  | None => throw (NotFoundException Character_profile_not_found)
  | Some existingProfile =>
    (if truthy name
        && negb (nullable_eqb name (Some (CharacterProfile.name existingProfile)))
     then
       duplicateName <- gets (fun db =>
         find (fun p => String.eqb (CharacterProfile.userId p) userId
                        && nullable_eqb (Some (CharacterProfile.name p)) name
                        && nullable_eqb (CharacterProfile.gameId p)
                             (CharacterProfile.gameId existingProfile)
                        && negb (String.eqb (CharacterProfile.id p) profileId))
              (characterProfiles db)) ;;
       match duplicateName with
       | Some _ =>
         throw (ConflictException
                  (Character_with_name_already_exists (or_else name "")
                     (truthy (CharacterProfile.gameId existingProfile))))
       | None => ret tt
       end
     else ret tt) ;;;
    target <- gets (fun db =>
      find (fun p => String.eqb (CharacterProfile.id p) profileId)
           (characterProfiles db)) ;;
    match target with
    | None => throw (PrismaError "P2025")
    | Some target =>
      modify (fun db =>
        with_characterProfiles
          (replace_first (fun p => String.eqb (CharacterProfile.id p) profileId)
             (renamed name) (characterProfiles db)) db) ;;;
      ret (renamed name target)
    end
  end.

(** Lines 253-272. The method returns a message with the name of the
    profile. *)
Definition deleteCharacterProfile (userId profileId : string) : M string :=
  profile <- gets (fun db =>
    find (fun p => String.eqb (CharacterProfile.id p) profileId
                   && String.eqb (CharacterProfile.userId p) userId)
         (characterProfiles db)) ;;
  match profile with
  | None => throw (NotFoundException Character_profile_not_found)
  | Some profile =>
    modify (fun db =>
      with_characterEquippedItems
        (deleteMany (fun e => String.eqb (CharacterEquippedItem.profileId e) profileId)
           (characterEquippedItems db))
        (with_characterProfiles
           (remove_first (fun p => String.eqb (CharacterProfile.id p) profileId)
              (characterProfiles db)) db)) ;;;
    ret (CharacterProfile.name profile)
  end.

(** [characterEquippedItem.delete({ where: { id } })], then the name of the
    store item that the row was read with ([include: { storeItem }]). *)
Definition deleteEquipped (equippedItem : CharacterEquippedItem.t) (db : Db)
  : Outcome StoreItem.t :=
  let db' :=
    with_characterEquippedItems
      (remove_first
         (fun e => String.eqb (CharacterEquippedItem.id e)
                     (CharacterEquippedItem.id equippedItem))
         (characterEquippedItems db)) db in
  match find (fun si => String.eqb (StoreItem.id si)
                          (CharacterEquippedItem.itemId equippedItem))
             (storeItems db) with
  | None => (inl (Raised TypeError), db')
  | Some storeItem => (inr storeItem, db')
  end.

(** Lines 414-453. The method returns the slot that the item was in. *)
Definition unequipItem (userId profileId itemId : string) (db : Db) : Outcome string :=
  match find (fun p => String.eqb (CharacterProfile.id p) profileId
                       && String.eqb (CharacterProfile.userId p) userId)
             (characterProfiles db) with
  | None => (inl (Raised (NotFoundException Character_profile_not_found)), db)
  | Some profile =>
    match find (fun e => String.eqb (CharacterEquippedItem.profileId e) profileId
                         && String.eqb (CharacterEquippedItem.itemId e) itemId)
               (characterEquippedItems db) with
    | None => (inl (NotFound Item_not_equipped_to_this_character), db)
    | Some equippedItem =>
      match deleteEquipped equippedItem db with
      | (inl e, db') => (inl e, db')
      | (inr _, db') => (inr (CharacterEquippedItem.slot equippedItem), db')
      end
    end
  end.

(** Lines 455-494. The method returns the name of the item that was in the
    slot. *)
Definition unequipSlot (userId profileId slot : string) (db : Db) : Outcome string :=
  match find (fun p => String.eqb (CharacterProfile.id p) profileId
                       && String.eqb (CharacterProfile.userId p) userId)
             (characterProfiles db) with
  | None => (inl (Raised (NotFoundException Character_profile_not_found)), db)
  | Some profile =>
    match find (fun e => String.eqb (CharacterEquippedItem.profileId e) profileId
                         && String.eqb (CharacterEquippedItem.slot e) slot)
               (characterEquippedItems db) with
    | None => (inl (NotFound No_item_equipped_in_this_slot), db)
    | Some equippedItem =>
      match deleteEquipped equippedItem db with
      | (inl e, db') => (inl e, db')
      | (inr storeItem, db') => (inr (StoreItem.name storeItem), db')
      end
    end
  end.

End CharacterProfileUpkeep.

(** ** inventory.service.ts *)

Module InventoryService.

(** What the update of [useItem] writes on the row it has read. *)
Definition used (inventoryItem r : UserInventory.t) : UserInventory.t :=
  UserInventory.mk (UserInventory.userId r) (UserInventory.itemId r)
    (UserInventory.quantity r - 1)
    (UserInventory.quantity inventoryItem =? 1).

(** Lines 266-311; the whole body runs in a transaction, and every [throw]
    comes before the only write. *)
Definition useItem (userId itemId : string) (db : Db) : Outcome UseItemResponseDto.t :=
  let key := fun r => String.eqb (UserInventory.userId r) userId
                      && String.eqb (UserInventory.itemId r) itemId in
  match find key (userInventories db) with
  | None => (inl (NotFound Item_not_found_in_inventory), db)
  | Some inventoryItem =>
    match find (fun si => String.eqb (StoreItem.id si) (UserInventory.itemId inventoryItem))
               (storeItems db) with
    | None => (inl (Raised TypeError), db)
    | Some storeItem =>
      match StoreItem.type storeItem with
      | NON_CONSUMABLE => (inl (BadRequest Only_consumable_items_can_be_used), db)
      | CONSUMABLE =>
        if (UserInventory.quantity inventoryItem <=? 0)
           || UserInventory.isConsumed inventoryItem
        then (inl (BadRequest No_usable_quantity_available), db)
        else
          let updatedItem := used inventoryItem inventoryItem in
          (inr (UseItemResponseDto.mk (UserInventory.quantity updatedItem)
                  (UserInventory.isConsumed updatedItem)),
           with_userInventories
             (replace_first key (used inventoryItem) (userInventories db)) db)
      end
    end
  end.

End InventoryService.

(** * Vocabulary of the properties of these methods *)

Module Invariants.
Import PurchasesService Vocabulary.

(** An active row of the catalogue has this id. *)
Definition activeRow (db : Db) (id : string) : bool :=
  existsb (fun si => String.eqb (StoreItem.id si) id && StoreItem.isActive si)
          (storeItems db).

(** An instant FUNCTIONAL item, which [addItemsToInventory] skips. *)
Definition isInstant (storeItem : StoreItem.t) : bool :=
  isFunctional (StoreItem.deliveryType storeItem) && metadata_instant storeItem.

Definition stacked (quantity : Z) (r : UserInventory.t) : UserInventory.t :=
  UserInventory.mk (UserInventory.userId r) (UserInventory.itemId r)
    (UserInventory.quantity r + quantity) (UserInventory.isConsumed r).

(** The rows of a user for an item after a line of a purchase was granted,
    from the rows before. *)
Definition granted (userId : string) (l : PurchaseItemDto.t * StoreItem.t)
  (rows : list UserInventory.t) : list UserInventory.t :=
  if isInstant (snd l) then rows
  else
    match StoreItem.type (snd l), rows with
    | CONSUMABLE, r :: rest => stacked (PurchaseItemDto.quantity (fst l)) r :: rest
    | CONSUMABLE, [] =>
      [UserInventory.mk userId (PurchaseItemDto.itemId (fst l))
         (PurchaseItemDto.quantity (fst l)) false]
    | NON_CONSUMABLE, _ =>
      rows ++ [UserInventory.mk userId (PurchaseItemDto.itemId (fst l)) 1 false]
    end.

(** The rows of the inventories of a user. *)
Definition inventoryOfUser (userId : string) (db : Db) : list UserInventory.t :=
  filter (fun r => String.eqb (UserInventory.userId r) userId) (userInventories db).

(** The name of a profile within its scope: the columns that
    [createCharacterProfile] and [updateCharacterProfile] compare. *)
Definition scopedName (p : CharacterProfile.t) : string * option string * string :=
  (CharacterProfile.userId p, CharacterProfile.gameId p, CharacterProfile.name p).

(** No two profiles of a user have the same name for the same game (or
    platform-wide). *)
Definition names_distinct (db : Db) : Prop :=
  NoDup (map scopedName (characterProfiles db)).

(** The columns of a profile other than its name. *)
Definition unnamed (p : CharacterProfile.t) : string * string * option string * bool :=
  (CharacterProfile.id p, CharacterProfile.userId p, CharacterProfile.gameId p,
   CharacterProfile.isActive p).

Definition equippedOn (profileId : string) (db : Db) : list CharacterEquippedItem.t :=
  filter (fun e => String.eqb (CharacterEquippedItem.profileId e) profileId)
         (characterEquippedItems db).

End Invariants.

(** * More of the demonstration database *)

Module Scenes.

(** The seed once the demo user has used up the energy tokens. *)
Definition usedUp : Db :=
  with_userInventories [UserInventory.mk "demo" "xp" 0 true] Demo.seed.

(** A purchase of two more energy tokens, and what it answers and commits
    once the tokens were used up. *)
Definition refill : CreatePurchaseDto.t :=
  CreatePurchaseDto.mk [PurchaseItemDto.mk "xp" 2] None.

Definition refillResponse : PurchaseResponseDto.t :=
  Eval vm_compute in
    match fst (PurchasesService.createPurchase "demo" refill usedUp) with
    | inr r => r
    | inl _ => Demo.noResponse
    end.

Definition afterRefill : Db :=
  Eval vm_compute in snd (PurchasesService.createPurchase "demo" refill usedUp).

(** What the purchase of the rifle skin answers and commits on the seed. *)
Definition skinResponse : PurchaseResponseDto.t :=
  Eval vm_compute in
    match fst (PurchasesService.createPurchase "demo" Demo.skinOrder Demo.seed) with
    | inr r => r
    | inl _ => Demo.noResponse
    end.

Definition afterSkinOrder : Db :=
  Eval vm_compute in snd (PurchasesService.createPurchase "demo" Demo.skinOrder Demo.seed).

(** The seed one minute after the purchase [o0] of the demo user, and a
    purchase of an energy token sent with the empty string as its key. *)
Definition minuteAgo : Db :=
  with_purchases [Purchase.mk "o0" "demo" 500 PS_COMPLETED "GEMS" 940000] Demo.seed.

Definition emptyKeyOrder : CreatePurchaseDto.t :=
  CreatePurchaseDto.mk [PurchaseItemDto.mk "xp" 1] (Some "").

End Scenes.

(** * Properties *)

(** ** Tables as lists *)

Section Tables.
Context {A : Type}.
Variable p : A -> bool.

Lemma find_app_split (l l' : list A) :
  find p (l ++ l') = match find p l with Some a => Some a | None => find p l' end.
Proof.
  induction l as [|a l IH]; simpl; [reflexivity|].
  destruct (p a); [reflexivity | exact IH].
Qed.

Lemma find_found_anywhere (l : list A) (a : A) :
  In a l -> p a = true -> exists b, find p l = Some b.
Proof.
  intros Hin Hp. destruct (find p l) as [b|] eqn:E; [now exists b|].
  rewrite (find_none _ _ E a Hin) in Hp. discriminate.
Qed.

Lemma find_rev_found (l : list A) (a : A) :
  find p (rev l) = Some a -> exists b, find p l = Some b.
Proof.
  intros H. apply find_some in H. destruct H as [Hin Hp].
  apply (find_found_anywhere l a); [now apply in_rev | exact Hp].
Qed.

Lemma filter_nil_find (l : list A) : find p l = None -> filter p l = [].
Proof.
  induction l as [|a l IH]; simpl; [reflexivity|].
  destruct (p a); [discriminate | exact IH].
Qed.


Lemma find_replace_first (f : A -> A) (l : list A) :
  (forall a, p (f a) = p a) ->
  find p (replace_first p f l) = option_map f (find p l).
Proof.
  intros Hf. induction l as [|a l IH]; simpl; [reflexivity|].
  destruct (p a) eqn:E; simpl.
  - now rewrite Hf, E.
  - now rewrite E.
Qed.

Lemma replace_first_twice (f g : A -> A) (l : list A) :
  (forall a, p (f a) = p a) ->
  replace_first p g (replace_first p f l) = replace_first p (fun a => g (f a)) l.
Proof.
  intros Hf. induction l as [|a l IH]; simpl; [reflexivity|].
  destruct (p a) eqn:E; simpl.
  - now rewrite Hf, E.
  - now rewrite E, IH.
Qed.

Lemma replace_first_ext (f g : A -> A) (l : list A) :
  (forall a, f a = g a) -> replace_first p f l = replace_first p g l.
Proof.
  intros H. induction l as [|a l IH]; simpl; [reflexivity|].
  destruct (p a); [now rewrite H | now rewrite IH].
Qed.


(** A filter that the replacement does not move sees the same rows when the
    replaced row is outside of it. *)
Lemma filter_replace_first_other (q : A -> bool) (f : A -> A) (l : list A) :
  (forall a, p a = true -> q a = false) ->
  (forall a, p a = true -> q (f a) = false) ->
  filter q (replace_first p f l) = filter q l.
Proof.
  intros H1 H2. induction l as [|a l IH]; simpl; [reflexivity|].
  destruct (p a) eqn:E; simpl.
  - now rewrite (H1 a E), (H2 a E).
  - now rewrite IH.
Qed.

End Tables.

(** With a primary key, the first and the last row of a key coincide. *)
Lemma find_unique_key {A} (key : A -> string) (l : list A) (a : A) :
  NoDup (map key l) -> In a l ->
  find (fun x => String.eqb (key x) (key a)) l = Some a.
Proof.
  induction l as [|b l IH]; simpl; intros Hnd Hin; [contradiction|].
  inversion Hnd as [|? ? Hnotin Hnd']; subst.
  destruct Hin as [->|Hin].
  - now rewrite String.eqb_refl.
  - destruct (String.eqb (key b) (key a)) eqn:E.
    + apply String.eqb_eq in E. exfalso. apply Hnotin. rewrite E.
      now apply in_map.
    + now apply IH.
Qed.

Lemma find_rev_unique_key {A} (key : A -> string) (l : list A) (k : string) :
  NoDup (map key l) ->
  find (fun x => String.eqb (key x) k) (rev l) = find (fun x => String.eqb (key x) k) l.
Proof.
  intros Hnd.
  destruct (find (fun x => String.eqb (key x) k) (rev l)) as [a|] eqn:E.
  - apply find_some in E. destruct E as [Hin Hk].
    apply String.eqb_eq in Hk. subst k. symmetry.
    apply find_unique_key; [exact Hnd | now apply in_rev].
  - destruct (find (fun x => String.eqb (key x) k) l) as [b|] eqn:E'; [|reflexivity].
    apply find_some in E'. destruct E' as [Hin Hk].
    rewrite (find_none _ _ E b) in Hk; [discriminate | now apply in_rev in Hin].
Qed.

Lemma NoDup_map_filter {A} (key : A -> string) (q : A -> bool) (l : list A) :
  NoDup (map key l) -> NoDup (map key (filter q l)).
Proof.
  induction l as [|a l IH]; simpl; intros Hnd; [constructor|].
  inversion Hnd as [|? ? Hnotin Hnd']; subst.
  destruct (q a); simpl; [|now apply IH].
  constructor; [|now apply IH].
  intros Hin. apply Hnotin. apply in_map_iff in Hin.
  destruct Hin as (x & Hx & Hin). apply filter_In in Hin.
  rewrite <- Hx. apply in_map. tauto.
Qed.

(** ** Running a computation *)

Lemma Db_ext (a b : Db) :
  games a = games b -> storeItems a = storeItems b -> userWallets a = userWallets b ->
  walletTransactions a = walletTransactions b -> purchases a = purchases b ->
  purchaseItems a = purchaseItems b -> userInventories a = userInventories b ->
  itemFulfillments a = itemFulfillments b -> characterProfiles a = characterProfiles b ->
  characterEquippedItems a = characterEquippedItems b -> nextId a = nextId b ->
  now a = now b -> a = b.
Proof.
  destruct a, b. simpl. intros. subst. reflexivity.
Qed.

Lemma run_bind_throw {A B} (m : M A) (k : A -> M B) (db : Db) (e : Exception) :
  fst (m db) = inl e -> fst (bind m k db) = inl e.
Proof.
  unfold bind. destruct (m db) as [[e'|a] db']; simpl; intros H; [now inversion H | discriminate H].
Qed.


Lemma run_transaction_throw {A} (body : M A) (db : Db) (e : Exception) :
  fst (body db) = inl e -> transaction body db = (inl e, db).
Proof.
  unfold transaction. destruct (body db) as [[e'|a] db']; simpl; [|discriminate].
  now intros [= ->].
Qed.

Lemma run_transaction_ret {A} (body : M A) (db db' : Db) (a : A) :
  body db = (inr a, db') -> transaction body db = (inr a, db').
Proof.
  unfold transaction. now intros ->.
Qed.

(** A transaction that throws leaves the database as it found it. *)
Lemma transaction_atomic {A} (body : M A) (db db' : Db) (e : Exception) :
  transaction body db = (inl e, db') -> db' = db.
Proof.
  unfold transaction. destruct (body db) as [[e'|a] db'']; now intros [= _ <-].
Qed.

(** ** The loops of the purchase transaction *)

Import PurchasesService Vocabulary.

Lemma resolveItems_lines (storeItems : list StoreItem.t) (items : list PurchaseItemDto.t) :
  all_found storeItems items -> map fst (resolveItems storeItems items) = items.
Proof.
  unfold all_found, resolveItems. induction 1 as [|item rest Hitem _ IH]; simpl; [reflexivity|].
  destruct (storeItems_find storeItems (PurchaseItemDto.itemId item)); [|contradiction].
  simpl. now rewrite IH.
Qed.


Lemma resolveItems_found (storeItems : list StoreItem.t) (items : list PurchaseItemDto.t)
  (l : PurchaseItemDto.t * StoreItem.t) :
  In l (resolveItems storeItems items) ->
  In (fst l) items /\ storeItems_find storeItems (PurchaseItemDto.itemId (fst l)) = Some (snd l).
Proof.
  unfold resolveItems. intros H. apply in_flat_map in H. destruct H as (item & Hin & Hl).
  destruct (storeItems_find storeItems (PurchaseItemDto.itemId item)) eqn:E; simpl in Hl;
    [|contradiction].
  destruct Hl as [<-|[]]. simpl. auto.
Qed.

Lemma resolveItems_In (storeItems : list StoreItem.t) (items : list PurchaseItemDto.t)
  (item : PurchaseItemDto.t) (storeItem : StoreItem.t) :
  In item items ->
  storeItems_find storeItems (PurchaseItemDto.itemId item) = Some storeItem ->
  In (item, storeItem) (resolveItems storeItems items).
Proof.
  unfold resolveItems. intros Hin E. apply in_flat_map. exists item. split; [exact Hin|].
  rewrite E. now left.
Qed.

Lemma createPurchaseItems_run (purchaseId : string) (storeItems : list StoreItem.t)
  (items : list PurchaseItemDto.t) :
  all_found storeItems items ->
  forall db,
    createPurchaseItems purchaseId items storeItems db =
    (inr (map (purchaseItemRow purchaseId) (resolveItems storeItems items)),
     with_purchaseItems
       (purchaseItems db ++ map (purchaseItemRow purchaseId) (resolveItems storeItems items))
       db).
Proof.
  unfold all_found, resolveItems.
  induction 1 as [|item rest Hitem _ IH]; intros db; simpl.
  - unfold ret. rewrite app_nil_r. now destruct db.
  - destruct (storeItems_find storeItems (PurchaseItemDto.itemId item)) as [storeItem|];
      [|contradiction].
    unfold bind, purchaseItem_create, modify, ret. simpl. rewrite IH. simpl.
    unfold with_purchaseItems. simpl. now rewrite <- app_assoc.
Qed.

Lemma createFulfillmentRecords_run (purchaseId userId : string)
  (storeItems : list StoreItem.t) (items : list PurchaseItemDto.t) :
  all_found storeItems items ->
  forall db,
    createFulfillmentRecords purchaseId userId items storeItems db =
    (inr tt,
     with_itemFulfillments
       (itemFulfillments db
          ++ map (fulfillmentRow purchaseId userId (now db)) (resolveItems storeItems items))
       db).
Proof.
  unfold all_found, resolveItems.
  induction 1 as [|item rest Hitem _ IH]; intros db; simpl.
  - unfold ret. rewrite app_nil_r. now destruct db.
  - destruct (storeItems_find storeItems (PurchaseItemDto.itemId item)) as [storeItem|];
      [|contradiction].
    unfold bind, gets, modify. simpl. rewrite IH. simpl.
    unfold with_itemFulfillments. simpl. now rewrite <- app_assoc.
Qed.

Lemma validateNonConsumableOwnership_readonly (userId : string)
  (storeItems : list StoreItem.t) (items : list PurchaseItemDto.t) (db : Db) :
  snd (validateNonConsumableOwnership userId items storeItems db) = db.
Proof.
  induction items as [|item rest IH]; simpl; [reflexivity|].
  destruct (storeItems_find storeItems (PurchaseItemDto.itemId item)) as [storeItem|];
    [|reflexivity].
  destruct (StoreItem.type storeItem); [exact IH|].
  unfold bind, userInventory_findUnique, gets. simpl.
  destruct (find _ (userInventories db)); [reflexivity | exact IH].
Qed.

(** The ownership check passes exactly when no NON_CONSUMABLE item of the
    lines has a row in the inventory of the user; otherwise it reports the
    first such item. *)
Lemma validateNonConsumableOwnership_outcome (userId : string)
  (storeItems : list StoreItem.t) (items : list PurchaseItemDto.t) (db : Db) :
  all_found storeItems items ->
  (fst (validateNonConsumableOwnership userId items storeItems db) = inr tt /\
   forall l, In l (resolveItems storeItems items) ->
     StoreItem.type (snd l) = NON_CONSUMABLE ->
     find (ownedBy userId (PurchaseItemDto.itemId (fst l))) (userInventories db) = None)
  \/
  (exists l r, In l (resolveItems storeItems items) /\
     StoreItem.type (snd l) = NON_CONSUMABLE /\
     find (ownedBy userId (PurchaseItemDto.itemId (fst l))) (userInventories db) = Some r /\
     fst (validateNonConsumableOwnership userId items storeItems db) =
     inl (BadRequestException (You_already_own (StoreItem.name (snd l))))).
Proof.
  unfold all_found. induction 1 as [|item rest Hitem _ IH].
  - left. split; [reflexivity | intros l []].
  - unfold resolveItems. simpl.
    destruct (storeItems_find storeItems (PurchaseItemDto.itemId item)) as [storeItem|] eqn:E;
      [|contradiction].
    simpl app. fold (resolveItems storeItems rest).
    destruct (StoreItem.type storeItem) eqn:Ety;
      [|unfold bind, userInventory_findUnique, gets; simpl;
        fold (ownedBy userId (PurchaseItemDto.itemId item));
        destruct (find (ownedBy userId (PurchaseItemDto.itemId item)) (userInventories db))
          as [r|] eqn:Eown].
    + destruct IH as [[Hok Hall]|(l & r & Hin & Hty & Hown & Herr)].
      * left. split; [exact Hok|]. intros l [<-|Hin] Hty; [simpl in Hty; congruence|].
        now apply Hall.
      * right. exists l, r. repeat split; auto; now right.
    + right. exists (item, storeItem), r. repeat split; auto; now left.
    + destruct IH as [[Hok Hall]|(l & r & Hin & Hty & Hown & Herr)].
      * left. split; [exact Hok|]. intros l [<-|Hin] Hty; [exact Eown|].
        now apply Hall.
      * right. exists l, r. repeat split; auto; now right.
Qed.

Lemma addItemsToInventory_run (userId : string) (storeItems : list StoreItem.t)
  (items : list PurchaseItemDto.t) (db : Db) :
  match grantItems userId storeItems items (userInventories db) with
  | inr inv =>
    addItemsToInventory userId items storeItems db = (inr tt, with_userInventories inv db)
  | inl e => fst (addItemsToInventory userId items storeItems db) = inl e
  end.
Proof.
  revert db. induction items as [|item rest IH]; intros db; simpl.
  - now destruct db.
  - destruct (storeItems_find storeItems (PurchaseItemDto.itemId item)) as [storeItem|];
      [|reflexivity].
    destruct (isFunctional (StoreItem.deliveryType storeItem) && metadata_instant storeItem);
      [apply IH|].
    destruct (StoreItem.type storeItem);
      destruct (find (ownedBy userId (PurchaseItemDto.itemId item)) (userInventories db))
        eqn:Eown;
      unfold userInventory_upsert, userInventory_create, userInventory_findUnique;
      unfold bind, gets, modify, throw; simpl;
      fold (ownedBy userId (PurchaseItemDto.itemId item)); rewrite Eown; simpl;
      try reflexivity;
      match goal with |- context [addItemsToInventory _ _ _ ?d] => specialize (IH d) end;
      simpl in IH; (destruct (grantItems _ _ _ _); [exact IH | now rewrite IH]).
Qed.

Lemma replace_first_same {A} (p : A -> bool) (f : A -> A) (l : list A) :
  (forall a, f a = a) -> replace_first p f l = l.
Proof.
  intros H. induction l as [|a l IH]; simpl; [reflexivity|].
  destruct (p a); [now rewrite H | now rewrite IH].
Qed.

Lemma processFunctionalItems_run (userId walletId : string)
  (storeItems : list StoreItem.t) (items : list PurchaseItemDto.t) :
  all_found storeItems items ->
  forall db wallet,
    find (fun w => String.eqb (UserWallet.userId w) userId) (userWallets db) = Some wallet ->
    processFunctionalItems userId items storeItems walletId db =
    (inr tt,
     with_walletTransactions
       (walletTransactions db ++ map (creditRow walletId) (gemPacks storeItems items))
       (with_userWallets
          (replace_first (fun w => String.eqb (UserWallet.userId w) userId)
             (fun w => set_balance (UserWallet.balance w + totalCredit storeItems items) w)
             (userWallets db))
          db)).
Proof.
  unfold all_found, totalCredit, gemPacks, resolveItems.
  induction 1 as [|item rest Hitem _ IH]; intros db wallet Hw; simpl.
  - rewrite app_nil_r, replace_first_same.
    + now destruct db.
    + intros [i u b]. unfold set_balance. simpl. now rewrite Z.add_0_r.
  - destruct (storeItems_find storeItems (PurchaseItemDto.itemId item)) as [storeItem|];
      [|contradiction].
    simpl. fold (isGemPack storeItem).
    destruct (isGemPack storeItem) eqn:Egem; simpl.
    + unfold bind, userWallet_update, walletTransaction_create, modify. rewrite Hw. simpl.
      rewrite IH with
        (wallet := UserWallet.mk (UserWallet.id wallet) (UserWallet.userId wallet)
                     (UserWallet.balance wallet
                      + metadata_gemAmount storeItem * PurchaseItemDto.quantity item)).
      2:{ simpl. rewrite find_replace_first; [rewrite Hw; reflexivity | reflexivity]. }
      simpl. unfold with_walletTransactions, with_userWallets. simpl.
      rewrite replace_first_twice by reflexivity.
      rewrite <- app_assoc. simpl. f_equal. f_equal.
      apply replace_first_ext. intros [i u b]. unfold set_balance, gemCredit. simpl.
      f_equal. lia.
    + exact (IH db wallet Hw).
Qed.

(** What the body of the transaction does, case by case. *)
Lemma purchaseTransactionBody_run (userId : string) (items : list PurchaseItemDto.t)
  (storeItems : list StoreItem.t) (totalCost : Z) (db : Db) :
  all_found storeItems items ->
  match fst (validateNonConsumableOwnership userId items storeItems db) with
  | inl e => fst (purchaseTransactionBody userId items storeItems totalCost db) = inl e
  | inr _ =>
    match find (fun w => String.eqb (UserWallet.userId w) userId) (userWallets db) with
    | None =>
      fst (purchaseTransactionBody userId items storeItems totalCost db)
      = inl (PrismaError "P2025")
    | Some wallet =>
      if UserWallet.balance wallet - totalCost <? 0
      then fst (purchaseTransactionBody userId items storeItems totalCost db)
           = inl (BadRequestException Insufficient_gems_for_this_purchase)
      else
        match grantItems userId storeItems items (userInventories db) with
        | inl e => fst (purchaseTransactionBody userId items storeItems totalCost db) = inl e
        | inr inv =>
          exists dto,
            purchaseTransactionBody userId items storeItems totalCost db
            = (inr dto, committed userId items storeItems totalCost wallet inv db)
        end
    end
  end.
Proof.
  intros Hfound.
  pose proof (validateNonConsumableOwnership_readonly userId storeItems items db) as Hro.
  pose proof (addItemsToInventory_run userId storeItems items) as Hadd.
  unfold purchaseTransactionBody.
  destruct (validateNonConsumableOwnership userId items storeItems db) as [[e|[]] db1] eqn:Ev;
    simpl in Hro; subst db1; simpl.
  { unfold bind at 1. now rewrite Ev. }
  destruct (find (fun w => String.eqb (UserWallet.userId w) userId) (userWallets db))
    as [wallet|] eqn:Ew.
  2:{ unfold bind at 1. rewrite Ev. unfold bind at 1, userWallet_update. now rewrite Ew. }
  destruct (UserWallet.balance wallet - totalCost <? 0) eqn:Eb.
  { unfold bind at 1. rewrite Ev. unfold bind at 1, userWallet_update. rewrite Ew.
    unfold bind at 1. simpl. now rewrite Eb. }
  destruct (grantItems userId storeItems items (userInventories db)) as [e|inv] eqn:Eg.
  - unfold bind at 1. rewrite Ev. unfold bind at 1, userWallet_update. rewrite Ew.
    unfold bind at 1. simpl. rewrite Eb. unfold ret at 1.
    unfold bind at 1, walletTransaction_create, modify at 1.
    unfold bind at 1, purchase_create. unfold bind at 1, freshId at 1.
    unfold bind at 1, gets at 1. unfold bind at 1, modify at 1. unfold ret at 1. simpl.
    unfold bind at 1. rewrite createPurchaseItems_run by exact Hfound.
    apply run_bind_throw.
    match goal with |- context [addItemsToInventory _ _ _ ?d] =>
      specialize (Hadd d); change (userInventories d) with (userInventories db) in Hadd end.
    rewrite Eg in Hadd. exact Hadd.
  - unfold bind at 1. rewrite Ev. unfold bind at 1, userWallet_update. rewrite Ew.
    unfold bind at 1. simpl. rewrite Eb. unfold ret at 1.
    unfold bind at 1, walletTransaction_create, modify at 1.
    unfold bind at 1, purchase_create. unfold bind at 1, freshId at 1.
    unfold bind at 1, gets at 1. unfold bind at 1, modify at 1. unfold ret at 1. simpl.
    unfold bind at 1. rewrite createPurchaseItems_run by exact Hfound.
    unfold bind at 1.
    match goal with |- context [addItemsToInventory _ _ _ ?d] =>
      specialize (Hadd d); change (userInventories d) with (userInventories db) in Hadd end.
    rewrite Eg in Hadd. rewrite Hadd.
    unfold bind at 1.
    rewrite processFunctionalItems_run with
      (wallet := UserWallet.mk (UserWallet.id wallet) (UserWallet.userId wallet)
                   (UserWallet.balance wallet - totalCost)); [|exact Hfound|].
    2:{ simpl. rewrite find_replace_first by reflexivity. rewrite Ew. reflexivity. }
    unfold bind at 1. rewrite createFulfillmentRecords_run by exact Hfound.
    unfold bind at 1, modify at 1.
    unfold getPurchaseWithDetails. unfold bind at 1, gets at 1. simpl.
    clear Hadd.
    assert (Hstate : forall d purchase,
      d = committed userId items storeItems totalCost wallet inv db ->
      exists dto,
        (items0 <-
           gets (fun db0 =>
             filter (fun i => String.eqb (PurchaseItem.purchaseId i) (cuid (nextId db)))
               (purchaseItems db0)) ;;
         ret (PurchaseResponseDto.mk (Purchase.id purchase) (Purchase.userId purchase)
                (Purchase.totalAmount purchase) (Purchase.status purchase)
                (Purchase.paymentMethod purchase) items0)) d
        = (inr dto, committed userId items storeItems totalCost wallet inv db)).
    { intros d purchase ->. unfold bind, gets, ret. eexists. reflexivity. }
    match goal with
    | |- context [find ?p (purchases db ++ ?l)] =>
      destruct (find p (purchases db ++ l)) as [purchase|] eqn:Ep
    end.
    2:{ rewrite find_app_split in Ep. simpl in Ep. rewrite String.eqb_refl in Ep.
        destruct (find _ (purchases db)); discriminate. }
    apply (Hstate _ purchase).
    apply Db_ext; try reflexivity.
    + simpl. rewrite replace_first_twice by reflexivity.
      apply replace_first_ext. intros [i u b]. unfold set_balance. simpl. f_equal; lia.
    + simpl. now rewrite <- app_assoc.
Qed.

(** ** [createPurchase], check by check *)

Lemma validatePurchaseItems_readonly (items : list PurchaseItemDto.t) (db : Db) :
  snd (validatePurchaseItems items db) = db.
Proof.
  unfold validatePurchaseItems. destruct items as [|item rest]; [reflexivity|].
  unfold bind, gets, throw, ret. cbn iota beta.
  match goal with |- context [negb ?b] => destruct b end; cbn iota beta; [|reflexivity].
  match goal with |- context [sumPurchaseItems ?a ?b ?c] => destruct (sumPurchaseItems a b c) end;
    reflexivity.
Qed.

Lemma createPurchase_unfold (userId : string) (dto : CreatePurchaseDto.t) (db : Db) :
  createPurchase userId dto db =
  if duplicateSuppressed userId (CreatePurchaseDto.idempotencyKey dto) db
  then (inl (ConflictException Duplicate_purchase_detected), db)
  else
    match fst (validatePurchaseItems (CreatePurchaseDto.items dto) db) with
    | inl e => (inl e, db)
    | inr (storeItems, totalCost) =>
      match find (fun w => String.eqb (UserWallet.userId w) userId) (userWallets db) with
      | None => (inl (NotFoundException User_wallet_not_found), db)
      | Some wallet =>
        if UserWallet.balance wallet <? totalCost
        then (inl (BadRequestException
                     (Insufficient_gems_Required_Available totalCost
                        (UserWallet.balance wallet))), db)
        else executePurchaseTransaction userId (CreatePurchaseDto.items dto) storeItems
               totalCost (CreatePurchaseDto.idempotencyKey dto) db
      end
    end.
Proof.
  unfold createPurchase, duplicateSuppressed, recentPurchase.
  pose proof (validatePurchaseItems_readonly (CreatePurchaseDto.items dto) db) as Hro.
  destruct dto as [items key]. simpl in *.
  assert (Hrest :
    (validated <- validatePurchaseItems items ;;
     (let (storeItems, totalCost) := validated : list StoreItem.t * Z in
      userWallet <- getUserWallet userId ;;
      (if UserWallet.balance userWallet <? totalCost
       then throw (BadRequestException
              (Insufficient_gems_Required_Available totalCost (UserWallet.balance userWallet)))
       else executePurchaseTransaction userId items storeItems totalCost key))) db =
    match fst (validatePurchaseItems items db) with
    | inl e => (inl e, db)
    | inr (storeItems, totalCost) =>
      match find (fun w => String.eqb (UserWallet.userId w) userId) (userWallets db) with
      | None => (inl (NotFoundException User_wallet_not_found), db)
      | Some wallet =>
        if UserWallet.balance wallet <? totalCost
        then (inl (BadRequestException
                     (Insufficient_gems_Required_Available totalCost
                        (UserWallet.balance wallet))), db)
        else executePurchaseTransaction userId items storeItems totalCost key db
      end
    end).
  { unfold bind at 1.
    destruct (validatePurchaseItems items db) as [[e|[storeItems totalCost]] db1];
      simpl in Hro; subst db1; simpl; [reflexivity|].
    unfold getUserWallet. unfold bind, gets, throw. simpl.
    destruct (find _ (userWallets db)) as [wallet|]; [|reflexivity].
    unfold ret. destruct (UserWallet.balance wallet <? totalCost); reflexivity. }
  destruct key as [key|]; simpl.
  - destruct (negb (String.eqb key "")); simpl.
    + unfold bind at 1. unfold bind at 1. unfold checkDuplicatePurchase, gets.
      destruct (find _ (purchases db)); simpl; [reflexivity | exact Hrest].
    + unfold bind at 1. simpl. exact Hrest.
  - unfold bind at 1. simpl. exact Hrest.
Qed.

Lemma sumPurchaseItems_inv (storeItems : list StoreItem.t) (items : list PurchaseItemDto.t) :
  forall acc totalCost,
    sumPurchaseItems storeItems items acc = inr totalCost ->
    Forall (fun item =>
      exists storeItem,
        itemsMap_get storeItems (PurchaseItemDto.itemId item) = Some storeItem /\
        1 <= PurchaseItemDto.quantity item <= 100 /\
        (StoreItem.type storeItem = NON_CONSUMABLE -> PurchaseItemDto.quantity item = 1))
      items.
Proof.
  induction items as [|item rest IH]; intros acc totalCost H; simpl in H; [constructor|].
  destruct (itemsMap_get storeItems (PurchaseItemDto.itemId item)) as [storeItem|] eqn:E;
    [|discriminate].
  destruct ((PurchaseItemDto.quantity item <=? 0) || (100 <? PurchaseItemDto.quantity item))
    eqn:Eq; [discriminate|].
  destruct (isNonConsumable (StoreItem.type storeItem)
            && negb (PurchaseItemDto.quantity item =? 1)) eqn:En; [discriminate|].
  constructor; [|exact (IH _ _ H)].
  exists storeItem. split; [exact E|]. split.
  - apply orb_false_iff in Eq. destruct Eq as [E1 E2]. lia.
  - intros Hty. rewrite Hty in En. simpl in En. apply negb_false_iff in En. lia.
Qed.

Lemma itemsMap_get_found (storeItems : list StoreItem.t) (id : string) (storeItem : StoreItem.t) :
  itemsMap_get storeItems id = Some storeItem -> storeItems_find storeItems id <> None.
Proof.
  unfold itemsMap_get, storeItems_find. intros H.
  destruct (find_rev_found _ _ _ H) as [b Hb]. now rewrite Hb.
Qed.

Lemma sumPurchaseItems_found (storeItems : list StoreItem.t) (items : list PurchaseItemDto.t)
  (acc totalCost : Z) :
  sumPurchaseItems storeItems items acc = inr totalCost -> all_found storeItems items.
Proof.
  intros H. apply sumPurchaseItems_inv in H. unfold all_found.
  eapply Forall_impl; [|exact H]. simpl. intros item (storeItem & Hget & _).
  now apply itemsMap_get_found with storeItem.
Qed.

(** What an accepted validation tells. *)
Lemma validatePurchaseItems_inv (items : list PurchaseItemDto.t) (db : Db)
  (storeItems : list StoreItem.t) (totalCost : Z) :
  fst (validatePurchaseItems items db) = inr (storeItems, totalCost) ->
  items <> [] /\
  storeItems = selectedItems items db /\
  List.length storeItems = List.length items /\
  sumPurchaseItems storeItems items 0 = inr totalCost.
Proof.
  unfold validatePurchaseItems, selectedItems. destruct items as [|item rest];
    [discriminate|].
  unfold bind, gets, throw, ret. cbn iota beta.
  match goal with |- context [Nat.eqb ?a ?b] => destruct (Nat.eqb a b) eqn:El end;
    cbn iota beta; [|discriminate].
  match goal with |- context [sumPurchaseItems ?a ?b ?c] =>
    destruct (sumPurchaseItems a b c) eqn:Es end; simpl; [discriminate|].
  intros [= <- <-]. apply Nat.eqb_eq in El. rewrite length_map in El.
  repeat split; [discriminate | exact El | exact Es].
Qed.

Lemma validatePurchaseItems_found (items : list PurchaseItemDto.t) (db : Db)
  (storeItems : list StoreItem.t) (totalCost : Z) :
  fst (validatePurchaseItems items db) = inr (storeItems, totalCost) ->
  all_found storeItems items.
Proof.
  intros H. apply validatePurchaseItems_inv in H. destruct H as (_ & _ & _ & H).
  now apply sumPurchaseItems_found in H.
Qed.

(** A rejected purchase leaves the database as it found it: every check
    before the transaction only reads, and the transaction is atomic. *)
Lemma createPurchase_rejected_unchanged (userId : string) (dto : CreatePurchaseDto.t)
  (db db' : Db) (e : Exception) :
  createPurchase userId dto db = (inl e, db') -> db' = db.
Proof.
  rewrite createPurchase_unfold.
  destruct (duplicateSuppressed _ _ _); [now intros [= _ <-]|].
  destruct (fst (validatePurchaseItems _ _)) as [e'|[storeItems totalCost]];
    [now intros [= _ <-]|].
  destruct (find _ (userWallets db)) as [wallet|]; [|now intros [= _ <-]].
  destruct (UserWallet.balance wallet <? totalCost); [now intros [= _ <-]|].
  unfold executePurchaseTransaction. apply transaction_atomic.
Qed.

(** The conditions under which [createPurchase] commits, and what it
    commits. *)
Lemma createPurchase_accepted (userId : string) (dto : CreatePurchaseDto.t)
  (db db' : Db) (r : PurchaseResponseDto.t) :
  createPurchase userId dto db = (inr r, db') ->
  exists storeItems totalCost wallet inv,
    duplicateSuppressed userId (CreatePurchaseDto.idempotencyKey dto) db = false /\
    fst (validatePurchaseItems (CreatePurchaseDto.items dto) db) = inr (storeItems, totalCost) /\
    find (fun w => String.eqb (UserWallet.userId w) userId) (userWallets db) = Some wallet /\
    totalCost <= UserWallet.balance wallet /\
    fst (validateNonConsumableOwnership userId (CreatePurchaseDto.items dto) storeItems db)
    = inr tt /\
    grantItems userId storeItems (CreatePurchaseDto.items dto) (userInventories db) = inr inv /\
    db' = committed userId (CreatePurchaseDto.items dto) storeItems totalCost wallet inv db.
Proof.
  rewrite createPurchase_unfold.
  destruct (duplicateSuppressed _ _ _) eqn:Edup; [discriminate|].
  destruct (fst (validatePurchaseItems _ _)) as [e'|[storeItems totalCost]] eqn:Eval;
    [discriminate|].
  destruct (find _ (userWallets db)) as [wallet|] eqn:Ew; [|discriminate].
  destruct (UserWallet.balance wallet <? totalCost) eqn:Eb; [discriminate|].
  unfold executePurchaseTransaction. intros H.
  pose proof (purchaseTransactionBody_run userId (CreatePurchaseDto.items dto) storeItems
                totalCost db (validatePurchaseItems_found _ _ _ _ Eval)) as Hbody.
  rewrite Ew in Hbody.
  assert (Hthrow : forall e,
    fst (purchaseTransactionBody userId (CreatePurchaseDto.items dto) storeItems totalCost db)
    = inl e -> False).
  { intros e He. rewrite (run_transaction_throw _ _ _ He) in H. discriminate. }
  destruct (fst (validateNonConsumableOwnership _ _ _ _)) as [e|[]] eqn:Ev;
    [now destruct (Hthrow _ Hbody)|].
  destruct (UserWallet.balance wallet - totalCost <? 0) eqn:Eb';
    [now destruct (Hthrow _ Hbody)|].
  destruct (grantItems _ _ _ _) as [e|inv] eqn:Eg; [now destruct (Hthrow _ Hbody)|].
  destruct Hbody as [dto' Hbody]. rewrite (run_transaction_ret _ _ _ _ Hbody) in H.
  injection H as _ <-. exists storeItems, totalCost, wallet, inv.
  repeat split; try assumption; try reflexivity; lia.
Qed.

Lemma createPurchase_accepts (userId : string) (dto : CreatePurchaseDto.t) (db : Db)
  (storeItems : list StoreItem.t) (totalCost : Z) (wallet : UserWallet.t)
  (inv : list UserInventory.t) :
  duplicateSuppressed userId (CreatePurchaseDto.idempotencyKey dto) db = false ->
  fst (validatePurchaseItems (CreatePurchaseDto.items dto) db) = inr (storeItems, totalCost) ->
  find (fun w => String.eqb (UserWallet.userId w) userId) (userWallets db) = Some wallet ->
  totalCost <= UserWallet.balance wallet ->
  fst (validateNonConsumableOwnership userId (CreatePurchaseDto.items dto) storeItems db)
  = inr tt ->
  grantItems userId storeItems (CreatePurchaseDto.items dto) (userInventories db) = inr inv ->
  exists r,
    createPurchase userId dto db =
    (inr r, committed userId (CreatePurchaseDto.items dto) storeItems totalCost wallet inv db).
Proof.
  intros Edup Eval Ew Hb Ev Eg. rewrite createPurchase_unfold, Edup, Eval, Ew.
  assert (Eb : (UserWallet.balance wallet <? totalCost) = false) by lia. rewrite Eb.
  pose proof (purchaseTransactionBody_run userId (CreatePurchaseDto.items dto) storeItems
                totalCost db (validatePurchaseItems_found _ _ _ _ Eval)) as Hbody.
  rewrite Ev, Ew, Eg in Hbody.
  assert (Eb' : (UserWallet.balance wallet - totalCost <? 0) = false) by lia.
  rewrite Eb' in Hbody. destruct Hbody as [r Hbody]. exists r.
  unfold executePurchaseTransaction. now apply run_transaction_ret.
Qed.

(** ** The inventory after a purchase *)

Lemma ownedBy_other (userId i j : string) (r : UserInventory.t) :
  i <> j -> ownedBy userId i r = true -> ownedBy userId j r = false.
Proof.
  unfold ownedBy. intros Hij H. apply andb_true_iff in H. destruct H as [_ H].
  apply String.eqb_eq in H. rewrite H. apply andb_false_iff. right.
  now apply String.eqb_neq.
Qed.

Lemma ownedBy_new_row (userId i j : string) (q : Z) :
  ownedBy userId j (UserInventory.mk userId i q false) = String.eqb i j.
Proof.
  unfold ownedBy. simpl. now rewrite String.eqb_refl.
Qed.

Lemma find_none_replace_first {A} (p q : A -> bool) (f : A -> A) (l : list A) :
  (forall a, p a = true -> q (f a) = false) ->
  find q l = None -> find q (replace_first p f l) = None.
Proof.
  intros Hf. induction l as [|a l IH]; simpl; [reflexivity|].
  destruct (q a) eqn:Eq; [discriminate|]. intros H.
  destruct (p a) eqn:Ep; simpl.
  - now rewrite (Hf a Ep).
  - rewrite Eq. now apply IH.
Qed.

(** Rows of an item that no line names are not touched. *)
Lemma grantItems_frame (userId : string) (storeItems : list StoreItem.t) (j : string)
  (items : list PurchaseItemDto.t) :
  forall inv inv',
    grantItems userId storeItems items inv = inr inv' ->
    ~ In j (map PurchaseItemDto.itemId items) ->
    filter (ownedBy userId j) inv' = filter (ownedBy userId j) inv.
Proof.
  induction items as [|item rest IH]; intros inv inv' H Hj; simpl in H.
  - now injection H as <-.
  - simpl in Hj. apply Decidable.not_or in Hj. destruct Hj as [Hne Hj].
    destruct (storeItems_find storeItems (PurchaseItemDto.itemId item)) as [storeItem|];
      [|discriminate].
    destruct (isFunctional (StoreItem.deliveryType storeItem) && metadata_instant storeItem);
      [now apply IH|].
    destruct (StoreItem.type storeItem);
      destruct (find (ownedBy userId (PurchaseItemDto.itemId item)) inv) eqn:Eown;
      try discriminate; rewrite (IH _ _ H Hj).
    + apply filter_replace_first_other.
      * intros a. now apply ownedBy_other.
      * intros a Ha. apply (ownedBy_other userId (PurchaseItemDto.itemId item) j); auto.
    + rewrite filter_app. simpl. rewrite ownedBy_new_row.
      apply String.eqb_neq in Hne. rewrite Hne. now rewrite app_nil_r.
    + rewrite filter_app. simpl. rewrite ownedBy_new_row.
      apply String.eqb_neq in Hne. rewrite Hne. now rewrite app_nil_r.
Qed.

(** A NON_CONSUMABLE item that is not applied on the spot ends with exactly
    one row, of quantity 1. *)
Lemma grantItems_non_consumable (userId : string) (storeItems : list StoreItem.t)
  (items : list PurchaseItemDto.t) :
  forall inv inv' l,
    grantItems userId storeItems items inv = inr inv' ->
    In l (resolveItems storeItems items) ->
    StoreItem.type (snd l) = NON_CONSUMABLE ->
    isFunctional (StoreItem.deliveryType (snd l)) && metadata_instant (snd l) = false ->
    filter (ownedBy userId (PurchaseItemDto.itemId (fst l))) inv'
    = [UserInventory.mk userId (PurchaseItemDto.itemId (fst l)) 1 false].
Proof.
  induction items as [|item rest IH]; intros inv inv' l H Hin Hty Hskip; [destruct Hin|].
  unfold resolveItems in Hin. simpl in Hin, H.
  destruct (storeItems_find storeItems (PurchaseItemDto.itemId item)) as [storeItem|] eqn:Efind;
    [|discriminate].
  simpl in Hin. fold (resolveItems storeItems rest) in Hin.
  destruct Hin as [<-|Hin]; simpl in *.
  - rewrite Hskip, Hty in H.
    destruct (find (ownedBy userId (PurchaseItemDto.itemId item)) inv) eqn:Eown;
      [discriminate|].
    destruct (in_dec string_dec (PurchaseItemDto.itemId item)
                (map PurchaseItemDto.itemId rest)) as [Hdup|Hfresh].
    + apply in_map_iff in Hdup. destruct Hdup as (item' & Hid & Hin').
      rewrite <- Hid in Efind.
      pose proof (IH _ _ (item', storeItem) H
                    (resolveItems_In _ _ _ _ Hin' Efind) Hty Hskip) as Hrow.
      simpl in Hrow. now rewrite Hid in Hrow.
    + rewrite (grantItems_frame _ _ _ _ _ _ H Hfresh), filter_app.
      rewrite (filter_nil_find _ _ Eown). simpl.
      now rewrite ownedBy_new_row, String.eqb_refl.
  - destruct (isFunctional (StoreItem.deliveryType storeItem) && metadata_instant storeItem);
      [now apply (IH inv)|].
    destruct (StoreItem.type storeItem);
      destruct (find (ownedBy userId (PurchaseItemDto.itemId item)) inv);
      try discriminate; now apply (IH _ _ l H).
Qed.

(** With distinct items on the lines and no NON_CONSUMABLE item owned
    beforehand, the inventory step cannot fail. *)
Lemma grantItems_succeeds (userId : string) (storeItems : list StoreItem.t)
  (items : list PurchaseItemDto.t) :
  all_found storeItems items ->
  NoDup (map PurchaseItemDto.itemId items) ->
  forall inv,
    (forall l, In l (resolveItems storeItems items) ->
       StoreItem.type (snd l) = NON_CONSUMABLE ->
       find (ownedBy userId (PurchaseItemDto.itemId (fst l))) inv = None) ->
    exists inv', grantItems userId storeItems items inv = inr inv'.
Proof.
  unfold all_found. induction 1 as [|item rest Hitem _ IH]; intros Hnd inv Hun; simpl.
  - now exists inv.
  - simpl in Hnd. inversion Hnd as [|? ? Hfresh Hnd']; subst.
    unfold resolveItems in Hun. simpl in Hun.
    destruct (storeItems_find storeItems (PurchaseItemDto.itemId item)) as [storeItem|] eqn:Efind;
      [|contradiction].
    simpl in Hun. fold (resolveItems storeItems rest) in Hun.
    assert (Hother : forall l, In l (resolveItems storeItems rest) ->
              PurchaseItemDto.itemId item <> PurchaseItemDto.itemId (fst l)).
    { intros l Hl Heq. apply Hfresh. rewrite Heq. apply in_map.
      now apply resolveItems_found in Hl. }
    destruct (isFunctional (StoreItem.deliveryType storeItem) && metadata_instant storeItem).
    { apply (IH Hnd'). intros l Hl. apply Hun. now right. }
    destruct (StoreItem.type storeItem) eqn:Ety;
      destruct (find (ownedBy userId (PurchaseItemDto.itemId item)) inv) eqn:Eown.
    + apply (IH Hnd'). intros l Hl Hty. apply find_none_replace_first.
      * intros a Ha. apply (ownedBy_other userId (PurchaseItemDto.itemId item)); auto.
      * apply Hun; [now right | exact Hty].
    + apply (IH Hnd'). intros l Hl Hty. rewrite find_app_split.
      rewrite (Hun l (or_intror Hl) Hty). simpl. rewrite ownedBy_new_row.
      pose proof (Hother l Hl) as Hne. apply String.eqb_neq in Hne. now rewrite Hne.
    + pose proof (Hun (item, storeItem) (or_introl eq_refl) Ety) as Hnone.
      simpl in Hnone. rewrite Hnone in Eown. discriminate.
    + apply (IH Hnd'). intros l Hl Hty. rewrite find_app_split.
      rewrite (Hun l (or_intror Hl) Hty). simpl. rewrite ownedBy_new_row.
      pose proof (Hother l Hl) as Hne. apply String.eqb_neq in Hne. now rewrite Hne.
Qed.

(** ** The total of a purchase *)

Lemma selectedItems_distinct (items : list PurchaseItemDto.t) (db : Db) :
  NoDup (map StoreItem.id (storeItems db)) ->
  NoDup (map StoreItem.id (selectedItems items db)).
Proof.
  intros H. unfold selectedItems. now apply NoDup_map_filter.
Qed.

(** The length test of the validation only lets through lines that name
    pairwise distinct items. *)
Lemma validated_lines_distinct (items : list PurchaseItemDto.t) (db : Db)
  (selected : list StoreItem.t) (totalCost : Z) :
  NoDup (map StoreItem.id (storeItems db)) ->
  fst (validatePurchaseItems items db) = inr (selected, totalCost) ->
  NoDup (map PurchaseItemDto.itemId items).
Proof.
  intros Hpk H. apply validatePurchaseItems_inv in H. destruct H as (_ & -> & Hlen & _).
  apply NoDup_incl_NoDup with (l := map StoreItem.id (selectedItems items db)).
  - now apply selectedItems_distinct.
  - rewrite !length_map. now rewrite Hlen.
  - intros id Hin. apply in_map_iff in Hin. destruct Hin as (si & <- & Hin).
    unfold selectedItems in Hin. apply filter_In in Hin. destruct Hin as [_ Hin].
    apply andb_true_iff in Hin. destruct Hin as [Hin _].
    apply existsb_exists in Hin. destruct Hin as (x & Hx & Heq).
    apply String.eqb_eq in Heq. now rewrite Heq.
Qed.

Lemma sumPurchaseItems_total (storeItems : list StoreItem.t) (items : list PurchaseItemDto.t) :
  NoDup (map StoreItem.id storeItems) ->
  forall acc totalCost,
    sumPurchaseItems storeItems items acc = inr totalCost ->
    totalCost = acc + linesCost (resolveItems storeItems items).
Proof.
  intros Hpk. unfold linesCost, resolveItems.
  induction items as [|item rest IH]; intros acc totalCost H; simpl in H.
  - injection H as <-. simpl. lia.
  - unfold itemsMap_get in H. rewrite (find_rev_unique_key StoreItem.id) in H by exact Hpk.
    simpl. unfold storeItems_find at 1.
    destruct (find _ storeItems) as [storeItem|]; [|discriminate].
    destruct (_ || _); [discriminate|]. destruct (_ && _); [discriminate|].
    apply IH in H. simpl. unfold sumZ in *. simpl. lia.
Qed.


(** ** Claims on [createPurchase] *)

Lemma order_committed :
  createPurchase "demo" Demo.order Demo.seed = (inr Demo.orderResponse, Demo.afterOrder).
Proof. vm_compute. reflexivity. Qed.

Lemma gemOrder_committed :
  createPurchase "demo" Demo.gemOrder Demo.seed = (inr Demo.gemResponse, Demo.afterGemOrder).
Proof. vm_compute. reflexivity. Qed.


Lemma committed_balance (userId : string) (items : list PurchaseItemDto.t)
  (selected : list StoreItem.t) (totalCost : Z) (wallet : UserWallet.t)
  (inv : list UserInventory.t) (db : Db) :
  find (fun w => String.eqb (UserWallet.userId w) userId) (userWallets db) = Some wallet ->
  balanceOf userId (committed userId items selected totalCost wallet inv db)
  = Some (UserWallet.balance wallet - totalCost + totalCredit selected items).
Proof.
  intros Hw. unfold balanceOf, committed. simpl.
  rewrite find_replace_first by reflexivity. now rewrite Hw.
Qed.

(** C1, as amended. A purchase that passes the duplicate suppression and
    the validation, that the wallet can pay and that buys no NON_CONSUMABLE
    item the user already owns, commits: the balance goes down by the total
    and up by the gems of the gem packs bought, one COMPLETED purchase of
    that total is created, and one purchase item and one fulfillment per
    line, in the order of the lines. *)
Theorem createPurchase_commits (userId : string) (dto : CreatePurchaseDto.t) (db : Db)
  (selected : list StoreItem.t) (totalCost : Z) (wallet : UserWallet.t) :
  let items := CreatePurchaseDto.items dto in
  let purchaseId := cuid (nextId db) in
  NoDup (map StoreItem.id (storeItems db)) ->
  duplicateSuppressed userId (CreatePurchaseDto.idempotencyKey dto) db = false ->
  fst (validatePurchaseItems items db) = inr (selected, totalCost) ->
  find (fun w => String.eqb (UserWallet.userId w) userId) (userWallets db) = Some wallet ->
  totalCost <= UserWallet.balance wallet ->
  (forall l, In l (resolveItems selected items) ->
     StoreItem.type (snd l) = NON_CONSUMABLE ->
     find (ownedBy userId (PurchaseItemDto.itemId (fst l))) (userInventories db) = None) ->
  exists r db',
    createPurchase userId dto db = (inr r, db') /\
    map fst (resolveItems selected items) = items /\
    totalCost = linesCost (resolveItems selected items) /\
    balanceOf userId db'
    = Some (UserWallet.balance wallet - totalCost + totalCredit selected items) /\
    purchases db'
    = purchases db
      ++ [Purchase.mk purchaseId userId totalCost PS_COMPLETED "GEMS" (now db)] /\
    purchaseItems db'
    = purchaseItems db ++ map (purchaseItemRow purchaseId) (resolveItems selected items) /\
    itemFulfillments db'
    = itemFulfillments db
      ++ map (fulfillmentRow purchaseId userId (now db)) (resolveItems selected items).
Proof.
  intros items purchaseId Hpk Hdup Hval Hw Hbal Hunowned.
  pose proof (validatePurchaseItems_found _ _ _ _ Hval) as Hfound.
  pose proof (validated_lines_distinct _ _ _ _ Hpk Hval) as Hnd.
  destruct (grantItems_succeeds userId selected items Hfound Hnd _ Hunowned) as [inv Hinv].
  assert (Hown :
    fst (validateNonConsumableOwnership userId items selected db) = inr tt).
  { destruct (validateNonConsumableOwnership_outcome userId selected items db Hfound)
      as [[Hok _]|(l & r & Hin & Hty & Hr & _)]; [exact Hok|].
    rewrite (Hunowned l Hin Hty) in Hr. discriminate. }
  destruct (createPurchase_accepts userId dto db selected totalCost wallet inv
              Hdup Hval Hw Hbal Hown Hinv) as [r Hr].
  exists r, (committed userId items selected totalCost wallet inv db).
  split; [exact Hr|]. split; [now apply resolveItems_lines|]. split.
  - destruct (validatePurchaseItems_inv _ _ _ _ Hval) as (_ & Hsel & _ & Hsum).
    apply sumPurchaseItems_total in Hsum; [lia|].
    rewrite Hsel. now apply selectedItems_distinct.
  - split; [now apply committed_balance|]. repeat split.
Qed.

Lemma createPurchase_commits_witness :
  exists r db',
    createPurchase "demo" Demo.order Demo.seed = (inr r, db') /\
    balanceOf "demo" db' = Some 2000 /\
    List.length (purchases db') = 1%nat /\
    List.length (purchaseItems db') = 2%nat /\
    List.length (itemFulfillments db') = 2%nat.
Proof.
  destruct (createPurchase_commits "demo" Demo.order Demo.seed
              [Demo.xpToken; Demo.tshirt] 2500 (UserWallet.mk "w1" "demo" 4500))
    as (r & db' & Hrun & _ & _ & Hbal & Hp & Hpi & Hf).
  - simpl. repeat constructor; simpl; intuition discriminate.
  - reflexivity.
  - reflexivity.
  - reflexivity.
  - simpl. lia.
  - intros l _ _. reflexivity.
  - exists r, db'. rewrite Hp, Hpi, Hf. repeat split; [exact Hrun | exact Hbal].
Defined.

(** C1, counterexample. The free gem pack is a valid item and its total, 0,
    is within the balance; the purchase commits and the balance goes from
    4500 to 5500, not to 4500 - 0. *)
Lemma createPurchase_gem_pack_balance :
  fst (validatePurchaseItems (CreatePurchaseDto.items Demo.gemOrder) Demo.seed)
  = inr ([Demo.gemPack], 0) /\
  balanceOf "demo" Demo.seed = Some 4500 /\
  exists r db',
    createPurchase "demo" Demo.gemOrder Demo.seed = (inr r, db') /\
    balanceOf "demo" db' = Some 5500 /\
    balanceOf "demo" db' <> Some (4500 - 0).
Proof.
  split; [vm_compute; reflexivity|]. split; [vm_compute; reflexivity|].
  exists Demo.gemResponse, Demo.afterGemOrder. split; [exact gemOrder_committed|].
  split; [vm_compute; reflexivity | vm_compute; discriminate].
Qed.

(** ** Which exception a rejected purchase raises *)

Lemma sumPurchaseItems_error (storeItems : list StoreItem.t) (items : list PurchaseItemDto.t) :
  forall acc e, sumPurchaseItems storeItems items acc = inl e -> isConflict e = false.
Proof.
  induction items as [|item rest IH]; intros acc e H; simpl in H; [discriminate|].
  destruct (itemsMap_get _ _); [|now injection H as <-].
  destruct (_ || _); [now injection H as <-|].
  destruct (_ && _); [now injection H as <-|]. exact (IH _ _ H).
Qed.

Lemma validatePurchaseItems_error (items : list PurchaseItemDto.t) (db : Db) (e : Exception) :
  fst (validatePurchaseItems items db) = inl e -> isConflict e = false.
Proof.
  unfold validatePurchaseItems. destruct items as [|item rest]; [now intros [= <-]|].
  unfold bind, gets, throw, ret. cbn iota beta.
  match goal with |- context [negb ?b] => destruct b end; cbn iota beta;
    [|now intros [= <-]].
  match goal with |- context [sumPurchaseItems ?a ?b ?c] =>
    destruct (sumPurchaseItems a b c) eqn:Es end; simpl; [|discriminate].
  intros [= <-]. exact (sumPurchaseItems_error _ _ _ _ Es).
Qed.

Lemma grantItems_error (userId : string) (storeItems : list StoreItem.t)
  (items : list PurchaseItemDto.t) :
  forall inv e, grantItems userId storeItems items inv = inl e -> isConflict e = false.
Proof.
  induction items as [|item rest IH]; intros inv e H; simpl in H; [discriminate|].
  destruct (storeItems_find _ _) as [storeItem|]; [|now injection H as <-].
  destruct (_ && _); [exact (IH _ _ H)|].
  destruct (StoreItem.type storeItem); destruct (find _ inv);
    try exact (IH _ _ H). now injection H as <-.
Qed.

Lemma purchaseTransactionBody_error (userId : string) (items : list PurchaseItemDto.t)
  (selected : list StoreItem.t) (totalCost : Z) (db : Db) (e : Exception) :
  all_found selected items ->
  fst (purchaseTransactionBody userId items selected totalCost db) = inl e ->
  isConflict e = false.
Proof.
  intros Hfound He.
  pose proof (purchaseTransactionBody_run userId items selected totalCost db Hfound) as Hbody.
  destruct (validateNonConsumableOwnership_outcome userId selected items db Hfound)
    as [[Hok _]|(l & r & _ & _ & _ & Herr)].
  - rewrite Hok in Hbody.
    destruct (find _ (userWallets db)) as [wallet|];
      [|rewrite He in Hbody; now injection Hbody as ->].
    destruct (_ <? 0); [rewrite He in Hbody; now injection Hbody as ->|].
    destruct (grantItems _ _ _ _) as [e'|inv] eqn:Eg.
    + rewrite He in Hbody. injection Hbody as ->. exact (grantItems_error _ _ _ _ _ Eg).
    + destruct Hbody as [dto Hbody]. rewrite Hbody in He. discriminate.
  - rewrite Herr in Hbody. rewrite He in Hbody. now injection Hbody as ->.
Qed.

(** [createPurchase] raises a conflict exactly when the duplicate suppression
    fires. *)
Lemma createPurchase_conflict (userId : string) (dto : CreatePurchaseDto.t) (db : Db) :
  (exists m, fst (createPurchase userId dto db) = inl (ConflictException m)) <->
  duplicateSuppressed userId (CreatePurchaseDto.idempotencyKey dto) db = true.
Proof.
  rewrite createPurchase_unfold. split.
  - intros [m H]. destruct (duplicateSuppressed _ _ _); [reflexivity|]. exfalso.
    assert (Hno : forall e, isConflict e = false -> e = ConflictException m -> False)
      by (intros e He ->; discriminate).
    destruct (fst (validatePurchaseItems _ _)) as [e|[selected totalCost]] eqn:Eval.
    { simpl in H. injection H as H.
      exact (Hno _ (validatePurchaseItems_error _ _ _ Eval) H). }
    destruct (find _ (userWallets db)) as [wallet|]; [|discriminate].
    destruct (_ <? _); [discriminate|].
    unfold executePurchaseTransaction, transaction in H.
    destruct (purchaseTransactionBody _ _ _ _ _) as [[e|r] db'] eqn:Eb; [|discriminate].
    simpl in H. injection H as H.
    apply (Hno e); [|exact H].
    apply (purchaseTransactionBody_error userId (CreatePurchaseDto.items dto) selected
             totalCost db e (validatePurchaseItems_found _ _ _ _ Eval)).
    now rewrite Eb.
  - intros ->. now exists Duplicate_purchase_detected.
Qed.

(** C2, as amended. When the validation accepts the lines and their total
    exceeds the balance of the wallet, [createPurchase] throws and leaves the
    database as it was; the exception is the bad request that reports the
    required total and the available balance, unless the duplicate
    suppression, which runs first, has fired. *)
Theorem createPurchase_insufficient_gems (userId : string) (dto : CreatePurchaseDto.t)
  (db : Db) (selected : list StoreItem.t) (totalCost : Z) (wallet : UserWallet.t) :
  fst (validatePurchaseItems (CreatePurchaseDto.items dto) db) = inr (selected, totalCost) ->
  find (fun w => String.eqb (UserWallet.userId w) userId) (userWallets db) = Some wallet ->
  UserWallet.balance wallet < totalCost ->
  createPurchase userId dto db =
  (inl (if duplicateSuppressed userId (CreatePurchaseDto.idempotencyKey dto) db
        then ConflictException Duplicate_purchase_detected
        else BadRequestException
               (Insufficient_gems_Required_Available totalCost (UserWallet.balance wallet))),
   db).
Proof.
  intros Hval Hw Hlt. rewrite createPurchase_unfold, Hval, Hw.
  assert (E : (UserWallet.balance wallet <? totalCost) = true) by lia. rewrite E.
  now destruct (duplicateSuppressed _ _ _).
Qed.

Lemma createPurchase_insufficient_gems_witness :
  createPurchase "demo" Demo.bigOrder Demo.seed =
  (inl (BadRequestException (Insufficient_gems_Required_Available 6000 4500)), Demo.seed).
Proof.
  apply (createPurchase_insufficient_gems "demo" Demo.bigOrder Demo.seed
           [Demo.ak47; Demo.vandal] 6000 (UserWallet.mk "w1" "demo" 4500)).
  - vm_compute. reflexivity.
  - vm_compute. reflexivity.
  - simpl. lia.
Defined.

(** C2, counterexample. One minute after a purchase, an order of 6000 gems
    against a balance of 4500, sent with a key, is refused as a duplicate and
    not for its cost. *)
Lemma createPurchase_insufficient_after_recent_purchase :
  fst (validatePurchaseItems (CreatePurchaseDto.items Demo.bigOrder) Demo.afterPurchase)
  = inr ([Demo.ak47; Demo.vandal], 6000) /\
  balanceOf "demo" Demo.afterPurchase = Some 4500 /\
  createPurchase "demo" Demo.bigOrder Demo.afterPurchase
  = (inl (ConflictException Duplicate_purchase_detected), Demo.afterPurchase) /\
  forall required available,
    fst (createPurchase "demo" Demo.bigOrder Demo.afterPurchase)
    <> inl (BadRequestException (Insufficient_gems_Required_Available required available)).
Proof.
  split; [vm_compute; reflexivity|]. split; [vm_compute; reflexivity|].
  split; [vm_compute; reflexivity|]. intros required available. vm_compute. discriminate.
Qed.

(** C6, as amended. With a key that is not the empty string (the test of the
    source is [if (idempotencyKey)]), [createPurchase] raises a conflict
    exactly when the user has a purchase created within the last five
    minutes; which key it is plays no part. Without a key, or with the empty
    string as the key, there is never a conflict. *)
Theorem createPurchase_duplicate_suppression (userId : string)
  (items : list PurchaseItemDto.t) (db : Db) :
  (forall key, truthy (Some key) = true ->
     ((exists m, fst (createPurchase userId (CreatePurchaseDto.mk items (Some key)) db)
                 = inl (ConflictException m))
      <-> exists p, In p (purchases db) /\ Purchase.userId p = userId /\
                    now db - 300000 <= Purchase.createdAt p)) /\
  (forall key key', truthy (Some key) = true -> truthy (Some key') = true ->
     createPurchase userId (CreatePurchaseDto.mk items (Some key)) db
     = createPurchase userId (CreatePurchaseDto.mk items (Some key')) db) /\
  (forall key m, truthy key = false ->
     fst (createPurchase userId (CreatePurchaseDto.mk items key) db)
     <> inl (ConflictException m)).
Proof.
  split; [|split].
  - intros key Hkey. rewrite createPurchase_conflict. unfold duplicateSuppressed.
    simpl CreatePurchaseDto.idempotencyKey. rewrite Hkey. simpl. unfold recentPurchase.
    split.
    + destruct (find _ (purchases db)) as [p|] eqn:E; [|discriminate]. intros _.
      apply find_some in E. destruct E as [Hin Hp]. apply andb_true_iff in Hp.
      destruct Hp as [Hu Ht]. apply String.eqb_eq in Hu. exists p. repeat split; auto. lia.
    + intros (p & Hin & Hu & Ht).
      destruct (find_found_anywhere
                  (fun p => String.eqb (Purchase.userId p) userId
                            && (now db - 5 * 60 * 1000 <=? Purchase.createdAt p))
                  (purchases db) p Hin) as [q Hq].
      * apply andb_true_iff. split; [now apply String.eqb_eq | lia].
      * now rewrite Hq.
  - intros key key' Hkey Hkey'. rewrite !createPurchase_unfold. unfold duplicateSuppressed.
    simpl CreatePurchaseDto.idempotencyKey. simpl CreatePurchaseDto.items.
    now rewrite Hkey, Hkey'.
  - intros key m Hkey H.
    assert (Hdup : duplicateSuppressed userId key db = true).
    { apply (createPurchase_conflict userId (CreatePurchaseDto.mk items key) db).
      now exists m. }
    unfold duplicateSuppressed in Hdup. rewrite Hkey in Hdup. discriminate.
Qed.

Lemma createPurchase_duplicate_suppression_witness :
  exists m,
    fst (createPurchase "demo"
           (CreatePurchaseDto.mk [PurchaseItemDto.mk "xp" 1] (Some "purchase_2024_demo_3"))
           Demo.afterPurchase)
    = inl (ConflictException m).
Proof.
  apply (proj1 (createPurchase_duplicate_suppression "demo" [PurchaseItemDto.mk "xp" 1]
                  Demo.afterPurchase) "purchase_2024_demo_3" eq_refl).
  exists (Purchase.mk "c0" "demo" 500 PS_COMPLETED "GEMS" 940000).
  simpl. repeat split; [now left | lia].
Defined.

(** C6, counterexample. One minute after a purchase of the demo user, a
    purchase sent with the empty string as its idempotency key is not
    refused as a duplicate: it commits. *)
Lemma createPurchase_empty_key :
  CreatePurchaseDto.idempotencyKey Scenes.emptyKeyOrder = Some "" /\
  (exists p, In p (purchases Scenes.minuteAgo) /\ Purchase.userId p = "demo" /\
             now Scenes.minuteAgo - 300000 <= Purchase.createdAt p) /\
  (exists r db',
     createPurchase "demo" Scenes.emptyKeyOrder Scenes.minuteAgo = (inr r, db') /\
     map Purchase.id (purchases db') = ["o0"; "c0"] /\
     balanceOf "demo" db' = Some 4000) /\
  forall m, fst (createPurchase "demo" Scenes.emptyKeyOrder Scenes.minuteAgo)
            <> inl (ConflictException m).
Proof.
  split; [reflexivity|]. split.
  - exists (Purchase.mk "o0" "demo" 500 PS_COMPLETED "GEMS" 940000).
    simpl. repeat split; [now left | lia].
  - split.
    + eexists. eexists. split; [vm_compute; reflexivity|].
      split; vm_compute; reflexivity.
    + intros m. vm_compute. discriminate.
Qed.

(** ** The fulfillments of a purchase *)

Lemma Forall2_resolved {B} (P : PurchaseItemDto.t -> B -> Prop)
  (g : PurchaseItemDto.t * StoreItem.t -> B) (l : list (PurchaseItemDto.t * StoreItem.t)) :
  (forall x, In x l -> P (fst x) (g x)) -> Forall2 P (map fst l) (map g l).
Proof.
  induction l as [|x l IH]; simpl; intros H; constructor; auto.
Qed.

(** C8. A committed purchase adds one fulfillment per line, in the order of
    the lines; the fulfillment of an IN_GAME or FUNCTIONAL item is COMPLETED
    and carries the date, the one of an EMAIL or SHOPIFY item is PENDING and
    carries none. *)
Theorem createPurchase_fulfillments (userId : string) (dto : CreatePurchaseDto.t)
  (db db' : Db) (r : PurchaseResponseDto.t) :
  createPurchase userId dto db = (inr r, db') ->
  exists rows,
    itemFulfillments db' = itemFulfillments db ++ rows /\
    Forall2
      (fun item row =>
         ItemFulfillment.itemId row = PurchaseItemDto.itemId item /\
         ItemFulfillment.userId row = userId /\
         ItemFulfillment.purchaseId row = cuid (nextId db) /\
         (exists storeItem,
            storeItems_find (selectedItems (CreatePurchaseDto.items dto) db)
              (PurchaseItemDto.itemId item) = Some storeItem /\
            ItemFulfillment.deliveryType row = StoreItem.deliveryType storeItem) /\
         match ItemFulfillment.deliveryType row with
         | IN_GAME | FUNCTIONAL =>
           ItemFulfillment.status row = FS_COMPLETED /\
           ItemFulfillment.completedAt row = Some (now db)
         | EMAIL | SHOPIFY =>
           ItemFulfillment.status row = FS_PENDING /\
           ItemFulfillment.completedAt row = None
         end)
      (CreatePurchaseDto.items dto) rows.
Proof.
  intros H. apply createPurchase_accepted in H.
  destruct H as (selected & totalCost & wallet & inv & _ & Hval & _ & _ & _ & _ & ->).
  pose proof (validatePurchaseItems_found _ _ _ _ Hval) as Hfound.
  apply validatePurchaseItems_inv in Hval. destruct Hval as (_ & <- & _ & _).
  eexists. split; [reflexivity|].
  rewrite <- (resolveItems_lines _ _ Hfound) at 1.
  apply Forall2_resolved. intros [item storeItem] Hin.
  apply resolveItems_found in Hin. destruct Hin as [_ Hfind]. simpl in *.
  repeat split.
  - exists storeItem. split; [exact Hfind | reflexivity].
  - destruct (StoreItem.deliveryType storeItem); split; reflexivity.
Qed.

Lemma createPurchase_fulfillments_witness :
  exists rows,
    itemFulfillments Demo.afterOrder = itemFulfillments Demo.seed ++ rows /\
    List.length rows = 2%nat.
Proof.
  destruct (createPurchase_fulfillments "demo" Demo.order Demo.seed Demo.afterOrder
              Demo.orderResponse order_committed) as (rows & Hrows & Hall).
  exists rows. split; [exact Hrows|].
  apply Forall2_length in Hall. symmetry. exact Hall.
Defined.

(** ** The wallet transactions of a purchase *)


Lemma selected_line (items : list PurchaseItemDto.t) (db : Db)
  (selected : list StoreItem.t) (totalCost : Z) (l : PurchaseItemDto.t * StoreItem.t) :
  fst (validatePurchaseItems items db) = inr (selected, totalCost) ->
  In l (resolveItems selected items) ->
  In (snd l) (storeItems db) /\
  StoreItem.id (snd l) = PurchaseItemDto.itemId (fst l) /\
  1 <= PurchaseItemDto.quantity (fst l) <= 100.
Proof.
  intros Hval Hin. apply resolveItems_found in Hin. destruct Hin as [Hitem Hfind].
  apply validatePurchaseItems_inv in Hval. destruct Hval as (_ & Hsel & _ & Hsum).
  unfold storeItems_find in Hfind. apply find_some in Hfind. destruct Hfind as [Hin Hid].
  apply String.eqb_eq in Hid. split; [|split; [exact Hid|]].
  - rewrite Hsel in Hin. unfold selectedItems in Hin. now apply filter_In in Hin.
  - apply sumPurchaseItems_inv in Hsum. rewrite Forall_forall in Hsum.
    destruct (Hsum _ Hitem) as (si & _ & Hq & _). exact Hq.
Qed.




(** ** NON_CONSUMABLE items *)

Lemma owned_line_refused (userId : string) (items : list PurchaseItemDto.t) (db : Db)
  (selected : list StoreItem.t) (totalCost : Z) (item : PurchaseItemDto.t) :
  fst (validatePurchaseItems items db) = inr (selected, totalCost) ->
  In item items ->
  (forall si, In si (storeItems db) ->
     StoreItem.id si = PurchaseItemDto.itemId item -> StoreItem.type si = NON_CONSUMABLE) ->
  find (ownedBy userId (PurchaseItemDto.itemId item)) (userInventories db) <> None ->
  exists name,
    fst (validateNonConsumableOwnership userId items selected db)
    = inl (BadRequestException (You_already_own name)).
Proof.
  intros Hval Hitem Hty Hown.
  pose proof (validatePurchaseItems_found _ _ _ _ Hval) as Hfound.
  destruct (validateNonConsumableOwnership_outcome userId selected items db Hfound)
    as [[_ Hall]|(l & r & _ & _ & _ & Herr)]; [|now exists (StoreItem.name (snd l))].
  exfalso. apply Hown.
  unfold all_found in Hfound. rewrite Forall_forall in Hfound.
  destruct (storeItems_find selected (PurchaseItemDto.itemId item)) as [si|] eqn:Efind;
    [|now destruct (Hfound _ Hitem)].
  pose proof (resolveItems_In _ _ _ _ Hitem Efind) as Hl.
  destruct (selected_line _ _ _ _ _ Hval Hl) as (Hin & Hid & _).
  apply (Hall (item, si) Hl). simpl. now apply Hty.
Qed.

(** C3, as amended. A purchase with a line for a NON_CONSUMABLE item that the
    user already has in the inventory is rejected and changes nothing; once
    the earlier checks have passed, the exception is the bad request "You
    already own". In a committed purchase, a NON_CONSUMABLE item that is not
    a FUNCTIONAL item applied on the spot had no row and gets exactly one,
    of quantity 1. *)
Theorem createPurchase_non_consumable (userId : string) (dto : CreatePurchaseDto.t) (db : Db) :
  let items := CreatePurchaseDto.items dto in
  (forall item,
     In item items ->
     (forall si, In si (storeItems db) ->
        StoreItem.id si = PurchaseItemDto.itemId item -> StoreItem.type si = NON_CONSUMABLE) ->
     find (ownedBy userId (PurchaseItemDto.itemId item)) (userInventories db) <> None ->
     exists e,
       createPurchase userId dto db = (inl e, db) /\
       (forall selected totalCost wallet,
          duplicateSuppressed userId (CreatePurchaseDto.idempotencyKey dto) db = false ->
          fst (validatePurchaseItems items db) = inr (selected, totalCost) ->
          find (fun w => String.eqb (UserWallet.userId w) userId) (userWallets db)
          = Some wallet ->
          totalCost <= UserWallet.balance wallet ->
          exists name, e = BadRequestException (You_already_own name)))
  /\
  (forall r db' item storeItem,
     createPurchase userId dto db = (inr r, db') ->
     In item items ->
     storeItems_find (selectedItems items db) (PurchaseItemDto.itemId item) = Some storeItem ->
     StoreItem.type storeItem = NON_CONSUMABLE ->
     isFunctional (StoreItem.deliveryType storeItem) && metadata_instant storeItem = false ->
     inventoryOf userId (PurchaseItemDto.itemId item) db = [] /\
     inventoryOf userId (PurchaseItemDto.itemId item) db'
     = [UserInventory.mk userId (PurchaseItemDto.itemId item) 1 false]).
Proof.
  intros items. subst items. split.
  - intros item Hitem Hty Hown.
    destruct (createPurchase userId dto db) as [[e|r] db'] eqn:E.
    + rewrite (createPurchase_rejected_unchanged _ _ _ _ _ E) in *.
      exists e. split; [reflexivity|].
      intros selected totalCost wallet Hdup Hval Hw Hbal.
      destruct (owned_line_refused userId _ db selected totalCost item
                  Hval Hitem Hty Hown) as [name Hname].
      exists name. rewrite createPurchase_unfold, Hdup, Hval, Hw in E.
      assert (Eb : (UserWallet.balance wallet <? totalCost) = false) by lia.
      rewrite Eb in E.
      pose proof (purchaseTransactionBody_run userId (CreatePurchaseDto.items dto) selected totalCost db
                    (validatePurchaseItems_found _ _ _ _ Hval)) as Hbody.
      rewrite Hname in Hbody.
      unfold executePurchaseTransaction in E.
      rewrite (run_transaction_throw _ _ _ Hbody) in E. now injection E as <-.
    + exfalso. apply createPurchase_accepted in E.
      destruct E as (selected & totalCost & wallet & inv & _ & Hval & _ & _ & Hok & _).
      destruct (owned_line_refused userId _ db selected totalCost item
                  Hval Hitem Hty Hown) as [name Hname].
      rewrite Hok in Hname. discriminate.
  - intros r db' item storeItem E Hitem Hfind Hty Hskip.
    apply createPurchase_accepted in E.
    destruct E as (selected & totalCost & wallet & inv & _ & Hval & _ & _ & Hok & Hinv & ->).
    pose proof (validatePurchaseItems_found _ _ _ _ Hval) as Hfound.
    destruct (validatePurchaseItems_inv _ _ _ _ Hval) as (_ & Hsel & _ & _).
    rewrite <- Hsel in Hfind.
    pose proof (resolveItems_In _ _ _ _ Hitem Hfind) as Hl.
    split.
    + destruct (validateNonConsumableOwnership_outcome userId selected _ db Hfound)
        as [[_ Hall]|(l & r' & _ & _ & _ & Herr)].
      * apply filter_nil_find. exact (Hall (item, storeItem) Hl Hty).
      * rewrite Hok in Herr. discriminate.
    + exact (grantItems_non_consumable userId selected _ _ _ (item, storeItem)
               Hinv Hl Hty Hskip).
Qed.

Lemma createPurchase_non_consumable_witness :
  exists e, createPurchase "demo" Demo.skinOrder Demo.withSkin = (inl e, Demo.withSkin).
Proof.
  destruct (proj1 (createPurchase_non_consumable "demo" Demo.skinOrder Demo.withSkin)
              (PurchaseItemDto.mk "ak47" 1)) as (e & He & _).
  - now left.
  - intros si Hin Hid. simpl in Hin.
    repeat (destruct Hin as [<-|Hin]; [try reflexivity; vm_compute in Hid; discriminate Hid|]).
    destruct Hin.
  - vm_compute. discriminate.
  - now exists e.
Defined.

(** C3, counterexample. The demo user owns the rifle skin and orders it
    again: the exception is a bad request, not a conflict. *)
Lemma createPurchase_owned_skin :
  createPurchase "demo" Demo.skinOrder Demo.withSkin
  = (inl (BadRequestException (You_already_own "Dragon's Breath AK-47")), Demo.withSkin) /\
  forall m, fst (createPurchase "demo" Demo.skinOrder Demo.withSkin)
            <> inl (ConflictException m).
Proof.
  split; [vm_compute; reflexivity | intros m; vm_compute; discriminate].
Qed.

(** ** [retryPurchase] *)

(** The three outcomes of a retry. *)
Lemma retryPurchase_run (userId purchaseId : string) (db : Db) :
  retryPurchase userId purchaseId db =
  match find (retryable userId purchaseId) (purchases db) with
  | None => (inl (NotFoundException Purchase_not_found_or_cannot_be_retried), db)
  | Some _ =>
    match filter (failedOf purchaseId) (itemFulfillments db) with
    | [] => (inl (BadRequestException No_failed_fulfillments_to_retry), db)
    | _ =>
      (inr (count (failedOf purchaseId) (itemFulfillments db)),
       with_itemFulfillments
         (updateMany (failedOf purchaseId) (retried (now db)) (itemFulfillments db)) db)
    end
  end.
Proof.
  unfold retryPurchase, bind, gets. simpl. fold (retryable userId purchaseId).
  destruct (find (retryable userId purchaseId) (purchases db)) as [p|] eqn:E; [|reflexivity].
  apply find_some in E. destruct E as [_ E]. unfold retryable in E.
  apply andb_true_iff in E. destruct E as [E _]. apply andb_true_iff in E.
  destruct E as [E _]. apply String.eqb_eq in E. rewrite E.
  fold (failedOf purchaseId).
  destruct (filter (failedOf purchaseId) (itemFulfillments db)); reflexivity.
Qed.

(** A rejected retry changes nothing. *)
Lemma retryPurchase_rejected_unchanged (userId purchaseId : string) (db db' : Db)
  (e : Exception) :
  retryPurchase userId purchaseId db = (inl e, db') -> db' = db.
Proof.
  rewrite retryPurchase_run. destruct (find _ _); [|now intros [= _ <-]].
  destruct (filter _ _); [now intros [= _ <-] | discriminate].
Qed.

(** An accepted retry moves every FAILED fulfillment of the purchase to
    RETRY, adds one to its attempts and stamps the date; it leaves the other
    fulfillments as they are and returns how many rows it moved. *)
Lemma retryPurchase_retries (userId purchaseId : string) (db db' : Db) (n : Z) :
  retryPurchase userId purchaseId db = (inr n, db') ->
  n = count (failedOf purchaseId) (itemFulfillments db) /\
  0 < n /\
  Forall2
    (fun f f' =>
       if failedOf purchaseId f
       then ItemFulfillment.status f' = FS_RETRY /\
            ItemFulfillment.attempts f' = ItemFulfillment.attempts f + 1 /\
            ItemFulfillment.lastAttempt f' = Some (now db) /\
            f' = retried (now db) f
       else f' = f)
    (itemFulfillments db) (itemFulfillments db').
Proof.
  rewrite retryPurchase_run. destruct (find _ _); [|discriminate].
  destruct (filter (failedOf purchaseId) (itemFulfillments db)) as [|f fs] eqn:E;
    [discriminate|].
  intros [= <- <-]. split; [reflexivity|]. split.
  - unfold count. rewrite E. simpl. lia.
  - simpl. clear E. induction (itemFulfillments db) as [|a l IH]; simpl; constructor; auto.
    destruct (failedOf purchaseId a); auto.
Qed.


Example retryPurchase_completed :
  exists db',
    retryPurchase "demo" "o2" Demo.withFailures = (inr 1, db') /\
    itemFulfillments db'
    = [ItemFulfillment.mk "o1" "demo" "tshirt" FS_FAILED SHOPIFY 1 (Some 900000) None;
       ItemFulfillment.mk "o2" "demo" "tshirt" FS_RETRY SHOPIFY 2 (Some 1000000) None;
       ItemFulfillment.mk "o2" "demo" "xp" FS_PENDING EMAIL 0 None None].
Proof.
  eexists. split; vm_compute; reflexivity.
Qed.

(** ** Character profiles *)

Import CharacterProfilesService.

Lemma nullable_eqb_eq (a b : option string) : nullable_eqb a b = true <-> a = b.
Proof.
  destruct a as [x|], b as [y|]; simpl; split; try discriminate; try reflexivity.
  - intros H. apply String.eqb_eq in H. now subst.
  - intros [= ->]. apply String.eqb_refl.
Qed.

(** A created profile is appended active, whatever the partition already
    holds: the active profiles of its partition are the ones from before
    and the new one. *)
Lemma createCharacterProfile_adds_active (userId : string)
  (dto : CreateCharacterProfileDto.t) (db db' : Db) (profile : CharacterProfile.t) :
  createCharacterProfile userId dto db = (inr profile, db') ->
  profile = CharacterProfile.mk (cuid (nextId db)) userId
              (CreateCharacterProfileDto.gameId dto) (CreateCharacterProfileDto.name dto) true /\
  characterProfiles db' = characterProfiles db ++ [profile] /\
  activeIn userId (CharacterProfile.gameId profile) db'
  = activeIn userId (CharacterProfile.gameId profile) db ++ [profile].
Proof.
  unfold createCharacterProfile.
  set (check :=
    if truthy (CreateCharacterProfileDto.gameId dto)
    then
      game <- gets (fun db0 =>
        find (fun g => nullable_eqb (Some (Game.id g)) (CreateCharacterProfileDto.gameId dto)
                       && Game.isActive g) (games db0)) ;;
      match game with
      | None => throw (BadRequestException Game_not_found_or_inactive)
      | Some _ => ret tt
      end
    else ret tt).
  assert (Hcheck : snd (check db) = db).
  { unfold check. destruct (truthy _); [|reflexivity].
    unfold bind, gets. simpl. now destruct (find _ (games db)). }
  unfold bind at 1. destruct (check db) as [[e|[]] db1]; simpl in Hcheck; subst db1;
    [discriminate|].
  unfold bind at 1, gets at 1.
  destruct (find _ (characterProfiles db)); [discriminate|].
  unfold bind at 1, gets at 1.
  match goal with |- context [negb ?b] => destruct b end; [|discriminate].
  unfold bind, freshId, modify, ret. simpl. intros [= <- <-].
  split; [reflexivity|]. split; [reflexivity|].
  unfold activeIn. simpl. rewrite filter_app. simpl. rewrite String.eqb_refl.
  assert (Hg : nullable_eqb (CreateCharacterProfileDto.gameId dto)
                 (CreateCharacterProfileDto.gameId dto) = true)
    by now apply nullable_eqb_eq.
  now rewrite Hg.
Qed.

(** C4, the failing input. The demo user has one active platform-wide
    profile; creating a second platform-wide profile, which the source
    inserts with [isActive: true] under the comment "First character for this
    game/platform is active by default", leaves two active profiles in that
    partition. *)
Theorem createCharacterProfile_second_active :
  exists profile db',
    createCharacterProfile "demo" (CreateCharacterProfileDto.mk "Second" None) Demo.seed
    = (inr profile, db') /\
    List.length (activeIn "demo" None Demo.seed) = 1%nat /\
    activeIn "demo" None db'
    = [CharacterProfile.mk "p3" "demo" None "BattleBucksChampion" true;
       CharacterProfile.mk "c0" "demo" None "Second" true].
Proof.
  eexists. eexists. split; [vm_compute; reflexivity|]. split; vm_compute; reflexivity.
Qed.

Lemma activateCharacterProfile_run (userId profileId : string) (db : Db) :
  activateCharacterProfile userId profileId db =
  match find (fun p => String.eqb (CharacterProfile.id p) profileId
                       && String.eqb (CharacterProfile.userId p) userId)
             (characterProfiles db) with
  | None => (inl (NotFoundException Character_profile_not_found), db)
  | Some profile =>
    (inr tt,
     with_characterProfiles
       (replace_first (fun p => String.eqb (CharacterProfile.id p) profileId)
          (set_isActive true)
          (updateMany
             (fun p => partitionOf userId (CharacterProfile.gameId profile) p
                       && negb (String.eqb (CharacterProfile.id p) profileId))
             (set_isActive false) (characterProfiles db)))
       db)
  end.
Proof.
  unfold activateCharacterProfile, bind, gets. simpl.
  destruct (find _ (characterProfiles db)) as [profile|] eqn:E; [|reflexivity].
  unfold transaction, modify, bind. simpl. fold (partitionOf userId (CharacterProfile.gameId profile)).
  match goal with |- context [find ?p (updateMany ?q ?f ?l)] =>
    destruct (find p (updateMany q f l)) eqn:E' end; [reflexivity|].
  exfalso. apply find_some in E. destruct E as [Hin Hp].
  apply andb_true_iff in Hp. destruct Hp as [Hid _].
  unfold updateMany in E'.
  pose proof (find_none _ _ E' _ (in_map _ _ _ Hin)) as Hnone. simpl in Hnone.
  rewrite Hid in Hnone. rewrite andb_false_r in Hnone. simpl in Hnone.
  rewrite Hid in Hnone. discriminate.
Qed.

Lemma deactivated_others_inactive (userId profileId : string) (gameId : option string)
  (l : list CharacterProfile.t) :
  (forall p, In p l -> CharacterProfile.id p <> profileId) ->
  filter (fun p => partitionOf userId gameId p && CharacterProfile.isActive p)
    (updateMany
       (fun p => partitionOf userId gameId p
                 && negb (String.eqb (CharacterProfile.id p) profileId))
       (set_isActive false) l)
  = [].
Proof.
  induction l as [|a l IH]; simpl; intros Hne; [reflexivity|].
  assert (Ha : String.eqb (CharacterProfile.id a) profileId = false)
    by (apply String.eqb_neq; apply Hne; now left).
  rewrite Ha. simpl. rewrite andb_true_r.
  rewrite IH by (intros p Hp; apply Hne; now right).
  destruct (partitionOf userId gameId a) eqn:Ep.
  - unfold partitionOf in *. simpl. now rewrite Ep.
  - now rewrite Ep.
Qed.

(** Activation leaves exactly one active profile in the partition of the
    target, the target itself: every other profile of the partition is set
    inactive. The profile ids are the primary key of the table. *)
Lemma activateCharacterProfile_one_active (userId profileId : string) (db db' : Db) :
  NoDup (map CharacterProfile.id (characterProfiles db)) ->
  activateCharacterProfile userId profileId db = (inr tt, db') ->
  exists profile,
    In profile (characterProfiles db) /\
    CharacterProfile.id profile = profileId /\
    CharacterProfile.userId profile = userId /\
    activeIn userId (CharacterProfile.gameId profile) db' = [set_isActive true profile].
Proof.
  intros Hnd. rewrite activateCharacterProfile_run.
  destruct (find _ (characterProfiles db)) as [profile|] eqn:E; [|discriminate].
  intros [= <-]. apply find_some in E. destruct E as [Hin Hp].
  apply andb_true_iff in Hp. destruct Hp as [Hid Hu].
  apply String.eqb_eq in Hid. apply String.eqb_eq in Hu.
  exists profile. repeat split; auto.
  unfold activeIn. simpl.
  change (fun p => String.eqb (CharacterProfile.userId p) userId
                   && nullable_eqb (CharacterProfile.gameId p) (CharacterProfile.gameId profile)
                   && CharacterProfile.isActive p)
    with (fun p => partitionOf userId (CharacterProfile.gameId profile) p
                   && CharacterProfile.isActive p).
  assert (Hpart : partitionOf userId (CharacterProfile.gameId profile) profile = true).
  { unfold partitionOf. rewrite Hu, String.eqb_refl. simpl. now apply nullable_eqb_eq. }
  clear Hu. subst profileId.
  induction (characterProfiles db) as [|a l IH]; [destruct Hin|].
  simpl in Hnd. inversion Hnd as [|? ? Hfresh Hnd']; subst.
  simpl.
  destruct (String.eqb (CharacterProfile.id a) (CharacterProfile.id profile)) eqn:Ea.
  - assert (a = profile) as ->.
    { destruct Hin as [->|Hin]; [reflexivity|]. exfalso. apply Hfresh.
      apply String.eqb_eq in Ea. rewrite Ea. now apply in_map. }
    rewrite andb_false_r. simpl. rewrite Ea. simpl.
    change (partitionOf userId (CharacterProfile.gameId profile) (set_isActive true profile))
      with (partitionOf userId (CharacterProfile.gameId profile) profile).
    rewrite Hpart. simpl. f_equal.
    apply deactivated_others_inactive. intros p Hp Heq. apply Hfresh.
    rewrite <- Heq. now apply in_map.
  - destruct Hin as [->|Hin]; [now rewrite String.eqb_refl in Ea|].
    rewrite andb_true_r.
    destruct (partitionOf userId (CharacterProfile.gameId profile) a) eqn:Ep; simpl;
      rewrite Ea; simpl.
    + change (partitionOf userId (CharacterProfile.gameId profile) (set_isActive false a))
        with (partitionOf userId (CharacterProfile.gameId profile) a).
      rewrite Ep. simpl. now apply IH.
    + rewrite Ep. simpl. now apply IH.
Qed.

Example activateCharacterProfile_demo :
  exists db',
    activateCharacterProfile "demo" "p2" Demo.seed = (inr tt, db') /\
    activeIn "demo" (Some "val") db'
    = [CharacterProfile.mk "p2" "demo" (Some "val") "RadiantSniper" true].
Proof.
  eexists. split; vm_compute; reflexivity.
Qed.

(** ** Equipment *)

Lemma validateItemCompatibility_run (storeItem : StoreItem.t) (profile : CharacterProfile.t)
  (db : Db) :
  validateItemCompatibility storeItem profile db =
  (if truthy (StoreItem.gameId storeItem)
      && negb (nullable_eqb (StoreItem.gameId storeItem) (CharacterProfile.gameId profile))
   then inl (BadRequestException
               (Item_is_for_but_character_is_for
                  (or_else (StoreItem.gameId storeItem) "")
                  (or_else (CharacterProfile.gameId profile) "platform-wide")))
   else inr tt,
   db).
Proof.
  unfold validateItemCompatibility.
  destruct (truthy (StoreItem.gameId storeItem)); simpl; [|reflexivity].
  destruct (nullable_eqb _ _); reflexivity.
Qed.

(** The outcomes of [equipItem]. *)
Lemma equipItem_run (userId profileId : string) (dto : EquipItemDto.t) (db : Db) :
  equipItem userId profileId dto db =
  match find (fun p => String.eqb (CharacterProfile.id p) profileId
                       && String.eqb (CharacterProfile.userId p) userId)
             (characterProfiles db) with
  | None => (inl (NotFoundException Character_profile_not_found), db)
  | Some profile =>
    match find (fun r => String.eqb (UserInventory.userId r) userId
                         && String.eqb (UserInventory.itemId r) (EquipItemDto.itemId dto)
                         && negb (UserInventory.isConsumed r))
               (userInventories db) with
    | None => (inl (NotFoundException Item_not_found_in_inventory_or_already_consumed), db)
    | Some inventoryItem =>
      match find (fun si => String.eqb (StoreItem.id si) (UserInventory.itemId inventoryItem))
                 (storeItems db) with
      | None => (inl TypeError, db)
      | Some storeItem =>
        match fst (validateItemCompatibility storeItem profile db) with
        | inl e => (inl e, db)
        | inr _ =>
          match StoreItem.type storeItem with
          | CONSUMABLE => (inl (BadRequestException Consumable_items_cannot_be_equipped), db)
          | NON_CONSUMABLE =>
            let slot := equipmentSlot (EquipItemDto.slot dto) storeItem in
            let row :=
              CharacterEquippedItem.mk (cuid (nextId db)) profileId
                (EquipItemDto.itemId dto) slot in
            (inr row,
             with_characterEquippedItems
               (deleteMany (ofItem profileId (EquipItemDto.itemId dto))
                  (deleteMany (inSlot profileId slot) (characterEquippedItems db))
                ++ [row])
               (with_nextId (S (nextId db)) db))
          end
        end
      end
    end
  end.
Proof.
  unfold equipItem, transaction, bind, gets, throw. simpl.
  destruct (find _ (characterProfiles db)) as [profile|]; [|reflexivity].
  destruct (find _ (userInventories db)) as [inventoryItem|]; [|reflexivity].
  destruct (find _ (storeItems db)) as [storeItem|]; [|reflexivity].
  rewrite validateItemCompatibility_run. simpl.
  destruct (_ && _); simpl; [reflexivity|].
  destruct (StoreItem.type storeItem); reflexivity.
Qed.

Lemma filter_deleteMany_same {A} (p : A -> bool) (l : list A) :
  filter p (deleteMany p l) = [].
Proof.
  unfold deleteMany. induction l as [|a l IH]; simpl; [reflexivity|].
  destruct (p a) eqn:E; simpl; [exact IH | now rewrite E].
Qed.

Lemma filter_deleteMany_swap {A} (p q : A -> bool) (l : list A) :
  filter p (deleteMany q l) = deleteMany q (filter p l).
Proof.
  unfold deleteMany. induction l as [|a l IH]; simpl; [reflexivity|].
  destruct (q a) eqn:Eq, (p a) eqn:Ep; simpl; rewrite ?Eq, ?Ep; simpl; now rewrite ?IH.
Qed.

Lemma deleteMany_length {A} (q : A -> bool) (l : list A) :
  (List.length (deleteMany q l) <= List.length l)%nat.
Proof.
  unfold deleteMany. induction l as [|a l IH]; simpl; [lia|].
  destruct (q a); simpl; lia.
Qed.

Lemma inSlot_row (profileId slot profileId' slot' id itemId : string) :
  inSlot profileId' slot' (CharacterEquippedItem.mk id profileId itemId slot)
  = String.eqb profileId profileId' && String.eqb slot slot'.
Proof. reflexivity. Qed.

Lemma ofItem_row (profileId itemId profileId' itemId' id slot : string) :
  ofItem profileId' itemId' (CharacterEquippedItem.mk id profileId itemId slot)
  = String.eqb profileId profileId' && String.eqb itemId itemId'.
Proof. reflexivity. Qed.

(** What a committed equip leaves in the table. *)
Lemma equipItem_committed (userId profileId : string) (dto : EquipItemDto.t)
  (db db' : Db) (row : CharacterEquippedItem.t) :
  equipItem userId profileId dto db = (inr row, db') ->
  CharacterEquippedItem.profileId row = profileId /\
  CharacterEquippedItem.itemId row = EquipItemDto.itemId dto /\
  characterEquippedItems db'
  = deleteMany (ofItem profileId (EquipItemDto.itemId dto))
      (deleteMany (inSlot profileId (CharacterEquippedItem.slot row))
         (characterEquippedItems db))
    ++ [row].
Proof.
  rewrite equipItem_run.
  destruct (find _ (characterProfiles db)); [|discriminate].
  destruct (find _ (userInventories db)); [|discriminate].
  destruct (find _ (storeItems db)) as [storeItem|]; [|discriminate].
  destruct (fst (validateItemCompatibility _ _ _)); [discriminate|].
  destruct (StoreItem.type storeItem); [discriminate|].
  intros [= <- <-]. repeat split.
Qed.

(** C5. A committed equip keeps at most one equipped item per slot and per
    item of every profile; and when an item A and then another item B are
    equipped into the same slot of a profile, the slot holds the row of B
    alone and A is not equipped on the profile any more. *)
Theorem equipItem_exclusive (userId profileId : string) :
  (forall dto db db' row,
     equipment_exclusive db ->
     equipItem userId profileId dto db = (inr row, db') ->
     equipment_exclusive db') /\
  (forall dtoA dtoB db db1 db2 rowA rowB,
     equipItem userId profileId dtoA db = (inr rowA, db1) ->
     equipItem userId profileId dtoB db1 = (inr rowB, db2) ->
     CharacterEquippedItem.slot rowA = CharacterEquippedItem.slot rowB ->
     EquipItemDto.itemId dtoA <> EquipItemDto.itemId dtoB ->
     filter (inSlot profileId (CharacterEquippedItem.slot rowB)) (characterEquippedItems db2)
     = [rowB] /\
     CharacterEquippedItem.itemId rowB = EquipItemDto.itemId dtoB /\
     filter (ofItem profileId (EquipItemDto.itemId dtoA)) (characterEquippedItems db2) = []).
Proof.
  split.
  - intros dto db db' row [Hslot Hitem] H. unfold equipment_exclusive.
    apply equipItem_committed in H. destruct H as (Hp & Hi & ->).
    destruct row as [id p i s]. simpl in *. subst p i. split.
    + intros profileId' slot'. rewrite filter_app, length_app. simpl.
      rewrite inSlot_row.
      destruct (String.eqb profileId profileId' && String.eqb s slot') eqn:E; simpl.
      * apply andb_true_iff in E. destruct E as [E1 E2].
        apply String.eqb_eq in E1. apply String.eqb_eq in E2. subst.
        rewrite filter_deleteMany_swap, filter_deleteMany_same. simpl. lia.
      * rewrite !filter_deleteMany_swap.
        pose proof (deleteMany_length (ofItem profileId (EquipItemDto.itemId dto))
                      (deleteMany (inSlot profileId s)
                         (filter (inSlot profileId' slot') (characterEquippedItems db)))).
        pose proof (deleteMany_length (inSlot profileId s)
                      (filter (inSlot profileId' slot') (characterEquippedItems db))).
        pose proof (Hslot profileId' slot'). lia.
    + intros profileId' itemId'. rewrite filter_app, length_app. simpl.
      rewrite ofItem_row.
      destruct (String.eqb profileId profileId'
                && String.eqb (EquipItemDto.itemId dto) itemId') eqn:E; simpl.
      * apply andb_true_iff in E. destruct E as [E1 E2].
        apply String.eqb_eq in E1. apply String.eqb_eq in E2. subst.
        rewrite filter_deleteMany_same. simpl. lia.
      * rewrite !filter_deleteMany_swap.
        pose proof (deleteMany_length (ofItem profileId (EquipItemDto.itemId dto))
                      (deleteMany (inSlot profileId s)
                         (filter (ofItem profileId' itemId') (characterEquippedItems db)))).
        pose proof (deleteMany_length (inSlot profileId s)
                      (filter (ofItem profileId' itemId') (characterEquippedItems db))).
        pose proof (Hitem profileId' itemId'). lia.
  - intros dtoA dtoB db db1 db2 rowA rowB HA HB Hsame Hne.
    apply equipItem_committed in HA. destruct HA as (HpA & HiA & HdbA).
    apply equipItem_committed in HB. destruct HB as (HpB & HiB & HdbB).
    split; [|split; [exact HiB|]].
    + rewrite HdbB, filter_app. rewrite filter_deleteMany_swap, filter_deleteMany_same.
      simpl. destruct rowB as [id p i s]. simpl in *. subst p.
      now rewrite inSlot_row, !String.eqb_refl.
    + rewrite HdbB, filter_app. simpl.
      destruct rowB as [idB pB iB sB]. simpl in *. subst pB iB.
      rewrite ofItem_row, String.eqb_refl. simpl.
      assert (E : String.eqb (EquipItemDto.itemId dtoB) (EquipItemDto.itemId dtoA) = false)
        by (apply String.eqb_neq; congruence).
      rewrite E, app_nil_r.
      rewrite filter_deleteMany_swap. rewrite (filter_deleteMany_swap _ (inSlot profileId sB)).
      rewrite HdbA, filter_app, filter_deleteMany_same. simpl.
      destruct rowA as [idA pA iA sA]. simpl in *. subst pA iA sA.
      rewrite ofItem_row, !String.eqb_refl. simpl.
      unfold deleteMany. simpl. rewrite inSlot_row, !String.eqb_refl. reflexivity.
Qed.

Lemma equipItem_exclusive_witness :
  filter (inSlot "p1" "primary") (characterEquippedItems Demo.afterShirt) = [Demo.shirtRow] /\
  CharacterEquippedItem.itemId Demo.shirtRow = "tshirt" /\
  filter (ofItem "p1" "ak47") (characterEquippedItems Demo.afterShirt) = [].
Proof.
  apply (proj2 (equipItem_exclusive "demo" "p1") Demo.equipSkin Demo.equipShirt
           Demo.armory Demo.afterSkin Demo.afterShirt Demo.skinRow Demo.shirtRow).
  - vm_compute. reflexivity.
  - vm_compute. reflexivity.
  - reflexivity.
  - vm_compute. discriminate.
Defined.

(** ** The scope check of [equipItem] *)

Lemma truthy_game (g : string) : g <> "" -> truthy (Some g) = true.
Proof.
  intros H. simpl. apply negb_true_iff. now apply String.eqb_neq.
Qed.

Lemma nullable_differs (g : string) (o : option string) :
  o <> Some g -> nullable_eqb (Some g) o = false.
Proof.
  intros H. destruct (nullable_eqb (Some g) o) eqn:E; [|reflexivity].
  apply nullable_eqb_eq in E. now destruct H.
Qed.

(** C9. The scope check throws a bad request for an item of a game on a
    profile of another game or of no game, and passes every item without a
    game; [equipItem], once it has found the profile and the inventory row
    with its store item, rejects in the first case and leaves the database
    as it was, and never raises the scope error in the second. *)
Theorem equipItem_scope_check :
  (forall storeItem profile db g,
     StoreItem.gameId storeItem = Some g -> g <> "" ->
     CharacterProfile.gameId profile <> Some g ->
     validateItemCompatibility storeItem profile db
     = (inl (BadRequestException
               (Item_is_for_but_character_is_for g
                  (or_else (CharacterProfile.gameId profile) "platform-wide"))), db)) /\
  (forall storeItem profile db,
     truthy (StoreItem.gameId storeItem) = false ->
     validateItemCompatibility storeItem profile db = (inr tt, db)) /\
  (forall userId profileId dto db profile inventoryItem storeItem g,
     find (fun p => String.eqb (CharacterProfile.id p) profileId
                    && String.eqb (CharacterProfile.userId p) userId)
          (characterProfiles db) = Some profile ->
     find (fun r => String.eqb (UserInventory.userId r) userId
                    && String.eqb (UserInventory.itemId r) (EquipItemDto.itemId dto)
                    && negb (UserInventory.isConsumed r))
          (userInventories db) = Some inventoryItem ->
     find (fun si => String.eqb (StoreItem.id si) (UserInventory.itemId inventoryItem))
          (storeItems db) = Some storeItem ->
     StoreItem.gameId storeItem = Some g -> g <> "" ->
     CharacterProfile.gameId profile <> Some g ->
     equipItem userId profileId dto db
     = (inl (BadRequestException
               (Item_is_for_but_character_is_for g
                  (or_else (CharacterProfile.gameId profile) "platform-wide"))), db)) /\
  (forall userId profileId dto db profile inventoryItem storeItem,
     find (fun p => String.eqb (CharacterProfile.id p) profileId
                    && String.eqb (CharacterProfile.userId p) userId)
          (characterProfiles db) = Some profile ->
     find (fun r => String.eqb (UserInventory.userId r) userId
                    && String.eqb (UserInventory.itemId r) (EquipItemDto.itemId dto)
                    && negb (UserInventory.isConsumed r))
          (userInventories db) = Some inventoryItem ->
     find (fun si => String.eqb (StoreItem.id si) (UserInventory.itemId inventoryItem))
          (storeItems db) = Some storeItem ->
     truthy (StoreItem.gameId storeItem) = false ->
     match StoreItem.type storeItem with
     | CONSUMABLE =>
       equipItem userId profileId dto db
       = (inl (BadRequestException Consumable_items_cannot_be_equipped), db)
     | NON_CONSUMABLE =>
       exists row db', equipItem userId profileId dto db = (inr row, db')
     end).
Proof.
  assert (Hcheck : forall storeItem profile db g,
     StoreItem.gameId storeItem = Some g -> g <> "" ->
     CharacterProfile.gameId profile <> Some g ->
     validateItemCompatibility storeItem profile db
     = (inl (BadRequestException
               (Item_is_for_but_character_is_for g
                  (or_else (CharacterProfile.gameId profile) "platform-wide"))), db)).
  { intros storeItem profile db g Hg Hne Hother.
    rewrite validateItemCompatibility_run, Hg, (truthy_game _ Hne),
      (nullable_differs _ _ Hother).
    simpl. apply String.eqb_neq in Hne. now rewrite Hne. }
  assert (Hpass : forall storeItem profile db,
     truthy (StoreItem.gameId storeItem) = false ->
     validateItemCompatibility storeItem profile db = (inr tt, db)).
  { intros storeItem profile db Hfalsy.
    now rewrite validateItemCompatibility_run, Hfalsy. }
  split; [exact Hcheck|]. split; [exact Hpass|]. split.
  - intros userId profileId dto db profile inventoryItem storeItem g Hp Hi Hs Hg Hne Hother.
    rewrite equipItem_run, Hp, Hi, Hs, (Hcheck _ _ _ _ Hg Hne Hother). reflexivity.
  - intros userId profileId dto db profile inventoryItem storeItem Hp Hi Hs Hfalsy.
    rewrite equipItem_run, Hp, Hi, Hs, (Hpass _ _ _ Hfalsy). simpl.
    destruct (StoreItem.type storeItem); [reflexivity|]. eexists. eexists. reflexivity.
Qed.

Lemma equipItem_scope_check_witness :
  equipItem "demo" "p1" (EquipItemDto.mk "vandal" None) Demo.armory
  = (inl (BadRequestException (Item_is_for_but_character_is_for "val" "cod")), Demo.armory).
Proof.
  apply (proj1 (proj2 (proj2 equipItem_scope_check)) "demo" "p1"
           (EquipItemDto.mk "vandal" None) Demo.armory
           (CharacterProfile.mk "p1" "demo" (Some "cod") "Ghost_Warrior" true)
           (UserInventory.mk "demo" "vandal" 1 false) Demo.vandal "val").
  - vm_compute. reflexivity.
  - vm_compute. reflexivity.
  - vm_compute. reflexivity.
  - reflexivity.
  - discriminate.
  - discriminate.
Defined.

(** ** Two more purchases on the seed *)

(** The scenario of the specification: with a balance of 1000, two units of
    a stackable item priced 500 leave a balance of 0 and an inventory row of
    quantity 2; the single line has a single, COMPLETED, fulfillment. *)
Example createPurchase_scenario :
  let db := with_userWallets [UserWallet.mk "w1" "demo" 1000] Demo.seed in
  let db' :=
    snd (createPurchase "demo" (CreatePurchaseDto.mk [PurchaseItemDto.mk "xp" 2] None) db) in
  balanceOf "demo" db' = Some 0 /\
  userInventories db' = [UserInventory.mk "demo" "xp" 2 false] /\
  map ItemFulfillment.status (itemFulfillments db') = [FS_COMPLETED].
Proof.
  repeat split; vm_compute; reflexivity.
Qed.

(** Two lines for the same item never pass the validation: the catalogue
    returns one row for the two ids and the length test fails. *)
Example createPurchase_repeated_item :
  createPurchase "demo"
    (CreatePurchaseDto.mk [PurchaseItemDto.mk "xp" 1; PurchaseItemDto.mk "xp" 2] None)
    Demo.seed
  = (inl (NotFoundException One_or_more_items_not_found_or_inactive), Demo.seed).
Proof.
  vm_compute. reflexivity.
Qed.

(** * Properties of the other methods, and of the methods together *)

Import PurchaseLookup CharacterProfileUpkeep InventoryService Invariants.

(** ** More on tables *)

Lemma find_filter_hd {A} (p : A -> bool) (l : list A) :
  find p l = hd_error (filter p l).
Proof.
  induction l as [|a l IH]; simpl; [reflexivity|].
  destruct (p a); [reflexivity | exact IH].
Qed.

Lemma filter_replace_first_same {A} (p : A -> bool) (f : A -> A) (l : list A) :
  (forall a, p (f a) = p a) ->
  filter p (replace_first p f l)
  = match filter p l with
    | [] => []
    | a :: rest => f a :: rest
    end.
Proof.
  intros Hf. induction l as [|a l IH]; simpl; [reflexivity|].
  destruct (p a) eqn:E; simpl.
  - now rewrite Hf, E.
  - now rewrite E.
Qed.

Lemma remove_first_filter {A} (key : A -> string) (k : string) (l : list A) :
  NoDup (map key l) ->
  remove_first (fun x => String.eqb (key x) k) l
  = filter (fun x => negb (String.eqb (key x) k)) l.
Proof.
  induction l as [|a l IH]; simpl; [reflexivity|].
  intros Hnd. inversion Hnd as [|? ? Hnotin Hnd']; subst.
  destruct (String.eqb (key a) k) eqn:E; simpl.
  - apply String.eqb_eq in E. subst k.
    symmetry. apply forallb_filter_id. apply forallb_forall. intros x Hx.
    apply negb_true_iff. apply String.eqb_neq. intros Heq.
    apply Hnotin. rewrite <- Heq. now apply in_map.
  - now rewrite IH.
Qed.

Lemma replace_first_updateMany {A} (key : A -> string) (k : string) (f : A -> A)
  (l : list A) :
  NoDup (map key l) ->
  replace_first (fun x => String.eqb (key x) k) f l
  = updateMany (fun x => String.eqb (key x) k) f l.
Proof.
  unfold updateMany.
  induction l as [|a l IH]; simpl; [reflexivity|].
  intros Hnd. inversion Hnd as [|? ? Hnotin Hnd']; subst.
  destruct (String.eqb (key a) k) eqn:E.
  - f_equal. apply String.eqb_eq in E. subst k.
    rewrite <- (map_id l) at 1. apply map_ext_in. intros x Hx.
    destruct (String.eqb (key x) (key a)) eqn:E'; [|reflexivity].
    apply String.eqb_eq in E'. exfalso. apply Hnotin. rewrite <- E'. now apply in_map.
  - now rewrite IH.
Qed.

Lemma find_replace_first_frame {A} (p q : A -> bool) (f : A -> A) (l : list A) :
  (forall a, p a = true -> q a = false) ->
  (forall a, q (f a) = q a) ->
  find q (replace_first p f l) = find q l.
Proof.
  intros Hpq Hf. induction l as [|a l IH]; simpl; [reflexivity|].
  destruct (p a) eqn:E; simpl.
  - now rewrite Hf, (Hpq a E).
  - now rewrite IH.
Qed.

Lemma sumZ_nonneg (l : list Z) : Forall (fun z => 0 <= z) l -> 0 <= sumZ l.
Proof.
  induction 1 as [|z l Hz _ IH]; simpl; lia.
Qed.

(** ** The validation of the lines *)

Lemma validatePurchaseItems_run (items : list PurchaseItemDto.t) (db : Db) :
  items <> [] ->
  validatePurchaseItems items db =
  (if negb (Nat.eqb (List.length (selectedItems items db)) (List.length items))
   then inl (NotFoundException One_or_more_items_not_found_or_inactive)
   else
     match sumPurchaseItems (selectedItems items db) items 0 with
     | inl e => inl e
     | inr totalCost => inr (selectedItems items db, totalCost)
     end,
   db).
Proof.
  destruct items as [|item rest]; [congruence|]. intros _.
  unfold validatePurchaseItems. unfold bind, gets, throw, ret.
  fold (selectedItems (item :: rest) db). rewrite length_map.
  destruct (negb _); [reflexivity|].
  destruct (sumPurchaseItems _ _ _); reflexivity.
Qed.

Lemma sumPurchaseItems_not_length_test (selected : list StoreItem.t)
  (items : list PurchaseItemDto.t) :
  forall acc,
    sumPurchaseItems selected items acc
    <> inl (NotFoundException One_or_more_items_not_found_or_inactive).
Proof.
  induction items as [|item rest IH]; intros acc; simpl; [discriminate|].
  destruct (itemsMap_get _ _); [|discriminate].
  destruct (_ || _); [discriminate|].
  destruct (_ && _); [discriminate|]. apply IH.
Qed.

Lemma selectedItems_ids (items : list PurchaseItemDto.t) (db : Db) :
  incl (map StoreItem.id (selectedItems items db)) (map PurchaseItemDto.itemId items).
Proof.
  intros x Hx. apply in_map_iff in Hx. destruct Hx as (si & <- & Hsi).
  unfold selectedItems in Hsi. apply filter_In in Hsi. destruct Hsi as [_ Hsi].
  apply andb_true_iff in Hsi. destruct Hsi as [Hsi _].
  apply existsb_exists in Hsi. destruct Hsi as (y & Hy & Heq).
  apply String.eqb_eq in Heq. now rewrite Heq.
Qed.

Lemma activeRow_selected (items : list PurchaseItemDto.t) (db : Db) (id : string) :
  In id (map PurchaseItemDto.itemId items) ->
  (activeRow db id = true <-> In id (map StoreItem.id (selectedItems items db))).
Proof.
  intros Hid. unfold activeRow, selectedItems. split.
  - intros H. apply existsb_exists in H. destruct H as (si & Hsi & H).
    apply andb_true_iff in H. destruct H as [Heq Hact]. apply String.eqb_eq in Heq.
    apply in_map_iff. exists si. split; [exact Heq|].
    apply filter_In. split; [exact Hsi|]. rewrite Hact, andb_true_r.
    apply existsb_exists. exists id. split; [exact Hid|]. now apply String.eqb_eq.
  - intros H. apply in_map_iff in H. destruct H as (si & Heq & Hsi).
    apply filter_In in Hsi. destruct Hsi as [Hsi H].
    apply andb_true_iff in H. destruct H as [_ Hact].
    apply existsb_exists. exists si. split; [exact Hsi|].
    rewrite Hact, andb_true_r. now apply String.eqb_eq.
Qed.

(** X1. With ids that are a key of the catalogue, a request of at least one
    line gets the answer "One or more items not found or inactive" exactly
    when two of its lines name the same item or one of its lines names an
    item that has no active row in the catalogue. *)
Theorem validatePurchaseItems_not_found (items : list PurchaseItemDto.t) (db : Db) :
  NoDup (map StoreItem.id (storeItems db)) ->
  items <> [] ->
  (fst (validatePurchaseItems items db)
   = inl (NotFoundException One_or_more_items_not_found_or_inactive)
   <->
   ~ NoDup (map PurchaseItemDto.itemId items) \/
   exists item, In item items /\ activeRow db (PurchaseItemDto.itemId item) = false).
Proof.
  intros Hpk Hne. rewrite (validatePurchaseItems_run items db Hne). simpl.
  pose proof (selectedItems_distinct items db Hpk) as Hnd.
  pose proof (selectedItems_ids items db) as Hincl.
  destruct (Nat.eqb (List.length (selectedItems items db)) (List.length items)) eqn:Elen;
    simpl.
  - apply Nat.eqb_eq in Elen.
    assert (Hle : (List.length (map PurchaseItemDto.itemId items)
                   <= List.length (map StoreItem.id (selectedItems items db)))%nat)
      by (rewrite !length_map; lia).
    split.
    + intros H. exfalso.
      destruct (sumPurchaseItems (selectedItems items db) items 0) eqn:E; [|discriminate].
      injection H as ->. now apply sumPurchaseItems_not_length_test in E.
    + intros [Hdup|(item & Hin & Hrow)]; exfalso.
      * apply Hdup. exact (NoDup_incl_NoDup Hnd Hle Hincl).
      * assert (Hid : In (PurchaseItemDto.itemId item) (map PurchaseItemDto.itemId items))
          by now apply in_map.
        pose proof (NoDup_length_incl Hnd Hle Hincl _ Hid) as Hsel.
        apply (activeRow_selected items db _ Hid) in Hsel. congruence.
  - apply Nat.eqb_neq in Elen. split; [intros _|reflexivity].
    destruct (forallb (activeRow db) (map PurchaseItemDto.itemId items)) eqn:Eall.
    + left. intros Hnd'. apply Elen.
      assert (Hincl' : incl (map PurchaseItemDto.itemId items)
                         (map StoreItem.id (selectedItems items db))).
      { intros id Hid. apply (activeRow_selected items db _ Hid).
        rewrite forallb_forall in Eall. now apply Eall. }
      pose proof (NoDup_incl_length Hnd Hincl) as H1.
      pose proof (NoDup_incl_length Hnd' Hincl') as H2.
      rewrite !length_map in H1, H2. lia.
    + right.
      assert (Hex : existsb (fun id => negb (activeRow db id))
                      (map PurchaseItemDto.itemId items) = true).
      { clear -Eall. induction (map PurchaseItemDto.itemId items) as [|x l IH];
          simpl in *; [discriminate|].
        destruct (activeRow db x); simpl in *; [now apply IH | reflexivity]. }
      apply existsb_exists in Hex. destruct Hex as (id & Hid & Hrow).
      apply in_map_iff in Hid. destruct Hid as (item & <- & Hin).
      exists item. split; [exact Hin|]. now apply negb_true_iff.
Qed.

Lemma validatePurchaseItems_not_found_witness :
  fst (validatePurchaseItems [PurchaseItemDto.mk "xp" 1; PurchaseItemDto.mk "xp" 2] Demo.seed)
  = inl (NotFoundException One_or_more_items_not_found_or_inactive).
Proof.
  apply (proj2 (validatePurchaseItems_not_found
                  [PurchaseItemDto.mk "xp" 1; PurchaseItemDto.mk "xp" 2] Demo.seed
                  ltac:(simpl; repeat constructor; simpl; intuition discriminate)
                  ltac:(discriminate))).
  left. intros H. inversion H as [|? ? Hnotin _]. apply Hnotin. simpl. now left.
Defined.

(** The price of an item in the catalogue. *)
Lemma resolved_catalogue_row (items : list PurchaseItemDto.t) (db : Db)
  (selected : list StoreItem.t) (totalCost : Z) (l : PurchaseItemDto.t * StoreItem.t) :
  NoDup (map StoreItem.id (storeItems db)) ->
  fst (validatePurchaseItems items db) = inr (selected, totalCost) ->
  In l (resolveItems selected items) ->
  storeItems_find (storeItems db) (PurchaseItemDto.itemId (fst l)) = Some (snd l) /\
  StoreItem.isActive (snd l) = true.
Proof.
  intros Hpk Hval Hl.
  destruct (selected_line _ _ _ _ _ Hval Hl) as (Hin & Hid & _).
  split.
  - unfold storeItems_find. rewrite <- Hid. now apply find_unique_key.
  - destruct (validatePurchaseItems_inv _ _ _ _ Hval) as (_ & Hsel & _).
    apply resolveItems_found in Hl. destruct Hl as [_ Hfind].
    unfold storeItems_find in Hfind. apply find_some in Hfind. destruct Hfind as [Hs _].
    rewrite Hsel in Hs. unfold selectedItems in Hs. apply filter_In in Hs.
    destruct Hs as [_ Hs]. apply andb_true_iff in Hs. tauto.
Qed.

(** X2. With ids that are a key of the catalogue, the validation accepts
    only requests of at least one line whose lines name pairwise distinct
    items; every line then names an active item of the catalogue, has a
    quantity from 1 to 100, which is 1 for a NON_CONSUMABLE item, and the
    total is the sum over the lines of price times quantity. The validation
    writes nothing. *)
Theorem validatePurchaseItems_accepted (items : list PurchaseItemDto.t) (db db' : Db)
  (selected : list StoreItem.t) (totalCost : Z) :
  NoDup (map StoreItem.id (storeItems db)) ->
  validatePurchaseItems items db = (inr (selected, totalCost), db') ->
  db' = db /\
  items <> [] /\
  NoDup (map PurchaseItemDto.itemId items) /\
  Forall2
    (fun item storeItem =>
       storeItems_find (storeItems db) (PurchaseItemDto.itemId item) = Some storeItem /\
       StoreItem.isActive storeItem = true /\
       1 <= PurchaseItemDto.quantity item <= 100 /\
       (StoreItem.type storeItem = NON_CONSUMABLE -> PurchaseItemDto.quantity item = 1))
    items (map snd (resolveItems selected items)) /\
  totalCost
  = sumZ (map (fun l => StoreItem.price (snd l) * PurchaseItemDto.quantity (fst l))
            (resolveItems selected items)).
Proof.
  intros Hpk Hrun.
  assert (Hval : fst (validatePurchaseItems items db) = inr (selected, totalCost))
    by now rewrite Hrun.
  pose proof (validatePurchaseItems_readonly items db) as Hro. rewrite Hrun in Hro.
  simpl in Hro.
  destruct (validatePurchaseItems_inv _ _ _ _ Hval) as (Hne & Hsel & _ & Hsum).
  pose proof (validatePurchaseItems_found _ _ _ _ Hval) as Hfound.
  split; [exact Hro|]. split; [exact Hne|].
  split; [exact (validated_lines_distinct _ _ _ _ Hpk Hval)|]. split.
  - rewrite <- (resolveItems_lines selected items Hfound) at 1.
    apply Forall2_resolved. intros l Hl.
    destruct (resolved_catalogue_row _ _ _ _ _ Hpk Hval Hl) as [Hrow Hact].
    split; [exact Hrow|]. split; [exact Hact|].
    pose proof (sumPurchaseItems_inv _ _ _ _ Hsum) as Hall.
    rewrite Forall_forall in Hall.
    destruct (resolveItems_found _ _ _ Hl) as [Hin Hfind].
    destruct (Hall _ Hin) as (storeItem & Hget & Hq & Hone).
    split; [exact Hq|].
    assert (Hnd : NoDup (map StoreItem.id selected))
      by (rewrite Hsel; now apply selectedItems_distinct).
    unfold itemsMap_get in Hget. rewrite (find_rev_unique_key _ _ _ Hnd) in Hget.
    unfold storeItems_find in Hfind. rewrite Hfind in Hget. injection Hget as <-.
    exact Hone.
  - apply sumPurchaseItems_total in Hsum.
    + unfold linesCost in Hsum. lia.
    + rewrite Hsel. now apply selectedItems_distinct.
Qed.

Lemma validatePurchaseItems_accepted_witness :
  CreatePurchaseDto.items Demo.order <> [] /\
  NoDup (map PurchaseItemDto.itemId (CreatePurchaseDto.items Demo.order)).
Proof.
  destruct (validatePurchaseItems_accepted (CreatePurchaseDto.items Demo.order)
              Demo.seed Demo.seed [Demo.xpToken; Demo.tshirt] 2500
              ltac:(simpl; repeat constructor; simpl; intuition discriminate)
              ltac:(vm_compute; reflexivity))
    as (_ & Hne & Hnd & _).
  split; [exact Hne | exact Hnd].
Defined.

(** ** What a purchase touches *)

(** X3. A purchase is all or nothing: a rejected request leaves every table
    as it was, and a committed one leaves the catalogue, the games, the
    character profiles and their equipment as they were. *)
Theorem createPurchase_all_or_nothing (userId : string) (dto : CreatePurchaseDto.t)
  (db db' : Db) :
  (forall e, createPurchase userId dto db = (inl e, db') -> db' = db) /\
  (forall r, createPurchase userId dto db = (inr r, db') ->
     games db' = games db /\
     storeItems db' = storeItems db /\
     characterProfiles db' = characterProfiles db /\
     characterEquippedItems db' = characterEquippedItems db).
Proof.
  split.
  - intros e. apply createPurchase_rejected_unchanged.
  - intros r Hrun.
    destruct (createPurchase_accepted _ _ _ _ _ Hrun)
      as (selected & totalCost & wallet & inv & _ & _ & _ & _ & _ & _ & ->).
    repeat split.
Qed.

Lemma createPurchase_all_or_nothing_witness :
  storeItems Demo.afterOrder = storeItems Demo.seed /\
  characterProfiles Demo.afterOrder = characterProfiles Demo.seed.
Proof.
  destruct (proj2 (createPurchase_all_or_nothing "demo" Demo.order Demo.seed Demo.afterOrder)
              Demo.orderResponse ltac:(vm_compute; reflexivity))
    as (_ & Hs & Hp & _).
  split; [exact Hs | exact Hp].
Defined.

Lemma totalCredit_nonneg (items : list PurchaseItemDto.t) (db : Db)
  (selected : list StoreItem.t) (totalCost : Z) :
  fst (validatePurchaseItems items db) = inr (selected, totalCost) ->
  (forall si, In si (storeItems db) -> 0 <= metadata_gemAmount si) ->
  0 <= totalCredit selected items.
Proof.
  intros Hval Hgems. unfold totalCredit. apply sumZ_nonneg.
  apply Forall_map. apply Forall_forall. intros l Hl.
  unfold gemPacks in Hl. apply filter_In in Hl. destruct Hl as [Hl _].
  destruct (selected_line _ _ _ _ _ Hval Hl) as (Hin & _ & Hq).
  unfold gemCredit. specialize (Hgems _ Hin). nia.
Qed.

(** X4. A committed purchase never overdraws: the total was within the
    balance, and, with a catalogue of non-negative gem amounts, the new
    balance is at least the old balance minus the total, so it is not
    negative. *)
Theorem createPurchase_never_overdraws (userId : string) (dto : CreatePurchaseDto.t)
  (db db' : Db) (r : PurchaseResponseDto.t) :
  createPurchase userId dto db = (inr r, db') ->
  (forall si, In si (storeItems db) -> 0 <= metadata_gemAmount si) ->
  exists before after totalCost,
    balanceOf userId db = Some before /\
    balanceOf userId db' = Some after /\
    In (Purchase.mk (cuid (nextId db)) userId totalCost PS_COMPLETED "GEMS" (now db))
       (purchases db') /\
    totalCost <= before /\
    before - totalCost <= after /\
    0 <= after.
Proof.
  intros Hrun Hgems.
  destruct (createPurchase_accepted _ _ _ _ _ Hrun)
    as (selected & totalCost & wallet & inv & _ & Hval & Hw & Hbal & _ & _ & ->).
  pose proof (totalCredit_nonneg _ _ _ _ Hval Hgems) as Hcredit.
  exists (UserWallet.balance wallet),
         (UserWallet.balance wallet - totalCost
          + totalCredit selected (CreatePurchaseDto.items dto)),
         totalCost.
  split; [unfold balanceOf; now rewrite Hw|].
  split; [now apply committed_balance|].
  split; [simpl; apply in_or_app; right; now left|].
  lia.
Qed.

Lemma createPurchase_never_overdraws_witness :
  exists before after totalCost,
    balanceOf "demo" Demo.seed = Some before /\
    balanceOf "demo" Demo.afterOrder = Some after /\
    In (Purchase.mk "c0" "demo" totalCost PS_COMPLETED "GEMS" 1000000)
       (purchases Demo.afterOrder) /\
    totalCost <= before /\
    before - totalCost <= after /\
    0 <= after.
Proof.
  apply (createPurchase_never_overdraws "demo" Demo.order Demo.seed Demo.afterOrder
           Demo.orderResponse).
  - vm_compute. reflexivity.
  - intros si Hsi. simpl in Hsi.
    repeat (destruct Hsi as [<-|Hsi]; [vm_compute; discriminate|]). destruct Hsi.
Defined.

(** *** The other users *)

Lemma grantItems_other_user (userId other : string) (storeItems : list StoreItem.t)
  (items : list PurchaseItemDto.t) :
  other <> userId ->
  forall inv inv',
    grantItems userId storeItems items inv = inr inv' ->
    filter (fun r => String.eqb (UserInventory.userId r) other) inv'
    = filter (fun r => String.eqb (UserInventory.userId r) other) inv.
Proof.
  intros Hother.
  assert (Hkey : forall i a, ownedBy userId i a = true ->
                   String.eqb (UserInventory.userId a) other = false).
  { intros i a H. unfold ownedBy in H. apply andb_true_iff in H. destruct H as [H _].
    apply String.eqb_eq in H. rewrite H. apply String.eqb_neq. congruence. }
  assert (Hnew : String.eqb userId other = false) by (apply String.eqb_neq; congruence).
  induction items as [|item rest IH]; intros inv inv'; simpl.
  - now intros [= <-].
  - destruct (storeItems_find storeItems (PurchaseItemDto.itemId item)) as [storeItem|];
      [|discriminate].
    destruct (isFunctional _ && metadata_instant _); [apply IH|].
    destruct (StoreItem.type storeItem);
      destruct (find (ownedBy userId (PurchaseItemDto.itemId item)) inv) eqn:Ef;
      try discriminate; intros H; apply IH in H; rewrite H.
    + apply filter_replace_first_other.
      * apply Hkey.
      * intros a Ha. simpl. exact (Hkey _ a Ha).
    + rewrite filter_app. simpl. rewrite Hnew. apply app_nil_r.
    + rewrite filter_app. simpl. rewrite Hnew. apply app_nil_r.
Qed.

(** X5. A committed purchase touches nothing of another user: the balance,
    the inventory rows, the purchases and the fulfillments of every other
    user are the same before and after. *)
Theorem createPurchase_other_users (userId other : string) (dto : CreatePurchaseDto.t)
  (db db' : Db) (r : PurchaseResponseDto.t) :
  createPurchase userId dto db = (inr r, db') ->
  other <> userId ->
  balanceOf other db' = balanceOf other db /\
  inventoryOfUser other db' = inventoryOfUser other db /\
  filter (fun p => String.eqb (Purchase.userId p) other) (purchases db')
  = filter (fun p => String.eqb (Purchase.userId p) other) (purchases db) /\
  filter (fun f => String.eqb (ItemFulfillment.userId f) other) (itemFulfillments db')
  = filter (fun f => String.eqb (ItemFulfillment.userId f) other) (itemFulfillments db).
Proof.
  intros Hrun Hother.
  destruct (createPurchase_accepted _ _ _ _ _ Hrun)
    as (selected & totalCost & wallet & inv & _ & _ & _ & _ & _ & Hinv & ->).
  assert (Hnew : String.eqb userId other = false) by (apply String.eqb_neq; congruence).
  split; [|split; [|split]].
  - unfold balanceOf. simpl. f_equal. apply find_replace_first_frame.
    + intros a Ha. apply String.eqb_eq in Ha. rewrite Ha. exact Hnew.
    + reflexivity.
  - unfold inventoryOfUser. simpl. exact (grantItems_other_user _ _ _ _ Hother _ _ Hinv).
  - simpl. rewrite filter_app. simpl. rewrite Hnew. apply app_nil_r.
  - simpl. rewrite filter_app.
    rewrite <- (app_nil_r (filter _ (itemFulfillments db))) at 2. f_equal.
    induction (resolveItems selected (CreatePurchaseDto.items dto)) as [|l ls IH];
      simpl; [reflexivity|]. now rewrite Hnew.
Qed.

Lemma createPurchase_other_users_witness :
  balanceOf "guest" Demo.afterOrder = balanceOf "guest" Demo.seed /\
  inventoryOfUser "guest" Demo.afterOrder = inventoryOfUser "guest" Demo.seed.
Proof.
  destruct (createPurchase_other_users "demo" "guest" Demo.order Demo.seed Demo.afterOrder
              Demo.orderResponse ltac:(vm_compute; reflexivity) ltac:(discriminate))
    as (Hb & Hi & _).
  split; [exact Hb | exact Hi].
Defined.

(** *** The inventory, line by line *)

Lemma grantItems_step (userId : string) (storeItems : list StoreItem.t)
  (item : PurchaseItemDto.t) (rest : list PurchaseItemDto.t) (inv : list UserInventory.t) :
  grantItems userId storeItems (item :: rest) inv
  = match grantItems userId storeItems [item] inv with
    | inl e => inl e
    | inr inv1 => grantItems userId storeItems rest inv1
    end.
Proof.
  simpl. destruct (storeItems_find storeItems (PurchaseItemDto.itemId item)); [|reflexivity].
  destruct (isFunctional _ && metadata_instant _); [reflexivity|].
  destruct (StoreItem.type _);
    destruct (find (ownedBy userId (PurchaseItemDto.itemId item)) inv); reflexivity.
Qed.

Lemma ownedBy_stacked (userId itemId : string) (q : Z) (r : UserInventory.t) :
  ownedBy userId itemId (stacked q r) = ownedBy userId itemId r.
Proof. reflexivity. Qed.

Lemma grantItems_single (userId : string) (storeItems : list StoreItem.t)
  (item : PurchaseItemDto.t) (storeItem : StoreItem.t) (inv inv1 : list UserInventory.t) :
  grantItems userId storeItems [item] inv = inr inv1 ->
  storeItems_find storeItems (PurchaseItemDto.itemId item) = Some storeItem ->
  filter (ownedBy userId (PurchaseItemDto.itemId item)) inv1
  = granted userId (item, storeItem)
      (filter (ownedBy userId (PurchaseItemDto.itemId item)) inv).
Proof.
  intros H Hfind. simpl in H. rewrite Hfind in H. unfold granted, isInstant. simpl.
  destruct (isFunctional _ && metadata_instant _); [now injection H as <-|].
  destruct (StoreItem.type storeItem);
    destruct (find (ownedBy userId (PurchaseItemDto.itemId item)) inv) as [r|] eqn:Ef;
    try discriminate; injection H as <-.
  - change (fun r0 => UserInventory.mk (UserInventory.userId r0) (UserInventory.itemId r0)
                        (UserInventory.quantity r0 + PurchaseItemDto.quantity item)
                        (UserInventory.isConsumed r0))
      with (stacked (PurchaseItemDto.quantity item)).
    rewrite filter_replace_first_same by (intros; apply ownedBy_stacked).
    rewrite find_filter_hd in Ef.
    destruct (filter (ownedBy userId (PurchaseItemDto.itemId item)) inv);
      [discriminate | reflexivity].
  - rewrite filter_app. rewrite (filter_nil_find _ _ Ef). simpl.
    rewrite ownedBy_new_row, String.eqb_refl. reflexivity.
  - rewrite filter_app. rewrite (filter_nil_find _ _ Ef). simpl.
    rewrite ownedBy_new_row, String.eqb_refl. reflexivity.
Qed.

Lemma grantItems_line (userId : string) (storeItems : list StoreItem.t)
  (items : list PurchaseItemDto.t) :
  NoDup (map PurchaseItemDto.itemId items) ->
  forall inv inv' l,
    grantItems userId storeItems items inv = inr inv' ->
    In l (resolveItems storeItems items) ->
    filter (ownedBy userId (PurchaseItemDto.itemId (fst l))) inv'
    = granted userId l (filter (ownedBy userId (PurchaseItemDto.itemId (fst l))) inv).
Proof.
  induction items as [|item rest IH]; intros Hnd inv inv' l H Hl; [destruct Hl|].
  inversion Hnd as [|? ? Hnotin Hnd']; subst.
  rewrite grantItems_step in H.
  destruct (grantItems userId storeItems [item] inv) as [e|inv1] eqn:E1; [discriminate|].
  unfold resolveItems in Hl. simpl in Hl. apply in_app_or in Hl.
  destruct Hl as [Hl|Hl].
  - destruct (storeItems_find storeItems (PurchaseItemDto.itemId item)) as [storeItem|]
      eqn:Efind; [|destruct Hl].
    destruct Hl as [<-|[]]. simpl.
    rewrite (grantItems_frame _ _ _ _ _ _ H Hnotin).
    exact (grantItems_single _ _ _ _ _ _ E1 Efind).
  - fold (resolveItems storeItems rest) in Hl.
    rewrite (IH Hnd' _ _ _ H Hl). f_equal.
    apply (grantItems_frame _ _ _ _ _ _ E1). simpl. intros [Heq|[]].
    apply Hnotin. rewrite Heq. apply in_map. now apply resolveItems_found in Hl.
Qed.

Lemma createPurchase_line (userId : string) (dto : CreatePurchaseDto.t)
  (db db' : Db) (r : PurchaseResponseDto.t) (item : PurchaseItemDto.t)
  (storeItem : StoreItem.t) :
  NoDup (map StoreItem.id (storeItems db)) ->
  createPurchase userId dto db = (inr r, db') ->
  In item (CreatePurchaseDto.items dto) ->
  storeItems_find (storeItems db) (PurchaseItemDto.itemId item) = Some storeItem ->
  storeItems db' = storeItems db /\
  1 <= PurchaseItemDto.quantity item /\
  inventoryOf userId (PurchaseItemDto.itemId item) db'
  = granted userId (item, storeItem)
      (inventoryOf userId (PurchaseItemDto.itemId item) db).
Proof.
  intros Hpk Hrun Hin Hrow.
  destruct (createPurchase_accepted _ _ _ _ _ Hrun)
    as (selected & totalCost & wallet & inv & _ & Hval & _ & _ & _ & Hinv & ->).
  pose proof (validated_lines_distinct _ _ _ _ Hpk Hval) as Hnd.
  pose proof (validatePurchaseItems_found _ _ _ _ Hval) as Hfound.
  unfold all_found in Hfound. rewrite Forall_forall in Hfound.
  destruct (storeItems_find selected (PurchaseItemDto.itemId item)) as [si|] eqn:Esel;
    [|now destruct (Hfound _ Hin)].
  pose proof (resolveItems_In _ _ _ _ Hin Esel) as Hl.
  destruct (resolved_catalogue_row _ _ _ _ _ Hpk Hval Hl) as [Hrow' _].
  simpl in Hrow'. rewrite Hrow in Hrow'. injection Hrow' as ->.
  split; [reflexivity|].
  split; [now destruct (selected_line _ _ _ _ _ Hval Hl) as (_ & _ & Hq)|].
  exact (grantItems_line _ _ _ Hnd _ _ _ Hinv Hl).
Qed.

(** X6. With ids that are a key of the catalogue, a committed purchase
    changes the rows of the buyer for the item of a line as that line alone
    does: nothing for an instant FUNCTIONAL item; for a CONSUMABLE item the
    quantity of the line is added to the existing row, whose [isConsumed]
    flag stays as it was, or a row with that quantity is created; for a
    NON_CONSUMABLE item a row of quantity 1 is created. The rows of the
    buyer for the items that the request does not name stay as they
    were. *)
Theorem createPurchase_grants (userId : string) (dto : CreatePurchaseDto.t)
  (db db' : Db) (r : PurchaseResponseDto.t) :
  NoDup (map StoreItem.id (storeItems db)) ->
  createPurchase userId dto db = (inr r, db') ->
  (forall item storeItem,
     In item (CreatePurchaseDto.items dto) ->
     storeItems_find (storeItems db) (PurchaseItemDto.itemId item) = Some storeItem ->
     inventoryOf userId (PurchaseItemDto.itemId item) db'
     = granted userId (item, storeItem)
         (inventoryOf userId (PurchaseItemDto.itemId item) db)) /\
  (forall itemId,
     ~ In itemId (map PurchaseItemDto.itemId (CreatePurchaseDto.items dto)) ->
     inventoryOf userId itemId db' = inventoryOf userId itemId db).
Proof.
  intros Hpk Hrun. split.
  - intros item storeItem Hin Hrow.
    now destruct (createPurchase_line _ _ _ _ _ _ _ Hpk Hrun Hin Hrow) as (_ & _ & H).
  - destruct (createPurchase_accepted _ _ _ _ _ Hrun)
      as (selected & totalCost & wallet & inv & _ & _ & _ & _ & _ & Hinv & ->).
    intros itemId Hnotin. unfold inventoryOf. simpl.
    exact (grantItems_frame _ _ _ _ _ _ Hinv Hnotin).
Qed.

Lemma createPurchase_grants_witness :
  inventoryOf "demo" "xp" Demo.afterOrder = [UserInventory.mk "demo" "xp" 2 false] /\
  inventoryOf "demo" "ak47" Demo.afterOrder = [].
Proof.
  destruct (createPurchase_grants "demo" Demo.order Demo.seed Demo.afterOrder
              Demo.orderResponse
              ltac:(simpl; repeat constructor; simpl; intuition discriminate)
              ltac:(vm_compute; reflexivity))
    as [Hline Hframe].
  split.
  - apply (Hline (PurchaseItemDto.mk "xp" 2) Demo.xpToken).
    + simpl. now left.
    + vm_compute. reflexivity.
  - apply (Hframe "ak47"). simpl. intuition discriminate.
Defined.

(** *** The answer of a purchase, and reading it back *)

Lemma bind_inr {A B} (m : M A) (k : A -> M B) (db db' : Db) (b : B) :
  bind m k db = (inr b, db') ->
  exists a db1, m db = (inr a, db1) /\ k a db1 = (inr b, db').
Proof.
  unfold bind. destruct (m db) as [[e|a] db1]; [discriminate|].
  intros H. now exists a, db1.
Qed.

Lemma purchaseTransactionBody_response (userId : string)
  (items : list PurchaseItemDto.t) (selected : list StoreItem.t) (totalCost : Z)
  (db db' : Db) (r : PurchaseResponseDto.t) :
  purchaseTransactionBody userId items selected totalCost db = (inr r, db') ->
  getPurchaseWithDetails (cuid (nextId db)) db' = (inr r, db').
Proof.
  unfold purchaseTransactionBody. intros H.
  apply bind_inr in H. destruct H as (? & db1 & H1 & H).
  pose proof (validateNonConsumableOwnership_readonly userId selected items db) as Hro.
  rewrite H1 in Hro. simpl in Hro. subst db1. clear H1.
  apply bind_inr in H. destruct H as (updatedWallet & db2 & H2 & H).
  assert (Hn2 : nextId db2 = nextId db).
  { unfold userWallet_update in H2. destruct (find _ (userWallets db)); [|discriminate].
    now injection H2 as _ <-. }
  clear H2.
  apply bind_inr in H. destruct H as (? & db3 & H3 & H).
  assert (Hn3 : nextId db3 = nextId db).
  { destruct (UserWallet.balance updatedWallet <? 0); [discriminate|].
    now injection H3 as _ <-. }
  clear H3.
  apply bind_inr in H. destruct H as (? & db4 & H4 & H).
  assert (Hn4 : nextId db4 = nextId db) by now injection H4 as _ <-.
  clear H4.
  apply bind_inr in H. destruct H as (purchase & db5 & H5 & H).
  assert (Hid : Purchase.id purchase = cuid (nextId db)).
  { unfold purchase_create, bind, freshId, gets, modify, ret in H5.
    injection H5 as <- _. simpl. now rewrite Hn4. }
  clear H5. rewrite Hid in H.
  apply bind_inr in H. destruct H as (? & db6 & _ & H).
  apply bind_inr in H. destruct H as (? & db7 & _ & H).
  apply bind_inr in H. destruct H as (? & db8 & _ & H).
  apply bind_inr in H. destruct H as (? & db9 & _ & H).
  apply bind_inr in H. destruct H as (? & db10 & _ & H).
  assert (Hro' : db' = db10).
  { unfold getPurchaseWithDetails, bind, gets, throw, ret in H.
    destruct (find _ (purchases db10)); now injection H as _ <-. }
  now subst db10.
Qed.

Lemma createPurchase_response (userId : string) (dto : CreatePurchaseDto.t)
  (db db' : Db) (r : PurchaseResponseDto.t) :
  createPurchase userId dto db = (inr r, db') ->
  getPurchaseWithDetails (cuid (nextId db)) db' = (inr r, db').
Proof.
  rewrite createPurchase_unfold.
  destruct (duplicateSuppressed _ _ _); [discriminate|].
  destruct (fst (validatePurchaseItems _ _)) as [e'|[selected totalCost]]; [discriminate|].
  destruct (find _ (userWallets db)) as [wallet|]; [|discriminate].
  destruct (UserWallet.balance wallet <? totalCost); [discriminate|].
  unfold executePurchaseTransaction, transaction.
  destruct (purchaseTransactionBody _ _ _ _ _) as [[e|r'] db1] eqn:E; [discriminate|].
  intros [= <- <-]. exact (purchaseTransactionBody_response _ _ _ _ _ _ _ E).
Qed.

Lemma find_none_forall {A} (p : A -> bool) (l : list A) :
  (forall a, In a l -> p a = false) -> find p l = None.
Proof.
  induction l as [|a l IH]; simpl; [reflexivity|]. intros H.
  rewrite (H a) by now left. apply IH. intros b Hb. apply H. now right.
Qed.

Lemma filter_none_forall {A} (p : A -> bool) (l : list A) :
  (forall a, In a l -> p a = false) -> filter p l = [].
Proof.
  intros H. apply filter_nil_find. now apply find_none_forall.
Qed.

(** X7. When the identifier that the database generates is not yet the id
    of a purchase nor the purchase of a purchase item, a committed purchase
    answers with that identifier, the buyer, the status COMPLETED, the total
    of the purchase row it has written and one item per line, in the order
    of the lines; [getPurchaseById] then returns the same answer to the
    buyer, and "not found or not owned" to every other user. *)
Theorem createPurchase_read_back (userId : string) (dto : CreatePurchaseDto.t)
  (db db' : Db) (r : PurchaseResponseDto.t) :
  createPurchase userId dto db = (inr r, db') ->
  (forall p, In p (purchases db) -> Purchase.id p <> cuid (nextId db)) ->
  (forall i, In i (purchaseItems db) -> PurchaseItem.purchaseId i <> cuid (nextId db)) ->
  PurchaseResponseDto.id r = cuid (nextId db) /\
  PurchaseResponseDto.userId r = userId /\
  PurchaseResponseDto.status r = PS_COMPLETED /\
  purchases db'
  = purchases db
    ++ [Purchase.mk (cuid (nextId db)) userId (PurchaseResponseDto.totalAmount r)
          PS_COMPLETED "GEMS" (now db)] /\
  purchaseItems db' = purchaseItems db ++ PurchaseResponseDto.items r /\
  map PurchaseItem.itemId (PurchaseResponseDto.items r)
  = map PurchaseItemDto.itemId (CreatePurchaseDto.items dto) /\
  map PurchaseItem.quantity (PurchaseResponseDto.items r)
  = map PurchaseItemDto.quantity (CreatePurchaseDto.items dto) /\
  getPurchaseById userId (cuid (nextId db)) db' = (inr r, db') /\
  (forall other, other <> userId ->
     getPurchaseById other (cuid (nextId db)) db'
     = (inl (NotFound Purchase_not_found_or_not_owned_by_user), db')).
Proof.
  intros Hrun Hfresh Hfresh'.
  pose proof (createPurchase_response _ _ _ _ _ Hrun) as Hr.
  destruct (createPurchase_accepted _ _ _ _ _ Hrun)
    as (selected & totalCost & wallet & inv & _ & Hval & _ & _ & _ & _ & Hdb).
  pose proof (validatePurchaseItems_found _ _ _ _ Hval) as Hfound.
  set (pid := cuid (nextId db)) in *.
  set (lines := resolveItems selected (CreatePurchaseDto.items dto)) in *.
  set (row := Purchase.mk pid userId totalCost PS_COMPLETED "GEMS" (now db)).
  assert (Hp : purchases db' = purchases db ++ [row]) by (rewrite Hdb; reflexivity).
  assert (Hpi : purchaseItems db' = purchaseItems db ++ map (purchaseItemRow pid) lines)
    by (rewrite Hdb; reflexivity).
  assert (Hold : forall q : Purchase.t -> bool,
            (forall p, q p = true -> String.eqb (Purchase.id p) pid = true) ->
            find q (purchases db) = None).
  { intros q Hq. apply find_none_forall. intros p Hin.
    destruct (q p) eqn:E; [|reflexivity]. apply Hq in E. apply String.eqb_eq in E.
    now destruct (Hfresh _ Hin). }
  assert (Hitems : filter (fun i => String.eqb (PurchaseItem.purchaseId i) pid)
                     (purchaseItems db')
                   = map (purchaseItemRow pid) lines).
  { rewrite Hpi, filter_app. rewrite filter_none_forall.
    - simpl. apply forallb_filter_id. apply forallb_forall. intros i Hi.
      apply in_map_iff in Hi. destruct Hi as (l & <- & _). simpl. apply String.eqb_refl.
    - intros i Hi. apply String.eqb_neq. now apply Hfresh'. }
  assert (Hanswer : r = PurchaseResponseDto.mk pid userId totalCost PS_COMPLETED "GEMS"
                          (map (purchaseItemRow pid) lines)).
  { unfold getPurchaseWithDetails, bind, gets, throw, ret in Hr.
    rewrite Hp, find_app_split, (Hold _ (fun p H => H)) in Hr. simpl in Hr.
    rewrite String.eqb_refl in Hr. rewrite Hitems in Hr. now injection Hr as <-. }
  assert (Hlines : map fst lines = CreatePurchaseDto.items dto)
    by now apply resolveItems_lines.
  rewrite Hanswer. simpl.
  split; [reflexivity|]. split; [reflexivity|]. split; [reflexivity|].
  split; [exact Hp|]. split; [exact Hpi|].
  split; [now rewrite <- Hlines, !map_map|].
  split; [now rewrite <- Hlines, !map_map|].
  split.
  - unfold getPurchaseById. rewrite Hp, find_app_split.
    rewrite Hold by (intros p H; apply andb_true_iff in H; tauto).
    simpl. rewrite !String.eqb_refl. simpl. now rewrite Hitems.
  - intros other Hother. unfold getPurchaseById. rewrite Hp, find_app_split.
    rewrite Hold by (intros p H; apply andb_true_iff in H; tauto).
    simpl. rewrite String.eqb_refl.
    assert (Hne : String.eqb userId other = false) by (apply String.eqb_neq; congruence).
    now rewrite Hne.
Qed.

Lemma createPurchase_read_back_witness :
  getPurchaseById "demo" "c0" Demo.afterOrder = (inr Demo.orderResponse, Demo.afterOrder) /\
  getPurchaseById "guest" "c0" Demo.afterOrder
  = (inl (NotFound Purchase_not_found_or_not_owned_by_user), Demo.afterOrder).
Proof.
  destruct (createPurchase_read_back "demo" Demo.order Demo.seed Demo.afterOrder
              Demo.orderResponse ltac:(vm_compute; reflexivity)
              ltac:(intros p []) ltac:(intros i []))
    as (_ & _ & _ & _ & _ & _ & _ & Hown & Hother).
  split; [exact Hown|]. apply Hother. discriminate.
Defined.

(** ** Retrying the fulfillments *)

Lemma retried_not_failed (purchaseId : string) (date : Z) (l : list ItemFulfillment.t) :
  filter (failedOf purchaseId) (updateMany (failedOf purchaseId) (retried date) l) = [].
Proof.
  unfold updateMany. induction l as [|f l IH]; simpl; [reflexivity|].
  destruct (failedOf purchaseId f) eqn:E.
  - unfold failedOf at 1. simpl. now rewrite andb_false_r.
  - now rewrite E.
Qed.

(** X8. An accepted retry is for a COMPLETED purchase of the user; it
    returns the number of FAILED fulfillments of that purchase, which is at
    least one, moves each of them to RETRY with one more attempt and the
    time of the retry, leaves every other fulfillment as it was, and touches
    no purchase, wallet, wallet transaction or inventory row. A rejected
    retry changes nothing. *)
Theorem retryPurchase_only_failed (userId purchaseId : string) (db db' : Db) :
  (forall e, retryPurchase userId purchaseId db = (inl e, db') -> db' = db) /\
  (forall n, retryPurchase userId purchaseId db = (inr n, db') ->
     (exists p, In p (purchases db) /\ Purchase.id p = purchaseId /\
                Purchase.userId p = userId /\ Purchase.status p = PS_COMPLETED) /\
     n = Z.of_nat (List.length (filter (failedOf purchaseId) (itemFulfillments db))) /\
     0 < n /\
     Forall2
       (fun f f' =>
          if failedOf purchaseId f
          then f' = ItemFulfillment.mk (ItemFulfillment.purchaseId f)
                      (ItemFulfillment.userId f) (ItemFulfillment.itemId f) FS_RETRY
                      (ItemFulfillment.deliveryType f) (ItemFulfillment.attempts f + 1)
                      (Some (now db)) (ItemFulfillment.completedAt f)
          else f' = f)
       (itemFulfillments db) (itemFulfillments db') /\
     purchases db' = purchases db /\
     userWallets db' = userWallets db /\
     walletTransactions db' = walletTransactions db /\
     userInventories db' = userInventories db).
Proof.
  split.
  - intros e. apply retryPurchase_rejected_unchanged.
  - intros n Hrun.
    destruct (retryPurchase_retries _ _ _ _ _ Hrun) as (Hn & Hpos & Hall).
    rewrite retryPurchase_run in Hrun.
    destruct (find (retryable userId purchaseId) (purchases db)) as [p|] eqn:Ep;
      [|discriminate].
    destruct (filter (failedOf purchaseId) (itemFulfillments db)) eqn:Ef; [discriminate|].
    injection Hrun as _ <-.
    split.
    { apply find_some in Ep. destruct Ep as [Hin Hp]. unfold retryable in Hp.
      apply andb_true_iff in Hp. destruct Hp as [Hp Hst].
      apply andb_true_iff in Hp. destruct Hp as [Hid Hu].
      exists p. repeat split; [exact Hin | now apply String.eqb_eq
                              | now apply String.eqb_eq |].
      destruct (Purchase.status p); try discriminate. reflexivity. }
    split; [rewrite Hn; unfold count; now rewrite Ef|].
    split; [exact Hpos|].
    split; [|repeat split].
    eapply Forall2_impl; [|exact Hall]. intros f f' H. simpl in H.
    destruct (failedOf purchaseId f); [|exact H]. now destruct H as (_ & _ & _ & ->).
Qed.

Lemma retryPurchase_only_failed_witness :
  exists db', retryPurchase "demo" "o2" Demo.withFailures = (inr 1, db') /\
              purchases db' = purchases Demo.withFailures.
Proof.
  exists (snd (retryPurchase "demo" "o2" Demo.withFailures)).
  split; [vm_compute; reflexivity|].
  apply (proj2 (retryPurchase_only_failed "demo" "o2" Demo.withFailures
                  (snd (retryPurchase "demo" "o2" Demo.withFailures))) 1).
  vm_compute. reflexivity.
Defined.

(** X9. A retry cannot be repeated: right after an accepted retry of a
    purchase, a second retry of that purchase is refused with "No failed
    fulfillments to retry" and changes nothing. *)
Theorem retryPurchase_twice (userId purchaseId : string) (db db' : Db) (n : Z) :
  retryPurchase userId purchaseId db = (inr n, db') ->
  retryPurchase userId purchaseId db'
  = (inl (BadRequestException No_failed_fulfillments_to_retry), db').
Proof.
  intros Hrun. rewrite retryPurchase_run in Hrun.
  destruct (find (retryable userId purchaseId) (purchases db)) as [p|] eqn:Ep;
    [|discriminate].
  destruct (filter (failedOf purchaseId) (itemFulfillments db)) eqn:Ef; [discriminate|].
  injection Hrun as _ <-.
  rewrite retryPurchase_run. simpl. rewrite Ep. now rewrite retried_not_failed.
Qed.

Lemma retryPurchase_twice_witness :
  retryPurchase "demo" "o2" (snd (retryPurchase "demo" "o2" Demo.withFailures))
  = (inl (BadRequestException No_failed_fulfillments_to_retry),
     snd (retryPurchase "demo" "o2" Demo.withFailures)).
Proof.
  apply (retryPurchase_twice "demo" "o2" Demo.withFailures _ 1).
  vm_compute. reflexivity.
Defined.

(** ** Using an item *)

Lemma ownedBy_key (userId itemId : string) (r : UserInventory.t) :
  ownedBy userId itemId r = true ->
  UserInventory.userId r = userId /\ UserInventory.itemId r = itemId.
Proof.
  unfold ownedBy. intros H. apply andb_true_iff in H. destruct H as [H1 H2].
  split; now apply String.eqb_eq.
Qed.

Lemma useItem_run (userId itemId : string) (db : Db) :
  useItem userId itemId db =
  match find (ownedBy userId itemId) (userInventories db) with
  | None => (inl (NotFound Item_not_found_in_inventory), db)
  | Some inventoryItem =>
    match storeItems_find (storeItems db) itemId with
    | None => (inl (Raised TypeError), db)
    | Some storeItem =>
      match StoreItem.type storeItem with
      | NON_CONSUMABLE => (inl (BadRequest Only_consumable_items_can_be_used), db)
      | CONSUMABLE =>
        if (UserInventory.quantity inventoryItem <=? 0)
           || UserInventory.isConsumed inventoryItem
        then (inl (BadRequest No_usable_quantity_available), db)
        else
          (inr (UseItemResponseDto.mk (UserInventory.quantity inventoryItem - 1)
                  (UserInventory.quantity inventoryItem =? 1)),
           with_userInventories
             (replace_first (ownedBy userId itemId) (used inventoryItem)
                (userInventories db)) db)
      end
    end
  end.
Proof.
  unfold useItem.
  change (fun r => String.eqb (UserInventory.userId r) userId
                   && String.eqb (UserInventory.itemId r) itemId)
    with (ownedBy userId itemId).
  destruct (find (ownedBy userId itemId) (userInventories db)) as [row|] eqn:Ef;
    [|reflexivity].
  apply find_some in Ef. destruct Ef as [_ Hkey]. apply ownedBy_key in Hkey.
  destruct Hkey as [_ ->]. reflexivity.
Qed.

(** X10. A use that is accepted is of a CONSUMABLE item of which the user
    has a row that is not consumed and has a quantity of at least 1; it
    takes one unit from that row, marks it consumed exactly when that was
    the last unit, answers with the quantity that remains, which is not
    negative, and leaves the rows of the other users and of the other items
    as they were. A use that is refused changes nothing. *)
Theorem useItem_takes_one (userId itemId : string) (db db' : Db) :
  (forall e, useItem userId itemId db = (inl e, db') -> db' = db) /\
  (forall r, useItem userId itemId db = (inr r, db') ->
     exists row rest storeItem,
       inventoryOf userId itemId db = row :: rest /\
       storeItems_find (storeItems db) itemId = Some storeItem /\
       StoreItem.type storeItem = CONSUMABLE /\
       UserInventory.isConsumed row = false /\
       1 <= UserInventory.quantity row /\
       inventoryOf userId itemId db'
       = UserInventory.mk userId itemId (UserInventory.quantity row - 1)
           (UserInventory.quantity row =? 1) :: rest /\
       UseItemResponseDto.remainingQuantity r = UserInventory.quantity row - 1 /\
       UseItemResponseDto.isFullyConsumed r = (UserInventory.quantity row =? 1) /\
       0 <= UseItemResponseDto.remainingQuantity r /\
       (forall user item, (user, item) <> (userId, itemId) ->
          inventoryOf user item db' = inventoryOf user item db)).
Proof.
  rewrite useItem_run. split.
  - intros e.
    destruct (find _ (userInventories db)) as [row|]; [|now intros [= _ <-]].
    destruct (storeItems_find _ _) as [storeItem|]; [|now intros [= _ <-]].
    destruct (StoreItem.type storeItem); [|now intros [= _ <-]].
    destruct (_ || _); [now intros [= _ <-] | discriminate].
  - intros r.
    destruct (find _ (userInventories db)) as [row|] eqn:Ef; [|discriminate].
    destruct (storeItems_find _ _) as [storeItem|] eqn:Es; [|discriminate].
    destruct (StoreItem.type storeItem) eqn:Et; [|discriminate].
    destruct (_ || _) eqn:Eq; [discriminate|]. intros [= <- <-].
    apply orb_false_iff in Eq. destruct Eq as [Hq Hc]. apply Z.leb_gt in Hq.
    pose proof Ef as Hhd. rewrite find_filter_hd in Hhd.
    pose proof (find_some _ _ Ef) as [_ Hkey]. apply ownedBy_key in Hkey.
    destruct Hkey as [Hu Hi].
    fold (inventoryOf userId itemId db) in Hhd.
    destruct (inventoryOf userId itemId db) as [|row' rest] eqn:Einv; [discriminate|].
    injection Hhd as ->.
    exists row, rest, storeItem.
    repeat split; try assumption; try reflexivity; try (simpl; lia).
    + unfold inventoryOf. simpl.
      rewrite filter_replace_first_same by reflexivity.
      unfold inventoryOf in Einv. rewrite Einv. unfold used. now rewrite Hu, Hi.
    + intros user item Hne. unfold inventoryOf. simpl.
      apply filter_replace_first_other.
      * intros a Ha. apply ownedBy_key in Ha. destruct Ha as [Hau Hai].
        unfold ownedBy. rewrite Hau, Hai.
        destruct (String.eqb userId user) eqn:E1; [|reflexivity].
        destruct (String.eqb itemId item) eqn:E2; [|reflexivity].
        apply String.eqb_eq in E1, E2. subst. now destruct Hne.
      * intros a Ha. apply ownedBy_key in Ha. destruct Ha as [Hau Hai].
        unfold ownedBy, used. simpl. rewrite Hau, Hai.
        destruct (String.eqb userId user) eqn:E1; [|reflexivity].
        destruct (String.eqb itemId item) eqn:E2; [|reflexivity].
        apply String.eqb_eq in E1, E2. subst. now destruct Hne.
Qed.

Lemma useItem_takes_one_witness :
  exists row rest,
    inventoryOf "demo" "xp" Demo.afterOrder = row :: rest /\
    inventoryOf "demo" "xp" (snd (useItem "demo" "xp" Demo.afterOrder))
    = UserInventory.mk "demo" "xp" (UserInventory.quantity row - 1)
        (UserInventory.quantity row =? 1) :: rest.
Proof.
  destruct (proj2 (useItem_takes_one "demo" "xp" Demo.afterOrder
                     (snd (useItem "demo" "xp" Demo.afterOrder)))
              (UseItemResponseDto.mk 1 false) ltac:(vm_compute; reflexivity))
    as (row & rest & storeItem & Hbefore & _ & _ & _ & _ & Hafter & _).
  exists row, rest. split; [exact Hbefore | exact Hafter].
Defined.

(** X11. Using an item again: when an accepted use has answered that the
    item is fully consumed, the next use of it is refused with "No usable
    quantity available" and changes nothing; otherwise the next use is
    accepted and leaves one unit less. *)
Theorem useItem_again (userId itemId : string) (db db' : Db) (r : UseItemResponseDto.t) :
  useItem userId itemId db = (inr r, db') ->
  if UseItemResponseDto.isFullyConsumed r
  then useItem userId itemId db' = (inl (BadRequest No_usable_quantity_available), db')
  else exists r' db'',
         useItem userId itemId db' = (inr r', db'') /\
         UseItemResponseDto.remainingQuantity r'
         = UseItemResponseDto.remainingQuantity r - 1.
Proof.
  rewrite useItem_run.
  destruct (find _ (userInventories db)) as [row|] eqn:Ef; [|discriminate].
  destruct (storeItems_find _ _) as [storeItem|] eqn:Es; [|discriminate].
  destruct (StoreItem.type storeItem) eqn:Et; [|discriminate].
  destruct (_ || _) eqn:Eq; [discriminate|]. intros [= <- <-].
  apply orb_false_iff in Eq. destruct Eq as [Hq Hc]. apply Z.leb_gt in Hq.
  rewrite useItem_run. simpl.
  rewrite find_replace_first by reflexivity. rewrite Ef. simpl.
  rewrite Es, Et.
  destruct (UserInventory.quantity row =? 1) eqn:Eone.
  - now rewrite orb_true_r.
  - apply Z.eqb_neq in Eone. rewrite orb_false_r.
    assert (Hq' : (UserInventory.quantity row - 1 <=? 0) = false)
      by (apply Z.leb_gt; lia).
    rewrite Hq'. eexists. eexists. split; reflexivity.
Qed.

Lemma useItem_again_witness :
  exists r' db'',
    useItem "demo" "xp" (snd (useItem "demo" "xp" Demo.afterOrder)) = (inr r', db'') /\
    UseItemResponseDto.remainingQuantity r' = 1 - 1.
Proof.
  apply (useItem_again "demo" "xp" Demo.afterOrder
           (snd (useItem "demo" "xp" Demo.afterOrder)) (UseItemResponseDto.mk 1 false)).
  vm_compute. reflexivity.
Defined.

(** ** The methods together *)

(** X12. What can be equipped cannot be used up: when [equipItem] accepts an
    item, [useItem] refuses that item with "Only consumable items can be
    used", before and after the item was equipped, and changes nothing. *)
Theorem equipItem_not_usable (userId profileId : string) (dto : EquipItemDto.t)
  (db db' : Db) (row : CharacterEquippedItem.t) :
  equipItem userId profileId dto db = (inr row, db') ->
  useItem userId (EquipItemDto.itemId dto) db
  = (inl (BadRequest Only_consumable_items_can_be_used), db) /\
  useItem userId (EquipItemDto.itemId dto) db'
  = (inl (BadRequest Only_consumable_items_can_be_used), db').
Proof.
  rewrite equipItem_run.
  destruct (find _ (characterProfiles db)) as [profile|]; [|discriminate].
  destruct (find _ (userInventories db)) as [inventoryItem|] eqn:Ei; [|discriminate].
  destruct (find _ (storeItems db)) as [storeItem|] eqn:Es; [|discriminate].
  destruct (fst (validateItemCompatibility storeItem profile db)); [discriminate|].
  destruct (StoreItem.type storeItem) eqn:Et; [discriminate|].
  intros [= _ <-].
  apply find_some in Ei. destruct Ei as [Hin Hkey].
  apply andb_true_iff in Hkey. destruct Hkey as [Hkey _].
  change (ownedBy userId (EquipItemDto.itemId dto) inventoryItem = true) in Hkey.
  destruct (find_found_anywhere (ownedBy userId (EquipItemDto.itemId dto)) _ _ Hin Hkey)
    as [first Hfirst].
  apply ownedBy_key in Hkey. destruct Hkey as [_ Hitem]. rewrite Hitem in Es.
  rewrite !useItem_run. simpl. unfold storeItems_find. now rewrite Hfirst, Es, Et.
Qed.

Lemma equipItem_not_usable_witness :
  useItem "demo" "ak47" Demo.armory
  = (inl (BadRequest Only_consumable_items_can_be_used), Demo.armory).
Proof.
  apply (equipItem_not_usable "demo" "p1" Demo.equipSkin Demo.armory Demo.afterSkin
           Demo.skinRow).
  vm_compute. reflexivity.
Defined.

Lemma find_filter_and {A} (p q : A -> bool) (l : list A) :
  find (fun a => p a && q a) l = find q (filter p l).
Proof.
  induction l as [|a l IH]; simpl; [reflexivity|].
  destruct (p a); simpl; [|exact IH]. destruct (q a); [reflexivity | exact IH].
Qed.

(** X13. With ids that are a key of the catalogue, a CONSUMABLE item that is
    not an instant FUNCTIONAL one and of which the buyer had no row can be
    used right after the purchase that bought it: the use is accepted and
    leaves the quantity of the line minus one. *)
Theorem createPurchase_then_useItem (userId : string) (dto : CreatePurchaseDto.t)
  (db db' : Db) (r : PurchaseResponseDto.t) (item : PurchaseItemDto.t)
  (storeItem : StoreItem.t) :
  NoDup (map StoreItem.id (storeItems db)) ->
  createPurchase userId dto db = (inr r, db') ->
  In item (CreatePurchaseDto.items dto) ->
  storeItems_find (storeItems db) (PurchaseItemDto.itemId item) = Some storeItem ->
  StoreItem.type storeItem = CONSUMABLE ->
  isInstant storeItem = false ->
  inventoryOf userId (PurchaseItemDto.itemId item) db = [] ->
  exists db'',
    useItem userId (PurchaseItemDto.itemId item) db'
    = (inr (UseItemResponseDto.mk (PurchaseItemDto.quantity item - 1)
              (PurchaseItemDto.quantity item =? 1)), db'').
Proof.
  intros Hpk Hrun Hin Hrow Hty Hinst Hnone.
  destruct (createPurchase_line _ _ _ _ _ _ _ Hpk Hrun Hin Hrow) as (Hcat & Hq & Hline).
  rewrite Hnone in Hline.
  unfold granted in Hline. simpl in Hline. rewrite Hinst, Hty in Hline.
  rewrite useItem_run. rewrite find_filter_hd.
  fold (inventoryOf userId (PurchaseItemDto.itemId item) db'). rewrite Hline. simpl.
  rewrite Hcat, Hrow, Hty. simpl.
  assert (Hq' : (PurchaseItemDto.quantity item <=? 0) = false) by (apply Z.leb_gt; lia).
  rewrite Hq'. simpl. eexists. reflexivity.
Qed.

Lemma createPurchase_then_useItem_witness :
  exists db'',
    useItem "demo" "xp" Demo.afterOrder = (inr (UseItemResponseDto.mk (2 - 1) (2 =? 1)), db'').
Proof.
  apply (createPurchase_then_useItem "demo" Demo.order Demo.seed Demo.afterOrder
           Demo.orderResponse (PurchaseItemDto.mk "xp" 2) Demo.xpToken).
  - simpl. repeat constructor; simpl; intuition discriminate.
  - vm_compute. reflexivity.
  - simpl. now left.
  - vm_compute. reflexivity.
  - reflexivity.
  - reflexivity.
  - reflexivity.
Defined.

(** X14. Buying more of a used-up item does not make it usable: with ids
    that are a key of the catalogue, when the row of the buyer for a
    CONSUMABLE item is marked consumed, a committed purchase of that item
    adds the quantity of the line to the row and leaves the mark, and the
    next use of the item is refused with "No usable quantity available". *)
Theorem createPurchase_consumed_row (userId : string) (dto : CreatePurchaseDto.t)
  (db db' : Db) (r : PurchaseResponseDto.t) (item : PurchaseItemDto.t)
  (storeItem : StoreItem.t) (row : UserInventory.t) (rest : list UserInventory.t) :
  NoDup (map StoreItem.id (storeItems db)) ->
  createPurchase userId dto db = (inr r, db') ->
  In item (CreatePurchaseDto.items dto) ->
  storeItems_find (storeItems db) (PurchaseItemDto.itemId item) = Some storeItem ->
  StoreItem.type storeItem = CONSUMABLE ->
  isInstant storeItem = false ->
  inventoryOf userId (PurchaseItemDto.itemId item) db = row :: rest ->
  UserInventory.isConsumed row = true ->
  inventoryOf userId (PurchaseItemDto.itemId item) db'
  = UserInventory.mk (UserInventory.userId row) (UserInventory.itemId row)
      (UserInventory.quantity row + PurchaseItemDto.quantity item) true :: rest /\
  useItem userId (PurchaseItemDto.itemId item) db'
  = (inl (BadRequest No_usable_quantity_available), db').
Proof.
  intros Hpk Hrun Hin Hrow Hty Hinst Hrows Hused.
  destruct (createPurchase_line _ _ _ _ _ _ _ Hpk Hrun Hin Hrow) as (Hcat & _ & Hline).
  rewrite Hrows in Hline.
  unfold granted in Hline. simpl in Hline. rewrite Hinst, Hty in Hline.
  unfold stacked in Hline. rewrite Hused in Hline.
  split; [exact Hline|].
  rewrite useItem_run. rewrite find_filter_hd.
  fold (inventoryOf userId (PurchaseItemDto.itemId item) db'). rewrite Hline. simpl.
  rewrite Hcat, Hrow, Hty. now rewrite orb_true_r.
Qed.

Lemma createPurchase_consumed_row_witness :
  inventoryOf "demo" "xp" Scenes.afterRefill = [UserInventory.mk "demo" "xp" (0 + 2) true] /\
  useItem "demo" "xp" Scenes.afterRefill
  = (inl (BadRequest No_usable_quantity_available), Scenes.afterRefill).
Proof.
  apply (createPurchase_consumed_row "demo" Scenes.refill Scenes.usedUp Scenes.afterRefill
           Scenes.refillResponse (PurchaseItemDto.mk "xp" 2) Demo.xpToken
           (UserInventory.mk "demo" "xp" 0 true) []).
  - simpl. repeat constructor; simpl; intuition discriminate.
  - vm_compute. reflexivity.
  - simpl. now left.
  - vm_compute. reflexivity.
  - reflexivity.
  - reflexivity.
  - reflexivity.
  - reflexivity.
Defined.

(** ** Character profiles *)

Lemma NoDup_map_injective {A B} (f : A -> B) (l : list A) (x y : A) :
  NoDup (map f l) -> In x l -> In y l -> f x = f y -> x = y.
Proof.
  induction l as [|a l IH]; simpl; [intros _ []|].
  intros Hnd Hx Hy Heq. inversion Hnd as [|? ? Hnotin Hnd']; subst.
  destruct Hx as [->|Hx], Hy as [->|Hy].
  - reflexivity.
  - exfalso. apply Hnotin. rewrite Heq. now apply in_map.
  - exfalso. apply Hnotin. rewrite <- Heq. now apply in_map.
  - now apply IH.
Qed.

Lemma NoDup_map_filter_any {A B} (f : A -> B) (q : A -> bool) (l : list A) :
  NoDup (map f l) -> NoDup (map f (filter q l)).
Proof.
  induction l as [|a l IH]; simpl; [intros H; exact H|].
  intros Hnd. inversion Hnd as [|? ? Hnotin Hnd']; subst.
  destruct (q a); [|now apply IH]. simpl. constructor; [|now apply IH].
  intros Hin. apply Hnotin. apply in_map_iff in Hin. destruct Hin as (x & Hx & Hin).
  apply filter_In in Hin. rewrite <- Hx. apply in_map. tauto.
Qed.

Lemma NoDup_snoc {A} (l : list A) (x : A) : NoDup l -> ~ In x l -> NoDup (l ++ [x]).
Proof.
  induction l as [|a l IH]; simpl; intros Hnd Hx.
  - constructor; [intros []|constructor].
  - inversion Hnd as [|? ? Hnotin Hnd']; subst. constructor.
    + intros Hin. apply in_app_or in Hin. destruct Hin as [Hin|[->|[]]]; tauto.
    + apply IH; tauto.
Qed.

Lemma map_replace_first {A B} (key : A -> B) (p : A -> bool) (f : A -> A) (l : list A) :
  (forall a, key (f a) = key a) -> map key (replace_first p f l) = map key l.
Proof.
  intros Hf. induction l as [|a l IH]; simpl; [reflexivity|].
  destruct (p a); simpl; [now rewrite Hf | now rewrite IH].
Qed.

Lemma filter_map_unchanged {A} (q : A -> bool) (h : A -> A) (l : list A) :
  (forall a, In a l -> q a = true -> h a = a) ->
  (forall a, In a l -> q (h a) = q a) ->
  filter q (map h l) = filter q l.
Proof.
  induction l as [|a l IH]; simpl; [reflexivity|]. intros Hfix Hq.
  rewrite (Hq a) by now left.
  rewrite IH; [|intros; apply Hfix; auto|intros; apply Hq; auto].
  destruct (q a) eqn:E; [|reflexivity]. now rewrite (Hfix a) by auto.
Qed.

(** *** Activation *)

(** X15. With ids that are a key of the profiles, an accepted activation is
    of a profile of the user and leaves that profile as the only active one
    among the profiles of the user for the same game (or platform-wide); it
    changes no id, owner, game or name, leaves the profiles of the other
    users and of the other games as they were, and touches no equipment. *)
Theorem activateCharacterProfile_exclusive (userId profileId : string) (db db' : Db) :
  NoDup (map CharacterProfile.id (characterProfiles db)) ->
  activateCharacterProfile userId profileId db = (inr tt, db') ->
  exists profile,
    In profile (characterProfiles db) /\
    CharacterProfile.id profile = profileId /\
    CharacterProfile.userId profile = userId /\
    activeIn userId (CharacterProfile.gameId profile) db' = [set_isActive true profile] /\
    map (fun p => (CharacterProfile.id p, scopedName p)) (characterProfiles db')
    = map (fun p => (CharacterProfile.id p, scopedName p)) (characterProfiles db) /\
    filter (fun p => negb (partitionOf userId (CharacterProfile.gameId profile) p))
      (characterProfiles db')
    = filter (fun p => negb (partitionOf userId (CharacterProfile.gameId profile) p))
        (characterProfiles db) /\
    characterEquippedItems db' = characterEquippedItems db.
Proof.
  intros Hnd Hrun.
  destruct (activateCharacterProfile_one_active _ _ _ _ Hnd Hrun)
    as (profile & Hin & Hid & Hu & Hone).
  exists profile. split; [exact Hin|]. split; [exact Hid|]. split; [exact Hu|].
  split; [exact Hone|].
  rewrite activateCharacterProfile_run in Hrun.
  destruct (find _ (characterProfiles db)) as [found|] eqn:E; [|discriminate].
  injection Hrun as <-.
  assert (found = profile) as ->.
  { apply find_some in E. destruct E as [Hin' Hp]. apply andb_true_iff in Hp.
    destruct Hp as [Hid' _]. apply String.eqb_eq in Hid'.
    apply (NoDup_map_injective CharacterProfile.id _ _ _ Hnd Hin' Hin). congruence. }
  assert (Hpart : partitionOf userId (CharacterProfile.gameId profile) profile = true).
  { unfold partitionOf. rewrite Hu, String.eqb_refl. simpl. now apply nullable_eqb_eq. }
  simpl. split; [|split; [|reflexivity]].
  - rewrite map_replace_first by reflexivity.
    unfold updateMany. rewrite map_map. apply map_ext. intros a.
    now destruct (_ && _).
  - rewrite replace_first_updateMany.
    2:{ unfold updateMany. rewrite map_map.
        erewrite map_ext; [exact Hnd|]. intros a. simpl. now destruct (_ && _). }
    unfold updateMany. rewrite map_map. apply filter_map_unchanged.
    + intros a Ha Hq. apply negb_true_iff in Hq. rewrite Hq. simpl.
      destruct (String.eqb (CharacterProfile.id a) profileId) eqn:Ea; [|reflexivity].
      apply String.eqb_eq in Ea.
      assert (a = profile)
        by (apply (NoDup_map_injective CharacterProfile.id _ _ _ Hnd Ha Hin); congruence).
      subst a. congruence.
    + intros a _. destruct (_ && _); simpl;
        destruct (String.eqb (CharacterProfile.id a) profileId); reflexivity.
Qed.

Lemma activateCharacterProfile_exclusive_witness :
  exists profile,
    activeIn "demo" (CharacterProfile.gameId profile)
      (snd (activateCharacterProfile "demo" "p2" Demo.seed))
    = [set_isActive true profile].
Proof.
  destruct (activateCharacterProfile_exclusive "demo" "p2" Demo.seed
              (snd (activateCharacterProfile "demo" "p2" Demo.seed))
              ltac:(simpl; repeat constructor; simpl; intuition discriminate)
              ltac:(vm_compute; reflexivity))
    as (profile & _ & _ & _ & Hone & _).
  exists profile. exact Hone.
Defined.

(** *** Names *)

Lemma createCharacterProfile_name_check (userId : string)
  (dto : CreateCharacterProfileDto.t) (db : Db) :
  let taken :=
    find (fun p => String.eqb (CharacterProfile.userId p) userId
                   && String.eqb (CharacterProfile.name p) (CreateCharacterProfileDto.name dto)
                   && nullable_eqb (CharacterProfile.gameId p)
                        (if truthy (CreateCharacterProfileDto.gameId dto)
                         then CreateCharacterProfileDto.gameId dto else None))
         (characterProfiles db) in
  match createCharacterProfile userId dto db with
  | (inr _, _) => taken = None
  | (inl (ConflictException _), db') => taken <> None /\ db' = db
  | (inl _, db') => db' = db
  end.
Proof.
  intros taken. unfold createCharacterProfile.
  set (check :=
    if truthy (CreateCharacterProfileDto.gameId dto)
    then
      game <- gets (fun db0 =>
        find (fun g => nullable_eqb (Some (Game.id g)) (CreateCharacterProfileDto.gameId dto)
                       && Game.isActive g) (games db0)) ;;
      match game with
      | None => throw (BadRequestException Game_not_found_or_inactive)
      | Some _ => ret tt
      end
    else ret tt).
  assert (Hcheck : snd (check db) = db /\
                   forall e, fst (check db) = inl e ->
                             e = BadRequestException Game_not_found_or_inactive).
  { unfold check. destruct (truthy _); [|split; [reflexivity|discriminate]].
    unfold bind, gets. simpl. destruct (find _ (games db)); simpl.
    - split; [reflexivity|discriminate].
    - split; [reflexivity|]. now intros e [= <-]. }
  destruct Hcheck as [Hdb He].
  unfold bind at 1. destruct (check db) as [[e|[]] db1]; simpl in Hdb; subst db1.
  { now rewrite (He e eq_refl). }
  unfold bind at 1, gets at 1. fold taken.
  destruct taken; [split; [discriminate|reflexivity]|].
  unfold bind at 1, gets at 1.
  match goal with |- context [negb ?b] => destruct b end; [|reflexivity].
  unfold bind, freshId, modify, ret. simpl. reflexivity.
Qed.

(** X16. [createCharacterProfile] keeps the names of a user distinct within
    a game and platform-wide: when no two profiles of a user have the same
    name for the same game, a created profile (of a request whose [gameId]
    is not the empty string) leaves that so; and the answer "Character with
    name ... already exists" is given only when the user has a profile of
    that name for that game, and writes nothing. *)
Theorem createCharacterProfile_names_distinct (userId : string)
  (dto : CreateCharacterProfileDto.t) (db db' : Db) :
  (forall profile,
     createCharacterProfile userId dto db = (inr profile, db') ->
     CreateCharacterProfileDto.gameId dto <> Some "" ->
     names_distinct db ->
     names_distinct db') /\
  (forall m,
     createCharacterProfile userId dto db = (inl (ConflictException m), db') ->
     db' = db /\
     exists p, In p (characterProfiles db) /\
               CharacterProfile.userId p = userId /\
               CharacterProfile.name p = CreateCharacterProfileDto.name dto /\
               CharacterProfile.gameId p
               = (if truthy (CreateCharacterProfileDto.gameId dto)
                  then CreateCharacterProfileDto.gameId dto else None)).
Proof.
  pose proof (createCharacterProfile_name_check userId dto db) as Hcheck.
  simpl in Hcheck. split.
  - intros profile Hrun Hgame Hnd. rewrite Hrun in Hcheck.
    destruct (createCharacterProfile_adds_active _ _ _ _ _ Hrun) as (-> & Hrows & _).
    unfold names_distinct. rewrite Hrows, map_app. simpl.
    apply NoDup_snoc; [exact Hnd|]. intros Hin.
    apply in_map_iff in Hin. destruct Hin as (p & Hp & Hin).
    pose proof (find_none _ _ Hcheck _ Hin) as Hnone. simpl in Hnone.
    unfold scopedName in Hp. simpl in Hp. injection Hp as Hu Hg Hn.
    rewrite Hu, Hn, !String.eqb_refl in Hnone. simpl in Hnone.
    assert (Hsame : nullable_eqb (CharacterProfile.gameId p)
                      (if truthy (CreateCharacterProfileDto.gameId dto)
                       then CreateCharacterProfileDto.gameId dto else None) = true).
    { apply nullable_eqb_eq. rewrite Hg.
      destruct (CreateCharacterProfileDto.gameId dto) as [g|]; [|reflexivity].
      simpl. destruct (String.eqb g "") eqn:E; [|reflexivity].
      apply String.eqb_eq in E. subst g. now destruct Hgame. }
    congruence.
  - intros m Hrun. rewrite Hrun in Hcheck. destruct Hcheck as [Htaken ->].
    split; [reflexivity|].
    destruct (find _ (characterProfiles db)) as [p|] eqn:E; [|now destruct Htaken].
    apply find_some in E. destruct E as [Hin Hp].
    apply andb_true_iff in Hp. destruct Hp as [Hp Hg].
    apply andb_true_iff in Hp. destruct Hp as [Hu Hn].
    exists p. repeat split; [exact Hin | now apply String.eqb_eq | now apply String.eqb_eq
                            | now apply nullable_eqb_eq].
Qed.

Lemma createCharacterProfile_names_distinct_witness :
  exists p, In p (characterProfiles Demo.seed) /\
            CharacterProfile.userId p = "demo" /\
            CharacterProfile.name p = "Ghost_Warrior" /\
            CharacterProfile.gameId p = Some "cod".
Proof.
  apply (proj2 (createCharacterProfile_names_distinct "demo"
                  (CreateCharacterProfileDto.mk "Ghost_Warrior" (Some "cod"))
                  Demo.seed Demo.seed)
           (Character_with_name_already_exists "Ghost_Warrior" true)).
  vm_compute. reflexivity.
Defined.

Lemma updateCharacterProfile_run (userId profileId : string)
  (dto : UpdateCharacterProfileDto.t) (db : Db) :
  let name := UpdateCharacterProfileDto.name dto in
  updateCharacterProfile userId profileId dto db =
  match find (fun p => String.eqb (CharacterProfile.id p) profileId
                       && String.eqb (CharacterProfile.userId p) userId)
             (characterProfiles db) with
  | None => (inl (NotFoundException Character_profile_not_found), db)
  | Some existingProfile =>
    match
      (if truthy name
          && negb (nullable_eqb name (Some (CharacterProfile.name existingProfile)))
       then
         find (fun p => String.eqb (CharacterProfile.userId p) userId
                        && nullable_eqb (Some (CharacterProfile.name p)) name
                        && nullable_eqb (CharacterProfile.gameId p)
                             (CharacterProfile.gameId existingProfile)
                        && negb (String.eqb (CharacterProfile.id p) profileId))
              (characterProfiles db)
       else None)
    with
    | Some _ =>
      (inl (ConflictException
              (Character_with_name_already_exists (or_else name "")
                 (truthy (CharacterProfile.gameId existingProfile)))), db)
    | None =>
      match find (fun p => String.eqb (CharacterProfile.id p) profileId)
                 (characterProfiles db) with
      | None => (inl (PrismaError "P2025"), db)
      | Some target =>
        (inr (renamed name target),
         with_characterProfiles
           (replace_first (fun p => String.eqb (CharacterProfile.id p) profileId)
              (renamed name) (characterProfiles db)) db)
      end
    end
  end.
Proof.
  intros name. unfold updateCharacterProfile. fold name.
  unfold bind at 1, gets at 1.
  destruct (find _ (characterProfiles db)) as [existingProfile|]; [|reflexivity].
  unfold bind at 1.
  destruct (truthy name
            && negb (nullable_eqb name (Some (CharacterProfile.name existingProfile)))).
  - unfold bind at 1, gets at 1.
    destruct (find _ (characterProfiles db)); [reflexivity|].
    unfold ret at 1. unfold bind at 1, gets at 1.
    destruct (find _ (characterProfiles db)); reflexivity.
  - unfold ret at 1. unfold bind at 1, gets at 1.
    destruct (find _ (characterProfiles db)); reflexivity.
Qed.

Lemma renamed_same (name : option string) (p : CharacterProfile.t) :
  truthy name && negb (nullable_eqb name (Some (CharacterProfile.name p))) = false ->
  renamed name p = p.
Proof.
  unfold renamed. destruct (truthy name) eqn:Et; [|reflexivity]. simpl.
  intros H. apply negb_false_iff in H. apply nullable_eqb_eq in H. subst name.
  simpl in *. destruct (String.eqb (CharacterProfile.name p) ""); [discriminate|].
  now destruct p.
Qed.

(** X17. With ids that are a key of the profiles, [updateCharacterProfile]
    keeps the names of a user distinct within a game and platform-wide; an
    accepted update is of a profile of the user, gives it the name of the
    request when there is one, changes no id, owner, game or active flag,
    leaves every other profile and all equipment as they were; a refused
    update changes nothing. *)
Theorem updateCharacterProfile_renames (userId profileId : string)
  (dto : UpdateCharacterProfileDto.t) (db db' : Db) :
  NoDup (map CharacterProfile.id (characterProfiles db)) ->
  (forall e, updateCharacterProfile userId profileId dto db = (inl e, db') -> db' = db) /\
  (forall updated,
     updateCharacterProfile userId profileId dto db = (inr updated, db') ->
     In updated (characterProfiles db') /\
     CharacterProfile.id updated = profileId /\
     CharacterProfile.userId updated = userId /\
     (forall name, UpdateCharacterProfileDto.name dto = Some name -> name <> "" ->
                   CharacterProfile.name updated = name) /\
     map unnamed (characterProfiles db') = map unnamed (characterProfiles db) /\
     filter (fun p => negb (String.eqb (CharacterProfile.id p) profileId))
       (characterProfiles db')
     = filter (fun p => negb (String.eqb (CharacterProfile.id p) profileId))
         (characterProfiles db) /\
     characterEquippedItems db' = characterEquippedItems db /\
     (names_distinct db -> names_distinct db')).
Proof.
  intros Hnd. pose proof (updateCharacterProfile_run userId profileId dto db) as Hrun.
  cbv zeta in Hrun. rewrite Hrun. clear Hrun.
  remember (UpdateCharacterProfileDto.name dto) as name eqn:Hname.
  destruct (find _ (characterProfiles db)) as [existingProfile|] eqn:E.
  2:{ split; [now intros e [= _ <-] | discriminate]. }
  pose proof (find_some _ _ E) as [Hin Hkey].
  apply andb_true_iff in Hkey. destruct Hkey as [Hid Hu].
  apply String.eqb_eq in Hid. apply String.eqb_eq in Hu.
  assert (Htarget : find (fun p => String.eqb (CharacterProfile.id p) profileId)
                      (characterProfiles db) = Some existingProfile).
  { rewrite <- Hid. now apply find_unique_key. }
  rewrite Htarget.
  match goal with |- context [match ?c with Some _ => _ | None => _ end] =>
    destruct c as [duplicate|] eqn:Edup end.
  { split; [now intros e [= _ <-] | discriminate]. }
  split; [discriminate|]. intros updated [= <- <-]. simpl.
  assert (Hmap : replace_first (fun p => String.eqb (CharacterProfile.id p) profileId)
                   (renamed name) (characterProfiles db)
                 = map (fun p => if String.eqb (CharacterProfile.id p) profileId
                                 then renamed name p else p) (characterProfiles db))
    by now apply replace_first_updateMany.
  assert (Hkeep : forall p, unnamed (renamed name p) = unnamed p)
    by (intros p; unfold renamed; now destruct (truthy name)).
  split.
  { rewrite Hmap. apply in_map_iff. exists existingProfile.
    rewrite Hid, String.eqb_refl. now split. }
  split; [unfold renamed; now destruct (truthy name)|].
  split; [unfold renamed; now destruct (truthy name)|].
  split.
  { intros n Hn Hne. unfold renamed. rewrite Hn. simpl.
    apply String.eqb_neq in Hne. now rewrite Hne. }
  split.
  { apply map_replace_first. exact Hkeep. }
  split.
  { rewrite Hmap. apply filter_map_unchanged.
    - intros a _ Ha. apply negb_true_iff in Ha. now rewrite Ha.
    - intros a _. destruct (String.eqb (CharacterProfile.id a) profileId) eqn:Ea;
        [|now rewrite Ea].
      unfold renamed. destruct (truthy name); simpl; now rewrite Ea. }
  split; [reflexivity|].
  intros Hnames. unfold names_distinct. simpl. rewrite Hmap, map_map.
  destruct (truthy name
            && negb (nullable_eqb name (Some (CharacterProfile.name existingProfile))))
    eqn:Echange.
  - apply NoDup_map_NoDup_ForallPairs; [|exact (NoDup_map_inv _ _ Hnd)].
    apply andb_true_iff in Echange. destruct Echange as [Ename _].
    assert (Hclash : forall x y,
              In x (characterProfiles db) -> In y (characterProfiles db) ->
              CharacterProfile.id x = profileId -> CharacterProfile.id y <> profileId ->
              scopedName (renamed name x) = scopedName y -> False).
    { intros x y Hx Hy Hxid Hyid Heq.
      assert (x = existingProfile) as ->
        by (apply (NoDup_map_injective CharacterProfile.id _ _ _ Hnd Hx Hin); congruence).
      pose proof (find_none _ _ Edup _ Hy) as Hnone. cbv beta in Hnone.
      unfold renamed in Heq. rewrite Ename in Heq. unfold scopedName in Heq.
      simpl in Heq. injection Heq as Hyu Hyg Hyn.
      rewrite <- Hyu, Hu, String.eqb_refl in Hnone.
      assert (H1 : nullable_eqb (Some (CharacterProfile.name y)) name = true).
      { apply nullable_eqb_eq. rewrite <- Hyn. destruct name as [n|]; [|discriminate].
        simpl in *. now destruct (String.eqb n ""). }
      assert (H2 : nullable_eqb (CharacterProfile.gameId y)
                     (CharacterProfile.gameId existingProfile) = true)
        by now apply nullable_eqb_eq.
      apply String.eqb_neq in Hyid. rewrite H1, H2, Hyid in Hnone. discriminate. }
    intros x y Hx Hy Heq.
    destruct (String.eqb (CharacterProfile.id x) profileId) eqn:Ex;
      destruct (String.eqb (CharacterProfile.id y) profileId) eqn:Ey.
    + apply String.eqb_eq in Ex, Ey.
      apply (NoDup_map_injective CharacterProfile.id _ _ _ Hnd Hx Hy). congruence.
    + apply String.eqb_eq in Ex. apply String.eqb_neq in Ey.
      now destruct (Hclash x y Hx Hy Ex Ey Heq).
    + apply String.eqb_neq in Ex. apply String.eqb_eq in Ey.
      now destruct (Hclash y x Hy Hx Ey Ex (eq_sym Heq)).
    + exact (NoDup_map_injective scopedName _ _ _ Hnames Hx Hy Heq).
  - erewrite map_ext_in; [exact Hnames|]. intros a Ha. simpl.
    destruct (String.eqb (CharacterProfile.id a) profileId) eqn:Ea; [|reflexivity].
    apply String.eqb_eq in Ea.
    assert (a = existingProfile) as ->
      by (apply (NoDup_map_injective CharacterProfile.id _ _ _ Hnd Ha Hin); congruence).
    now rewrite renamed_same.
Qed.

Lemma updateCharacterProfile_renames_witness :
  CharacterProfile.name (CharacterProfile.mk "p1" "demo" (Some "cod") "Night_Owl" true)
  = "Night_Owl" /\
  names_distinct
    (snd (updateCharacterProfile "demo" "p1" (UpdateCharacterProfileDto.mk (Some "Night_Owl"))
            Demo.seed)).
Proof.
  destruct (proj2 (updateCharacterProfile_renames "demo" "p1"
                     (UpdateCharacterProfileDto.mk (Some "Night_Owl")) Demo.seed
                     (snd (updateCharacterProfile "demo" "p1"
                             (UpdateCharacterProfileDto.mk (Some "Night_Owl")) Demo.seed))
                     ltac:(simpl; repeat constructor; simpl; intuition discriminate))
              (CharacterProfile.mk "p1" "demo" (Some "cod") "Night_Owl" true)
              ltac:(vm_compute; reflexivity))
    as (_ & _ & _ & Hname & _ & _ & _ & Hnames).
  split.
  - apply (Hname "Night_Owl"); [reflexivity | discriminate].
  - apply Hnames. unfold names_distinct. simpl.
    repeat constructor; simpl; intuition discriminate.
Defined.

(** *** Deleting a profile *)

Lemma deleteCharacterProfile_run (userId profileId : string) (db : Db) :
  deleteCharacterProfile userId profileId db =
  match find (fun p => String.eqb (CharacterProfile.id p) profileId
                       && String.eqb (CharacterProfile.userId p) userId)
             (characterProfiles db) with
  | None => (inl (NotFoundException Character_profile_not_found), db)
  | Some profile =>
    (inr (CharacterProfile.name profile),
     with_characterEquippedItems
       (deleteMany (fun e => String.eqb (CharacterEquippedItem.profileId e) profileId)
          (characterEquippedItems db))
       (with_characterProfiles
          (remove_first (fun p => String.eqb (CharacterProfile.id p) profileId)
             (characterProfiles db)) db))
  end.
Proof.
  unfold deleteCharacterProfile, bind, gets, throw, modify, ret.
  now destruct (find _ (characterProfiles db)).
Qed.

Lemma deleteMany_disjoint {A} (p q : A -> bool) (l : list A) :
  (forall a, q a = true -> p a = false) ->
  filter q (deleteMany p l) = filter q l.
Proof.
  intros H. unfold deleteMany. induction l as [|a l IH]; simpl; [reflexivity|].
  destruct (q a) eqn:Eq.
  - rewrite (H a Eq). simpl. now rewrite Eq, IH.
  - destruct (p a); simpl; [exact IH | now rewrite Eq, IH].
Qed.

Lemma deleteMany_exclusive (q : CharacterEquippedItem.t -> bool) (db db' : Db) :
  characterEquippedItems db' = deleteMany q (characterEquippedItems db) ->
  equipment_exclusive db -> equipment_exclusive db'.
Proof.
  intros Hrows [Hslot Hitem]. unfold equipment_exclusive. rewrite Hrows. split.
  - intros profileId slot. rewrite filter_deleteMany_swap.
    eapply Nat.le_trans; [apply deleteMany_length | apply Hslot].
  - intros profileId itemId. rewrite filter_deleteMany_swap.
    eapply Nat.le_trans; [apply deleteMany_length | apply Hitem].
Qed.

(** X18. With ids that are a key of the profiles, an accepted deletion is
    of a profile of the user; it removes that profile and every item
    equipped on it, leaves the other profiles and their equipment as they
    were, activates no other profile in its place, and keeps names distinct
    and the equipment exclusive. A refused deletion is answered with
    "Character profile not found" and changes nothing. *)
Theorem deleteCharacterProfile_cascades (userId profileId : string) (db db' : Db) :
  NoDup (map CharacterProfile.id (characterProfiles db)) ->
  (forall e, deleteCharacterProfile userId profileId db = (inl e, db') ->
     e = NotFoundException Character_profile_not_found /\ db' = db) /\
  (forall name,
     deleteCharacterProfile userId profileId db = (inr name, db') ->
     (exists profile,
        In profile (characterProfiles db) /\
        CharacterProfile.id profile = profileId /\
        CharacterProfile.userId profile = userId /\
        CharacterProfile.name profile = name) /\
     characterProfiles db'
     = filter (fun p => negb (String.eqb (CharacterProfile.id p) profileId))
         (characterProfiles db) /\
     equippedOn profileId db' = [] /\
     (forall other, other <> profileId -> equippedOn other db' = equippedOn other db) /\
     (forall user gameId,
        activeIn user gameId db'
        = filter (fun p => negb (String.eqb (CharacterProfile.id p) profileId))
            (activeIn user gameId db)) /\
     (names_distinct db -> names_distinct db') /\
     (equipment_exclusive db -> equipment_exclusive db')).
Proof.
  intros Hnd. rewrite deleteCharacterProfile_run.
  destruct (find _ (characterProfiles db)) as [profile|] eqn:E.
  2:{ split; [now intros e [= <- <-] | discriminate]. }
  split; [discriminate|]. intros name [= <- <-].
  pose proof (find_some _ _ E) as [Hin Hkey].
  apply andb_true_iff in Hkey. destruct Hkey as [Hid Hu].
  apply String.eqb_eq in Hid. apply String.eqb_eq in Hu.
  assert (Hrows : remove_first (fun p => String.eqb (CharacterProfile.id p) profileId)
                    (characterProfiles db)
                  = filter (fun p => negb (String.eqb (CharacterProfile.id p) profileId))
                      (characterProfiles db))
    by now apply remove_first_filter.
  split; [now exists profile|].
  split; [exact Hrows|].
  split; [unfold equippedOn; simpl; apply filter_deleteMany_same|].
  split.
  { intros other Hother. unfold equippedOn. simpl. apply deleteMany_disjoint.
    intros a Ha. apply String.eqb_eq in Ha. rewrite Ha. apply String.eqb_neq. exact Hother. }
  split.
  { intros user gameId. unfold activeIn. simpl. rewrite Hrows.
    exact (filter_deleteMany_swap _
             (fun p => String.eqb (CharacterProfile.id p) profileId) _). }
  split.
  { unfold names_distinct. simpl. rewrite Hrows. apply NoDup_map_filter_any. }
  apply deleteMany_exclusive with
    (q := fun e => String.eqb (CharacterEquippedItem.profileId e) profileId).
  reflexivity.
Qed.

Lemma deleteCharacterProfile_cascades_witness :
  equippedOn "p1" (snd (deleteCharacterProfile "demo" "p1" Demo.afterSkin)) = [] /\
  activeIn "demo" (Some "cod") (snd (deleteCharacterProfile "demo" "p1" Demo.afterSkin))
  = filter (fun p => negb (String.eqb (CharacterProfile.id p) "p1"))
      (activeIn "demo" (Some "cod") Demo.afterSkin).
Proof.
  destruct (proj2 (deleteCharacterProfile_cascades "demo" "p1" Demo.afterSkin
                     (snd (deleteCharacterProfile "demo" "p1" Demo.afterSkin))
                     ltac:(simpl; repeat constructor; simpl; intuition discriminate))
              "Ghost_Warrior" ltac:(vm_compute; reflexivity))
    as (_ & _ & Hnone & _ & Hactive & _).
  split; [exact Hnone | apply Hactive].
Defined.

(** *** Taking an item off *)

Lemma remove_first_only {A} (key : A -> string) (q : A -> bool) (l : list A) (e : A) :
  NoDup (map key l) ->
  (List.length (filter q l) <= 1)%nat ->
  find q l = Some e ->
  filter q l = [e] /\
  remove_first (fun x => String.eqb (key x) (key e)) l = deleteMany q l.
Proof.
  intros Hnd Hone Hfind.
  pose proof (find_some _ _ Hfind) as [Hin Hq].
  assert (Hrows : filter q l = [e]).
  { rewrite find_filter_hd in Hfind.
    destruct (filter q l) as [|a [|b rest]]; simpl in *; try discriminate; try lia.
    now injection Hfind as ->. }
  split; [exact Hrows|].
  rewrite remove_first_filter by exact Hnd. unfold deleteMany.
  apply filter_ext_in. intros x Hx. f_equal.
  destruct (q x) eqn:Ex.
  - assert (Hx' : In x (filter q l)) by (apply filter_In; now split).
    rewrite Hrows in Hx'. destruct Hx' as [<-|[]]. apply String.eqb_refl.
  - apply String.eqb_neq. intros Heq.
    assert (x = e) by exact (NoDup_map_injective key _ _ _ Hnd Hx Hin Heq).
    subst x. congruence.
Qed.

(** X19. With ids that are a key of the equipped items and at most one row
    per item of a profile, an accepted [unequipItem] is on a profile of the
    user; it answers with the slot of the row of the item, removes that row
    and no other, so that the item is no longer equipped on the profile, and
    leaves the inventory as it was. The answers "not found" change
    nothing. *)
Theorem unequipItem_removes (userId profileId itemId : string) (db db' : Db) :
  NoDup (map CharacterEquippedItem.id (characterEquippedItems db)) ->
  equipment_exclusive db ->
  (forall m, unequipItem userId profileId itemId db = (inl (NotFound m), db') -> db' = db) /\
  (forall m, unequipItem userId profileId itemId db
             = (inl (Raised (NotFoundException m)), db') -> db' = db) /\
  (forall slot,
     unequipItem userId profileId itemId db = (inr slot, db') ->
     (exists profile,
        In profile (characterProfiles db) /\
        CharacterProfile.id profile = profileId /\
        CharacterProfile.userId profile = userId) /\
     (exists row,
        filter (ofItem profileId itemId) (characterEquippedItems db) = [row] /\
        CharacterEquippedItem.slot row = slot) /\
     characterEquippedItems db'
     = deleteMany (ofItem profileId itemId) (characterEquippedItems db) /\
     filter (ofItem profileId itemId) (characterEquippedItems db') = [] /\
     equipment_exclusive db' /\
     userInventories db' = userInventories db /\
     characterProfiles db' = characterProfiles db).
Proof.
  intros Hnd Hex. unfold unequipItem, deleteEquipped.
  change (fun e => String.eqb (CharacterEquippedItem.profileId e) profileId
                   && String.eqb (CharacterEquippedItem.itemId e) itemId)
    with (ofItem profileId itemId).
  destruct (find _ (characterProfiles db)) as [profile|] eqn:Ep.
  2:{ repeat split; try discriminate. now intros m [= _ <-]. }
  destruct (find (ofItem profileId itemId) (characterEquippedItems db))
    as [equippedItem|] eqn:Ee.
  2:{ repeat split; try discriminate. now intros m [= _ <-]. }
  destruct (find _ (storeItems db)) as [storeItem|].
  2:{ repeat split; discriminate. }
  split; [discriminate|]. split; [discriminate|]. intros slot [= <- <-].
  destruct (remove_first_only CharacterEquippedItem.id _ _ _ Hnd
              (proj2 Hex profileId itemId) Ee) as [Hrows Hdel].
  pose proof (find_some _ _ Ep) as [Hin Hkey].
  apply andb_true_iff in Hkey. destruct Hkey as [Hid Hu].
  apply String.eqb_eq in Hid. apply String.eqb_eq in Hu.
  split; [now exists profile|].
  split; [now exists equippedItem|].
  simpl. rewrite Hdel.
  split; [reflexivity|].
  split; [apply filter_deleteMany_same|].
  split; [|split; reflexivity].
  apply deleteMany_exclusive with (q := ofItem profileId itemId) (db := db);
    [reflexivity | exact Hex].
Qed.

(** X20. With ids that are a key of the equipped items and at most one row
    per slot of a profile, an accepted [unequipSlot] is on a profile of the
    user; it answers with the name of the item of the row of the slot,
    removes that row and no other, so that the slot is empty, and leaves the
    inventory as it was. The answers "not found" change nothing. *)
Theorem unequipSlot_clears (userId profileId slot : string) (db db' : Db) :
  NoDup (map CharacterEquippedItem.id (characterEquippedItems db)) ->
  equipment_exclusive db ->
  (forall m, unequipSlot userId profileId slot db = (inl (NotFound m), db') -> db' = db) /\
  (forall m, unequipSlot userId profileId slot db
             = (inl (Raised (NotFoundException m)), db') -> db' = db) /\
  (forall itemName,
     unequipSlot userId profileId slot db = (inr itemName, db') ->
     (exists profile,
        In profile (characterProfiles db) /\
        CharacterProfile.id profile = profileId /\
        CharacterProfile.userId profile = userId) /\
     (exists row storeItem,
        filter (inSlot profileId slot) (characterEquippedItems db) = [row] /\
        storeItems_find (storeItems db) (CharacterEquippedItem.itemId row) = Some storeItem /\
        StoreItem.name storeItem = itemName) /\
     characterEquippedItems db'
     = deleteMany (inSlot profileId slot) (characterEquippedItems db) /\
     filter (inSlot profileId slot) (characterEquippedItems db') = [] /\
     equipment_exclusive db' /\
     userInventories db' = userInventories db /\
     characterProfiles db' = characterProfiles db).
Proof.
  intros Hnd Hex. unfold unequipSlot, deleteEquipped.
  change (fun e => String.eqb (CharacterEquippedItem.profileId e) profileId
                   && String.eqb (CharacterEquippedItem.slot e) slot)
    with (inSlot profileId slot).
  destruct (find _ (characterProfiles db)) as [profile|] eqn:Ep.
  2:{ repeat split; try discriminate. now intros m [= _ <-]. }
  destruct (find (inSlot profileId slot) (characterEquippedItems db))
    as [equippedItem|] eqn:Ee.
  2:{ repeat split; try discriminate. now intros m [= _ <-]. }
  destruct (find _ (storeItems db)) as [storeItem|] eqn:Es.
  2:{ repeat split; discriminate. }
  split; [discriminate|]. split; [discriminate|]. intros itemName [= <- <-].
  destruct (remove_first_only CharacterEquippedItem.id _ _ _ Hnd
              (proj1 Hex profileId slot) Ee) as [Hrows Hdel].
  pose proof (find_some _ _ Ep) as [Hin Hkey].
  apply andb_true_iff in Hkey. destruct Hkey as [Hid Hu].
  apply String.eqb_eq in Hid. apply String.eqb_eq in Hu.
  split; [now exists profile|].
  split; [now exists equippedItem, storeItem|].
  simpl. rewrite Hdel.
  split; [reflexivity|].
  split; [apply filter_deleteMany_same|].
  split; [|split; reflexivity].
  apply deleteMany_exclusive with (q := inSlot profileId slot) (db := db);
    [reflexivity | exact Hex].
Qed.

Lemma equipment_exclusive_single (row : CharacterEquippedItem.t) (db : Db) :
  characterEquippedItems db = [row] -> equipment_exclusive db.
Proof.
  intros H. unfold equipment_exclusive. rewrite H.
  split; intros; simpl;
    match goal with |- context [if ?b then _ else _] => destruct b end; simpl; lia.
Qed.

Lemma unequipItem_removes_witness :
  filter (ofItem "p1" "ak47")
    (characterEquippedItems (snd (unequipItem "demo" "p1" "ak47" Demo.afterSkin))) = [].
Proof.
  destruct (proj2 (proj2 (unequipItem_removes "demo" "p1" "ak47" Demo.afterSkin
                            (snd (unequipItem "demo" "p1" "ak47" Demo.afterSkin))
                            ltac:(simpl; repeat constructor; simpl; intuition discriminate)
                            (equipment_exclusive_single Demo.skinRow Demo.afterSkin
                               eq_refl)))
              "primary" ltac:(vm_compute; reflexivity))
    as (_ & _ & _ & Hnone & _).
  exact Hnone.
Defined.

Lemma unequipSlot_clears_witness :
  filter (inSlot "p1" "primary")
    (characterEquippedItems (snd (unequipSlot "demo" "p1" "primary" Demo.afterSkin))) = [].
Proof.
  destruct (proj2 (proj2 (unequipSlot_clears "demo" "p1" "primary" Demo.afterSkin
                            (snd (unequipSlot "demo" "p1" "primary" Demo.afterSkin))
                            ltac:(simpl; repeat constructor; simpl; intuition discriminate)
                            (equipment_exclusive_single Demo.skinRow Demo.afterSkin
                               eq_refl)))
              "Dragon's Breath AK-47" ltac:(vm_compute; reflexivity))
    as (_ & _ & _ & Hnone & _).
  exact Hnone.
Defined.

(** *** Putting an item on *)

(** X21. An accepted [equipItem] is on a profile of the user and of an item
    that the user owns in a row that is not consumed; the item is
    NON_CONSUMABLE and, when it belongs to a game, that game is the game of
    the profile; the row written has the slot of the request when that is
    not empty, else the slot determined from the item. The equipment of the
    other profiles, the inventory and the profiles stay as they were:
    equipping takes nothing out of the inventory. *)
Theorem equipItem_accepted (userId profileId : string) (dto : EquipItemDto.t)
  (db db' : Db) (row : CharacterEquippedItem.t) :
  equipItem userId profileId dto db = (inr row, db') ->
  (exists profile inventoryItem storeItem,
     In profile (characterProfiles db) /\
     CharacterProfile.id profile = profileId /\
     CharacterProfile.userId profile = userId /\
     In inventoryItem (userInventories db) /\
     UserInventory.userId inventoryItem = userId /\
     UserInventory.itemId inventoryItem = EquipItemDto.itemId dto /\
     UserInventory.isConsumed inventoryItem = false /\
     storeItems_find (storeItems db) (EquipItemDto.itemId dto) = Some storeItem /\
     StoreItem.type storeItem = NON_CONSUMABLE /\
     (truthy (StoreItem.gameId storeItem) = true ->
      StoreItem.gameId storeItem = CharacterProfile.gameId profile) /\
     row = CharacterEquippedItem.mk (cuid (nextId db)) profileId (EquipItemDto.itemId dto)
             (or_else (EquipItemDto.slot dto) (determineSlotFromItem storeItem))) /\
  (forall other, other <> profileId -> equippedOn other db' = equippedOn other db) /\
  userInventories db' = userInventories db /\
  characterProfiles db' = characterProfiles db.
Proof.
  rewrite equipItem_run.
  destruct (find _ (characterProfiles db)) as [profile|] eqn:Ep; [|discriminate].
  destruct (find _ (userInventories db)) as [inventoryItem|] eqn:Ei; [|discriminate].
  destruct (find _ (storeItems db)) as [storeItem|] eqn:Es; [|discriminate].
  rewrite validateItemCompatibility_run. simpl.
  destruct (truthy (StoreItem.gameId storeItem)
            && negb (nullable_eqb (StoreItem.gameId storeItem)
                       (CharacterProfile.gameId profile))) eqn:Ec; [discriminate|].
  destruct (StoreItem.type storeItem) eqn:Et; [discriminate|].
  intros [= <- <-].
  pose proof (find_some _ _ Ep) as [Hin Hkey].
  apply andb_true_iff in Hkey. destruct Hkey as [Hid Hu].
  apply String.eqb_eq in Hid. apply String.eqb_eq in Hu.
  pose proof (find_some _ _ Ei) as [Hin' Hkey'].
  apply andb_true_iff in Hkey'. destruct Hkey' as [Hkey' Hc].
  apply andb_true_iff in Hkey'. destruct Hkey' as [Hiu Hii].
  apply String.eqb_eq in Hiu. apply String.eqb_eq in Hii.
  apply negb_true_iff in Hc. rewrite Hii in Es.
  split.
  { exists profile, inventoryItem, storeItem.
    repeat split; try assumption.
    intros Hg. rewrite Hg in Ec. simpl in Ec. apply negb_false_iff in Ec.
    now apply nullable_eqb_eq. }
  split; [|split; reflexivity].
  intros other Hother. unfold equippedOn. simpl.
  rewrite filter_app. simpl.
  assert (Hne : String.eqb profileId other = false) by (apply String.eqb_neq; congruence).
  rewrite Hne, app_nil_r.
  assert (Hdis : forall x a, (inSlot profileId x a = true ->
                              String.eqb (CharacterEquippedItem.profileId a) other = false) /\
                             (ofItem profileId x a = true ->
                              String.eqb (CharacterEquippedItem.profileId a) other = false)).
  { intros x a. unfold inSlot, ofItem.
    split; intros H; apply andb_true_iff in H; destruct H as [H _];
      apply String.eqb_eq in H; now rewrite H. }
  rewrite deleteMany_disjoint.
  - apply deleteMany_disjoint. intros a Ha.
    destruct (inSlot profileId _ a) eqn:E; [|reflexivity].
    apply (proj1 (Hdis _ a)) in E. congruence.
  - intros a Ha. destruct (ofItem profileId _ a) eqn:E; [|reflexivity].
    apply (proj2 (Hdis _ a)) in E. congruence.
Qed.

Lemma equipItem_accepted_witness :
  userInventories Demo.afterSkin = userInventories Demo.armory /\
  characterProfiles Demo.afterSkin = characterProfiles Demo.armory.
Proof.
  destruct (equipItem_accepted "demo" "p1" Demo.equipSkin Demo.armory Demo.afterSkin
              Demo.skinRow ltac:(vm_compute; reflexivity))
    as (_ & _ & Hinv & Hprofiles).
  split; [exact Hinv | exact Hprofiles].
Defined.

(** X22. The slot of an equipped item is never the empty string: a slot of
    the request that is not empty is taken as it is, and otherwise the slot
    is the [slot] of the game-specific data of the item when that is not
    empty, else the one that goes with the category of the item. *)
Theorem equipmentSlot_named (slot : option string) (storeItem : StoreItem.t) :
  equipmentSlot slot storeItem <> "" /\
  (forall s, slot = Some s -> s <> "" -> equipmentSlot slot storeItem = s) /\
  (truthy slot = false ->
   equipmentSlot slot storeItem = determineSlotFromItem storeItem) /\
  (forall data s,
     StoreItem.gameSpecificData storeItem = Some data -> gsd_slot data = Some s -> s <> "" ->
     determineSlotFromItem storeItem = s) /\
  (StoreItem.gameSpecificData storeItem = None ->
   determineSlotFromItem storeItem
   = match StoreItem.category storeItem with
     | SKIN => "primary_skin"
     | UTILITY => "utility"
     | CAT_CONSUMABLE => "consumable"
     | DIGITAL_REWARD => "reward"
     | PHYSICAL_MERCH => "merchandise"
     end).
Proof.
  assert (Hor : forall o d, d <> "" -> or_else o d <> "").
  { intros [s|] d Hd; simpl; [|exact Hd].
    destruct (String.eqb s "") eqn:E; [exact Hd|]. now apply String.eqb_neq. }
  assert (Htruthy : forall o d, truthy o = true -> or_else o d <> "").
  { intros [s|] d Ht; simpl in *; [|discriminate].
    destruct (String.eqb s "") eqn:E; [discriminate|]. now apply String.eqb_neq. }
  assert (Hdet : determineSlotFromItem storeItem <> "").
  { unfold determineSlotFromItem. cbv zeta.
    destruct (truthy (gsd_slot _)) eqn:Et.
    - now apply Htruthy.
    - apply Hor. discriminate. }
  split; [now apply Hor|]. split; [|split; [|split]].
  - intros s -> Hs. unfold equipmentSlot. simpl.
    apply String.eqb_neq in Hs. now rewrite Hs.
  - intros Hs. unfold equipmentSlot. destruct slot as [s|]; [|reflexivity].
    simpl in *. apply negb_false_iff in Hs. now rewrite Hs.
  - intros data s Hdata Hslot Hs. unfold determineSlotFromItem. rewrite Hdata, Hslot.
    simpl. apply String.eqb_neq in Hs. now rewrite Hs.
  - intros Hdata. unfold determineSlotFromItem. rewrite Hdata. simpl.
    destruct (StoreItem.category storeItem); reflexivity.
Qed.

Lemma equipmentSlot_named_witness :
  equipmentSlot (Some "primary") Demo.ak47 = "primary" /\
  determineSlotFromItem Demo.ak47 = "primary_skin".
Proof.
  destruct (equipmentSlot_named (Some "primary") Demo.ak47) as (_ & Hslot & _ & _ & Hcat).
  split.
  - apply (Hslot "primary"); [reflexivity | discriminate].
  - apply Hcat. reflexivity.
Defined.

Lemma remove_first_snoc {A} (p : A -> bool) (l : list A) (x : A) :
  (forall a, In a l -> p a = false) -> p x = true -> remove_first p (l ++ [x]) = l.
Proof.
  intros Hl Hx. induction l as [|a l IH]; simpl.
  - now rewrite Hx.
  - rewrite (Hl a) by now left. f_equal. apply IH. intros b Hb. apply Hl. now right.
Qed.

Lemma find_nil_filter {A} (p : A -> bool) (l : list A) : filter p l = [] -> find p l = None.
Proof.
  intros H. now rewrite find_filter_hd, H.
Qed.

(** X23. Taking off what was just put on does not bring back what it
    displaced: when the identifier that the database generates is not the id
    of an equipped row, [unequipItem] of the item and [unequipSlot] of the
    slot, right after an accepted [equipItem], are both accepted; they
    answer with the slot of the row and with the name of the item, and both
    leave the equipment as it was before the item was equipped, less the
    rows of that slot and of that item on the profile. *)
Theorem equipItem_then_unequip (userId profileId : string) (dto : EquipItemDto.t)
  (db db1 : Db) (row : CharacterEquippedItem.t) :
  equipItem userId profileId dto db = (inr row, db1) ->
  (forall e, In e (characterEquippedItems db) ->
             CharacterEquippedItem.id e <> cuid (nextId db)) ->
  exists storeItem db2,
    storeItems_find (storeItems db) (EquipItemDto.itemId dto) = Some storeItem /\
    unequipItem userId profileId (EquipItemDto.itemId dto) db1
    = (inr (CharacterEquippedItem.slot row), db2) /\
    unequipSlot userId profileId (CharacterEquippedItem.slot row) db1
    = (inr (StoreItem.name storeItem), db2) /\
    characterEquippedItems db2
    = deleteMany (ofItem profileId (EquipItemDto.itemId dto))
        (deleteMany (inSlot profileId (CharacterEquippedItem.slot row))
           (characterEquippedItems db)).
Proof.
  intros Hrun Hfresh.
  destruct (equipItem_committed _ _ _ _ _ _ Hrun) as (Hrp & Hri & Hrows).
  rewrite equipItem_run in Hrun.
  destruct (find _ (characterProfiles db)) as [profile|] eqn:Ep; [|discriminate].
  destruct (find _ (userInventories db)) as [inventoryItem|] eqn:Ei; [|discriminate].
  destruct (find _ (storeItems db)) as [storeItem|] eqn:Es; [|discriminate].
  destruct (fst (validateItemCompatibility storeItem profile db)); [discriminate|].
  destruct (StoreItem.type storeItem); [discriminate|].
  cbv zeta in Hrun. injection Hrun as Hrow Hdb.
  assert (Hitem : UserInventory.itemId inventoryItem = EquipItemDto.itemId dto).
  { apply find_some in Ei. destruct Ei as [_ H]. apply andb_true_iff in H.
    destruct H as [H _]. apply andb_true_iff in H. destruct H as [_ H].
    now apply String.eqb_eq. }
  rewrite Hitem in Es.
  assert (Hid : CharacterEquippedItem.id row = cuid (nextId db)) by now rewrite <- Hrow.
  assert (Hprofiles : characterProfiles db1 = characterProfiles db) by now rewrite <- Hdb.
  assert (Hcat : storeItems db1 = storeItems db) by now rewrite <- Hdb.
  set (rows := deleteMany (ofItem profileId (EquipItemDto.itemId dto))
                 (deleteMany (inSlot profileId (CharacterEquippedItem.slot row))
                    (characterEquippedItems db))) in *.
  assert (Hitems : filter (ofItem profileId (EquipItemDto.itemId dto)) rows = [])
    by apply filter_deleteMany_same.
  assert (Hslots : filter (inSlot profileId (CharacterEquippedItem.slot row)) rows = []).
  { unfold rows. rewrite filter_deleteMany_swap, filter_deleteMany_same. reflexivity. }
  assert (Hofitem : ofItem profileId (EquipItemDto.itemId dto) row = true).
  { unfold ofItem. now rewrite Hrp, Hri, !String.eqb_refl. }
  assert (Hinslot : inSlot profileId (CharacterEquippedItem.slot row) row = true).
  { unfold inSlot. now rewrite Hrp, !String.eqb_refl. }
  assert (Hremove : remove_first
                      (fun e => String.eqb (CharacterEquippedItem.id e)
                                  (CharacterEquippedItem.id row))
                      (rows ++ [row]) = rows).
  { apply remove_first_snoc; [|apply String.eqb_refl].
    intros a Ha. apply String.eqb_neq. rewrite Hid. apply Hfresh.
    unfold rows, deleteMany in Ha. apply filter_In in Ha. destruct Ha as [Ha _].
    apply filter_In in Ha. tauto. }
  exists storeItem, (with_characterEquippedItems rows db1).
  split; [exact Es|]. split; [|split; [|reflexivity]].
  - unfold unequipItem, deleteEquipped. rewrite Hprofiles, Ep, Hrows, Hcat.
    change (fun e => String.eqb (CharacterEquippedItem.profileId e) profileId
                     && String.eqb (CharacterEquippedItem.itemId e) (EquipItemDto.itemId dto))
      with (ofItem profileId (EquipItemDto.itemId dto)).
    rewrite find_app_split, (find_nil_filter _ _ Hitems). simpl. rewrite Hofitem.
    rewrite Hri. unfold storeItems_find in Es. rewrite Es. now rewrite Hremove.
  - unfold unequipSlot, deleteEquipped. rewrite Hprofiles, Ep, Hrows, Hcat.
    change (fun e => String.eqb (CharacterEquippedItem.profileId e) profileId
                     && String.eqb (CharacterEquippedItem.slot e)
                          (CharacterEquippedItem.slot row))
      with (inSlot profileId (CharacterEquippedItem.slot row)).
    rewrite find_app_split, (find_nil_filter _ _ Hslots). simpl. rewrite Hinslot.
    rewrite Hri. unfold storeItems_find in Es. rewrite Es. now rewrite Hremove.
Qed.

Lemma equipItem_then_unequip_witness :
  exists storeItem db2,
    storeItems_find (storeItems Demo.armory) "ak47" = Some storeItem /\
    unequipItem "demo" "p1" "ak47" Demo.afterSkin = (inr "primary", db2) /\
    unequipSlot "demo" "p1" "primary" Demo.afterSkin = (inr (StoreItem.name storeItem), db2) /\
    characterEquippedItems db2 = [].
Proof.
  apply (equipItem_then_unequip "demo" "p1" Demo.equipSkin Demo.armory Demo.afterSkin
           Demo.skinRow).
  - vm_compute. reflexivity.
  - intros e [].
Defined.

(** X24. What was bought can be worn: with ids that are a key of the
    catalogue, right after a committed purchase of a NON_CONSUMABLE item
    that is not an instant FUNCTIONAL one, [equipItem] of that item on a
    profile of the buyer is accepted whenever the item belongs to no game or
    to the game of the profile. *)
Theorem createPurchase_then_equipItem (userId : string) (dto : CreatePurchaseDto.t)
  (db db' : Db) (r : PurchaseResponseDto.t) (item : PurchaseItemDto.t)
  (storeItem : StoreItem.t) (profileId : string) (profile : CharacterProfile.t)
  (slot : option string) :
  NoDup (map StoreItem.id (storeItems db)) ->
  createPurchase userId dto db = (inr r, db') ->
  In item (CreatePurchaseDto.items dto) ->
  storeItems_find (storeItems db) (PurchaseItemDto.itemId item) = Some storeItem ->
  StoreItem.type storeItem = NON_CONSUMABLE ->
  isInstant storeItem = false ->
  find (fun p => String.eqb (CharacterProfile.id p) profileId
                 && String.eqb (CharacterProfile.userId p) userId)
       (characterProfiles db) = Some profile ->
  (truthy (StoreItem.gameId storeItem) = true ->
   StoreItem.gameId storeItem = CharacterProfile.gameId profile) ->
  exists db'',
    equipItem userId profileId (EquipItemDto.mk (PurchaseItemDto.itemId item) slot) db'
    = (inr (CharacterEquippedItem.mk (cuid (nextId db')) profileId
              (PurchaseItemDto.itemId item) (equipmentSlot slot storeItem)), db'').
Proof.
  intros Hpk Hrun Hin Hrow Hty Hinst Hprofile Hgame.
  destruct (createPurchase_line _ _ _ _ _ _ _ Hpk Hrun Hin Hrow) as (Hcat & _ & Hline).
  unfold granted in Hline. simpl in Hline. rewrite Hinst, Hty in Hline.
  assert (Hprofiles : characterProfiles db' = characterProfiles db).
  { destruct (createPurchase_accepted _ _ _ _ _ Hrun)
      as (selected & totalCost & wallet & inv & _ & _ & _ & _ & _ & _ & ->).
    reflexivity. }
  rewrite equipItem_run. simpl. rewrite Hprofiles, Hprofile.
  change (fun r0 => String.eqb (UserInventory.userId r0) userId
                    && String.eqb (UserInventory.itemId r0) (PurchaseItemDto.itemId item)
                    && negb (UserInventory.isConsumed r0))
    with (fun r0 => ownedBy userId (PurchaseItemDto.itemId item) r0
                    && negb (UserInventory.isConsumed r0)).
  rewrite find_filter_and. fold (inventoryOf userId (PurchaseItemDto.itemId item) db').
  rewrite Hline, find_app_split.
  assert (Hfound : exists inventoryItem,
            match find (fun r0 => negb (UserInventory.isConsumed r0))
                    (inventoryOf userId (PurchaseItemDto.itemId item) db) with
            | Some a => Some a
            | None => find (fun r0 => negb (UserInventory.isConsumed r0))
                        [UserInventory.mk userId (PurchaseItemDto.itemId item) 1 false]
            end = Some inventoryItem /\
            UserInventory.itemId inventoryItem = PurchaseItemDto.itemId item).
  { destruct (find _ (inventoryOf userId (PurchaseItemDto.itemId item) db)) as [a|] eqn:Ea.
    - exists a. split; [reflexivity|]. apply find_some in Ea. destruct Ea as [Ha _].
      unfold inventoryOf in Ha. apply filter_In in Ha. destruct Ha as [_ Ha].
      now apply ownedBy_key in Ha.
    - eexists. split; reflexivity. }
  destruct Hfound as (inventoryItem & -> & Hitem).
  rewrite Hitem, Hcat. unfold storeItems_find in Hrow. rewrite Hrow.
  rewrite validateItemCompatibility_run. simpl.
  assert (Hok : truthy (StoreItem.gameId storeItem)
                && negb (nullable_eqb (StoreItem.gameId storeItem)
                           (CharacterProfile.gameId profile)) = false).
  { destruct (truthy (StoreItem.gameId storeItem)); [|reflexivity]. simpl.
    apply negb_false_iff. apply nullable_eqb_eq. now apply Hgame. }
  rewrite Hok, Hty. eexists. reflexivity.
Qed.

Lemma createPurchase_then_equipItem_witness :
  exists db'',
    equipItem "demo" "p1" (EquipItemDto.mk "ak47" None) Scenes.afterSkinOrder
    = (inr (CharacterEquippedItem.mk (cuid (nextId Scenes.afterSkinOrder)) "p1" "ak47"
              (equipmentSlot None Demo.ak47)), db'').
Proof.
  apply (createPurchase_then_equipItem "demo" Demo.skinOrder Demo.seed Scenes.afterSkinOrder
           Scenes.skinResponse (PurchaseItemDto.mk "ak47" 1) Demo.ak47 "p1"
           (CharacterProfile.mk "p1" "demo" (Some "cod") "Ghost_Warrior" true) None).
  - simpl. repeat constructor; simpl; intuition discriminate.
  - vm_compute. reflexivity.
  - simpl. now left.
  - vm_compute. reflexivity.
  - reflexivity.
  - reflexivity.
  - vm_compute. reflexivity.
  - reflexivity.
Defined.
